(** * Cart consistency: the SQLite cart store (db.js), the cart routes of
      server.js and the optimistic cart of the React client.

    The development is a shallow embedding.  Every store function of db.js
    is a function from the state of the connection to a result and a new
    state; the callback [(err, value)] of the source is the [result]
    returned.  The routes of server.js are functions from the verified
    user, the request and the connection state to a response and a new
    state.  The client components keep their cart in a heap of objects,
    because the source shares item objects between the arrays it copies. *)

From stdpp Require Import base list gmap strings pretty.
From Stdlib Require Import ZArith Ascii String Lia.

Local Open Scope string_scope.
Local Open Scope Z_scope.

(** ** JavaScript values *)

Module Js.

(** A number that is not an integer: the finite double [(2k+1) / 2^e],
    or an infinity. *)
Inductive real : Type :=
| Frac (k : Z) (e : positive)
| Infinity (negative : bool).

(** Numbers are the IEEE doubles: NaN, the integers among them ([Int z]
    for a [z] that is a double), and the others.  The two zeros are one
    number here: no operation of the program tells them apart. *)
Inductive num : Type :=
| NaN
| Int (z : Z)
| Real (x : real).

Coercion Int : Z >-> num.

(** The scalars that reach the store: [undefined], [null], numbers and
    strings.  A string is a sequence of code units below 256. *)
Inductive value : Type :=
| JUndefined
| JNull
| JNum (n : num)
| JStr (s : string).

(** [!!v] *)
Definition truthy (v : value) : bool :=
  match v with
  | JUndefined | JNull => false
  | JNum NaN => false
  | JNum (Int z) => negb (z =? 0)
  | JNum (Real _) => true
  | JStr s => negb (String.eqb s "")
  end.

(** [typeof v === "number"] and [typeof v === "string"] *)
Definition is_number (v : value) : bool :=
  match v with JNum _ => true | _ => false end.

Definition is_string (v : value) : bool :=
  match v with JStr _ => true | _ => false end.

(** *** Numbers *)

Definition real_eqb (x y : real) : bool :=
  match x, y with
  | Frac k e, Frac k' e' => (k =? k') && (e =? e')%positive
  | Infinity s, Infinity s' => Bool.eqb s s'
  | _, _ => false
  end.

(** [a === b] on numbers: NaN equals nothing. *)
Definition num_eqb (a b : num) : bool :=
  match a, b with
  | Int x, Int y => x =? y
  | Real x, Real y => real_eqb x y
  | _, _ => false
  end.

(** [p / 2^e] with the sign given, in lowest terms. *)
Fixpoint lowest (negative : bool) (p e : positive) : num :=
  match p with
  | xO p' =>
      match e with
      | xH => Int (if negative then Z.neg p' else Z.pos p')
      | _ => lowest negative p' (Pos.pred e)
      end
  | _ =>
      Real (Frac (if negative then (Z.neg p - 1) / 2 else (Z.pos p - 1) / 2) e)
  end.

(** The number [m * 2^e]. *)
Definition dyadic (m e : Z) : num :=
  match m with
  | 0 => Int 0
  | Z.pos p =>
      if 0 <=? e then Int (m * 2 ^ e) else lowest false p (Z.to_pos (- e))
  | Z.neg p =>
      if 0 <=? e then Int (m * 2 ^ e) else lowest true p (Z.to_pos (- e))
  end.

(** The number of bits of [a], for [a] above zero. *)
Definition bits (a : Z) : Z := Z.log2 a + 1.

(** The double [q * 2^t] with the sign given; from [2^1024] on it is an
    infinity. *)
Definition double_of (negative : bool) (q t : Z) : num :=
  if q =? 0 then Int 0
  else if 1024 <? bits q + t then Real (Infinity negative)
  else dyadic (if negative then - q else q) t.

(** Round to nearest, ties to even: [q + 1] when the part cut off is above
    half a unit, or is half a unit and [q] is odd. *)
Definition half_even (q twice_rest unit : Z) : Z :=
  if (unit <? twice_rest) || ((twice_rest =? unit) && Z.odd q) then q + 1 else q.

(** The double nearest to [m * 2^e]: 53 significant bits, the last bit
    worth at least [2^-1074]. *)
Definition round_dyadic (m e : Z) : num :=
  let a := Z.abs m in
  if a =? 0 then Int 0
  else
    let t := Z.max (bits a + e - 53) (-1074) in
    if t <=? e then double_of (m <? 0) a e
    else
      let unit := 2 ^ (t - e) in
      double_of (m <? 0) (half_even (a / unit) (2 * (a mod unit)) unit) t.

(** The double nearest to [n / d], for [0 <= n] and [0 < d], with the
    sign given. *)
Definition round_ratio (negative : bool) (n d : Z) : num :=
  if n =? 0 then Int 0
  else
    let L := bits n - bits d in
    let fl :=
      if 0 <=? L then (if d * 2 ^ L <=? n then L else L - 1)
      else (if d <=? n * 2 ^ (- L) then L else L - 1) in
    let t := Z.max (fl - 52) (-1074) in
    let N := if 0 <=? t then n else n * 2 ^ (- t) in
    let D := if 0 <=? t then d * 2 ^ t else d in
    double_of negative (half_even (N / D) (2 * (N mod D)) D) t.

(** The double nearest to [m * 10^ex], for [0 <= m].  Far outside the
    range of the doubles the result is known without the power. *)
Definition decimal (negative : bool) (m ex : Z) : num :=
  if m =? 0 then Int 0
  else if 400 <? ex + bits m then Real (Infinity negative)
  else if ex + bits m <? -400 then Int 0
  else if 0 <=? ex then round_ratio negative (m * 10 ^ ex) 1
  else round_ratio negative m (10 ^ (- ex)).

(** The double an integer is converted to. *)
Definition to_double (z : Z) : num :=
  if Z.abs z <=? 2 ^ 53 then Int z else round_dyadic z 0.

(** [a + b]; the finite numbers are added exactly as [m * 2^e] and the
    sum is rounded. *)
Definition add_parts (m1 e1 m2 e2 : Z) : num :=
  let e := Z.min e1 e2 in
  round_dyadic (m1 * 2 ^ (e1 - e) + m2 * 2 ^ (e2 - e)) e.

Definition num_add (a b : num) : num :=
  match a, b with
  | NaN, _ | _, NaN => NaN
  | Real (Infinity s), Real (Infinity s') => if Bool.eqb s s' then a else NaN
  | Real (Infinity _), _ => a
  | _, Real (Infinity _) => b
  | Int x, Int y => to_double (x + y)
  | Int x, Real (Frac k e) => add_parts x 0 (2 * k + 1) (- Z.pos e)
  | Real (Frac k e), Int y => add_parts (2 * k + 1) (- Z.pos e) y 0
  | Real (Frac k e), Real (Frac k' e') =>
      add_parts (2 * k + 1) (- Z.pos e) (2 * k' + 1) (- Z.pos e')
  end.

(** [- a] *)
Definition num_opp (a : num) : num :=
  match a with
  | NaN => NaN
  | Int z => Int (- z)
  | Real (Frac k e) => Real (Frac (- k - 1) e)
  | Real (Infinity s) => Real (Infinity (negb s))
  end.

(** [a - b] *)
Definition num_sub (a b : num) : num := num_add a (num_opp b).

(** The order of two numbers; [None] when one of them is NaN. *)
Definition compare_parts (m1 e1 m2 e2 : Z) : comparison :=
  let e := Z.min e1 e2 in
  (m1 * 2 ^ (e1 - e) ?= m2 * 2 ^ (e2 - e)).

Definition num_compare (a b : num) : option comparison :=
  match a, b with
  | NaN, _ | _, NaN => None
  | Real (Infinity s), Real (Infinity s') =>
      Some (if Bool.eqb s s' then Eq else if s then Lt else Gt)
  | Real (Infinity s), _ => Some (if s then Lt else Gt)
  | _, Real (Infinity s) => Some (if s then Gt else Lt)
  | Int x, Int y => Some (x ?= y)
  | Int x, Real (Frac k e) => Some (compare_parts x 0 (2 * k + 1) (- Z.pos e))
  | Real (Frac k e), Int y => Some (compare_parts (2 * k + 1) (- Z.pos e) y 0)
  | Real (Frac k e), Real (Frac k' e') =>
      Some (compare_parts (2 * k + 1) (- Z.pos e) (2 * k' + 1) (- Z.pos e'))
  end.

(** [a < b] and [a <= b]: false when one of them is NaN. *)
Definition num_ltb (a b : num) : bool :=
  match num_compare a b with Some Lt => true | _ => false end.

Definition num_leb (a b : num) : bool :=
  match num_compare a b with Some Lt | Some Eq => true | _ => false end.

(** [Math.max(a, b)] *)
Definition num_max (a b : num) : num :=
  match num_compare a b with
  | None => NaN
  | Some Lt => b
  | Some _ => a
  end.

(** *** Numbers as strings *)

(** A finite number above zero as a fraction [(n, d)]. *)
Definition ratio (a : num) : Z * Z :=
  match a with
  | Int z => (z, 1)
  | Real (Frac k e) => (2 * k + 1, 2 ^ Z.pos e)
  | _ => (0, 1)
  end.

(** The number of decimal digits of [q]. *)
Fixpoint count_digits (fuel : nat) (q : Z) : Z :=
  match fuel with
  | O => 0
  | S f => if q <=? 0 then 0 else 1 + count_digits f (q / 10)
  end.

(** Minus the number of zeros between the point and the first digit of
    [n / d], for [n < d]. *)
Fixpoint leading_zeros (fuel : nat) (n d : Z) : Z :=
  match fuel with
  | O => 0
  | S f => if n * 10 <? d then leading_zeros f (n * 10) d - 1 else 0
  end.

(** The [n] with [10^(n-1) <= x < 10^n], for [x = N / D] above zero. *)
Definition magnitude (N D : Z) : Z :=
  if D <=? N then count_digits (S (Z.to_nat (Z.log2 (N / D)))) (N / D)
  else leading_zeros 400 N D.

(** [s * 10^-p] is above zero and the double nearest to it is [x]. *)
Definition reads_back (x : num) (s p : Z) : bool :=
  (0 <? s) &&
  num_eqb x (if 0 <=? p then round_ratio false s (10 ^ p)
             else round_ratio false (s * 10 ^ (- p)) 1).

(** One length [k] of Number::toString: the integer [s] with
    [s * 10^(n-k)] nearest to [x = N / D] among those that read back as
    [x], the even one of two equally near; [None] when none of length [k]
    reads back as [x]. *)
Definition digits_of_length (x : num) (N D n k : Z) : option Z :=
  let p := k - n in
  let A := if 0 <=? p then N * 10 ^ p else N in
  let B := if 0 <=? p then D else D * 10 ^ (- p) in
  let lo := A / B in
  let below := A - lo * B in
  let above := (lo + 1) * B - A in
  match reads_back x lo p, reads_back x (lo + 1) p with
  | true, true =>
      Some (if below <? above then lo
            else if above <? below then lo + 1
            else if Z.even lo then lo else lo + 1)
  | true, false => Some lo
  | false, true => Some (lo + 1)
  | false, false => None
  end.

(** The shortest digits: [(s, k, n)] with [k] as small as possible; 17
    digits are enough for a double. *)
Fixpoint shortest (fuel : nat) (x : num) (N D n k : Z) : Z * Z * Z :=
  match fuel with
  | O =>
      (Z.max 1 ((if 0 <=? k - n then N * 10 ^ (k - n) else N) /
                (if 0 <=? k - n then D else D * 10 ^ (n - k))), k, n)
  | S f =>
      match digits_of_length x N D n k with
      | Some s => if s =? 10 ^ k then (10 ^ (k - 1), k, n + 1) else (s, k, n)
      | None => shortest f x N D n (k + 1)
      end
  end.

Fixpoint zeros (n : nat) : string :=
  match n with
  | O => ""
  | S m => String "0" (zeros m)
  end.

(** The digits of Number::toString laid out: plain, with a point, after
    [0.], or with an exponent. *)
Definition layout (s k n : Z) : string :=
  let ds := pretty s in
  if (k <=? n) && (n <=? 21) then ds ++ zeros (Z.to_nat (n - k))
  else if (0 <? n) && (n <=? 21)
  then substring 0 (Z.to_nat n) ds ++ "." ++
       substring (Z.to_nat n) (Z.to_nat (k - n)) ds
  else if (-6 <? n) && (n <=? 0)
  then "0." ++ zeros (Z.to_nat (- n)) ++ ds
  else
    let ex := (if 0 <=? n - 1 then "+" else "-") ++ pretty (Z.abs (n - 1)) in
    if k =? 1 then ds ++ "e" ++ ex
    else substring 0 1 ds ++ "." ++ substring 1 (Z.to_nat (k - 1)) ds ++
         "e" ++ ex.

Definition positive_to_string (x : num) : string :=
  let '(N, D) := ratio x in
  let '(s, k, n) := shortest 17 x N D (magnitude N D) 1 in
  layout s k n.

(** [String(x)] on a number *)
Definition number_to_string (x : num) : string :=
  match x with
  | NaN => "NaN"
  | Real (Infinity false) => "Infinity"
  | Real (Infinity true) => "-Infinity"
  | Int 0 => "0"
  | _ =>
      if num_ltb x (Int 0) then String "-" (positive_to_string (num_opp x))
      else positive_to_string x
  end.

(** *** Strings as numbers *)

(** White space removed by [trim] and skipped by [parseInt]: TAB, LF, VT,
    FF, CR, SP and NBSP. *)
Definition is_space (c : ascii) : bool :=
  let n := N_of_ascii c in
  ((9 <=? n)%N && (n <=? 13)%N) || (n =? 32)%N || (n =? 160)%N.

Fixpoint trim_start (s : string) : string :=
  match s with
  | EmptyString => EmptyString
  | String c rest => if is_space c then trim_start rest else s
  end.

Fixpoint trim_end (s : string) : string :=
  match s with
  | EmptyString => EmptyString
  | String c rest =>
      match trim_end rest with
      | EmptyString => if is_space c then EmptyString else String c EmptyString
      | kept => String c kept
      end
  end.

(** [s.trim()] *)
Definition trim (s : string) : string := trim_end (trim_start s).

Definition digit_of (c : ascii) : option Z :=
  let n := N_of_ascii c in
  if ((48 <=? n)%N && (n <=? 57)%N)%bool then Some (Z.of_N n - 48) else None.

(** The decimal digits a string starts with: their value after [acc],
    how many they are, and what follows them. *)
Fixpoint read_digits (s : string) (acc count : Z) : Z * Z * string :=
  match s with
  | EmptyString => (acc, count, s)
  | String c rest =>
      match digit_of c with
      | Some d => read_digits rest (10 * acc + d) (count + 1)
      | None => (acc, count, s)
      end
  end.

(** A sign, when the string starts with one. *)
Definition read_sign (s : string) : bool * string :=
  match s with
  | String "-" rest => (true, rest)
  | String "+" rest => (false, rest)
  | _ => (false, s)
  end.

(** The exponent part a decimal literal ends with: nothing, or [e] or
    [E], a sign and digits. *)
Definition read_exponent (s : string) : option Z :=
  match s with
  | EmptyString => Some 0
  | String c rest =>
      if Ascii.eqb c "e" || Ascii.eqb c "E"
      then
        let '(negative, rest1) := read_sign rest in
        match read_digits rest1 0 0 with
        | (ex, count, EmptyString) =>
            if 0 <? count then Some (if negative then - ex else ex) else None
        | _ => None
        end
      else None
  end.

(** A decimal literal without sign: digits, a point, digits and an
    exponent, with a digit before the exponent.  The result
    [(whole, m, ex)] stands for [m * 10^ex]; [whole] says that the literal
    is digits only. *)
Definition unsigned_literal (s : string) : option (bool * Z * Z) :=
  let '(m1, n1, rest1) := read_digits s 0 0 in
  match rest1 with
  | EmptyString => if 0 <? n1 then Some (true, m1, 0) else None
  | String "." rest2 =>
      let '(m2, n2, rest3) := read_digits rest2 m1 0 in
      if 0 <? n1 + n2
      then
        match read_exponent rest3 with
        | Some ex => Some (false, m2, ex - n2)
        | None => None
        end
      else None
  | _ =>
      if 0 <? n1
      then
        match read_exponent rest1 with
        | Some ex => Some (false, m1, ex)
        | None => None
        end
      else None
  end.

(** A decimal literal with its sign: [(whole, negative, m, ex)]. *)
Definition decimal_literal (s : string) : option (bool * bool * Z * Z) :=
  let '(negative, rest) := read_sign s in
  match unsigned_literal rest with
  | Some (whole, m, ex) => Some (whole, negative, m, ex)
  | None => None
  end.

(** A literal in base 16, 8 or 2: [0x], [0o] or [0b] and digits. *)
Definition digit_in (base : Z) (c : ascii) : option Z :=
  let n := Z.of_N (N_of_ascii c) in
  let d :=
    if (48 <=? n) && (n <=? 57) then n - 48
    else if (97 <=? n) && (n <=? 102) then n - 87
    else if (65 <=? n) && (n <=? 70) then n - 55
    else base in
  if d <? base then Some d else None.

Fixpoint read_base (base : Z) (s : string) (acc : Z) : option Z :=
  match s with
  | EmptyString => Some acc
  | String c rest =>
      match digit_in base c with
      | Some d => read_base base rest (base * acc + d)
      | None => None
      end
  end.

Definition prefixed_literal (s : string) : option Z :=
  match s with
  | String "0" (String c (String d rest)) =>
      let digits := String d rest in
      if Ascii.eqb c "x" || Ascii.eqb c "X" then read_base 16 digits 0
      else if Ascii.eqb c "o" || Ascii.eqb c "O" then read_base 8 digits 0
      else if Ascii.eqb c "b" || Ascii.eqb c "B" then read_base 2 digits 0
      else None
  | _ => None
  end.

(** [Number(s)] on a string: white space is trimmed, the empty string is
    0, and the rest is [Infinity] with a sign, a literal with a prefix, or
    a decimal literal, read as the nearest double; anything else is NaN. *)
Definition string_to_number (s : string) : num :=
  let t := trim s in
  if String.eqb t "" then Int 0
  else if String.eqb t "Infinity" || String.eqb t "+Infinity"
  then Real (Infinity false)
  else if String.eqb t "-Infinity" then Real (Infinity true)
  else
    match prefixed_literal t with
    | Some z => to_double z
    | None =>
        match decimal_literal t with
        | Some (_, negative, m, ex) => decimal negative m ex
        | None => NaN
        end
    end.

(** [parseInt(s, 10)] on a string: leading white space is skipped, one
    sign is read, then the digits, which are read as the nearest double;
    NaN when no digit follows. *)
Definition parseInt (s : string) : num :=
  let '(negative, rest) := read_sign (trim_start s) in
  match read_digits rest 0 0 with
  | (z, count, _) =>
      if 0 <? count then to_double (if negative then - z else z) else NaN
  end.

(** [String(v)] *)
Definition to_string (v : value) : string :=
  match v with
  | JStr s => s
  | JNum n => number_to_string n
  | JUndefined => "undefined"
  | JNull => "null"
  end.

(** [parseInt(v, 10)] on any value: the argument is first converted to a
    string.  An integer below [10^21] is written with its digits and so is
    read back as it is; [undefined], [null] and NaN give NaN. *)
Definition parseInt_value (v : value) : num :=
  match v with
  | JNum (Int z) =>
      if Z.abs z <? 10 ^ 21 then Int z else parseInt (number_to_string (Int z))
  | _ => parseInt (to_string v)
  end.

(** [Number(v)] *)
Definition to_number (v : value) : num :=
  match v with
  | JUndefined => NaN
  | JNull => Int 0
  | JNum n => n
  | JStr s => string_to_number s
  end.

(** [isNaN(v)] *)
Definition isNaN (v : value) : bool :=
  match to_number v with NaN => true | _ => false end.

(** [v <= 0], [v > 0] and [v < 1]: comparisons with NaN are false. *)
Definition le_zero (v : value) : bool := num_leb (to_number v) (Int 0).

Definition gt_zero (v : value) : bool := num_ltb (Int 0) (to_number v).

Definition lt_one (v : value) : bool := num_ltb (to_number v) (Int 1).

(** [a || b] on values *)
Definition or_else (a b : value) : value := if truthy a then a else b.

(** [a === b] *)
Definition strict_eq (a b : value) : bool :=
  match a, b with
  | JUndefined, JUndefined | JNull, JNull => true
  | JNum x, JNum y => num_eqb x y
  | JStr s, JStr t => String.eqb s t
  | _, _ => false
  end.

End Js.

(** ** The cart store: db.js over the SQLite engine *)

Module Db.
Import Js.

(** A value of the columns [user_id] and [product_id], which have INTEGER
    affinity: an integer, a number that is not an integer, or a text that
    does not read as a number.  A number is stored by its value: an
    integer in the range of the 64-bit integers is an INTEGER and is kept
    exactly, any other number is a REAL, a double. *)
Inductive pidval : Type :=
| PInt (z : Z)
| PReal (x : real)
| PText (s : string).

Coercion PInt : Z >-> pidval.

Definition pid_eqb (a b : pidval) : bool :=
  match a, b with
  | PInt x, PInt y => x =? y
  | PReal x, PReal y => real_eqb x y
  | PText s, PText t => String.eqb s t
  | _, _ => false
  end.

(** One row of the table [carts].  The columns [id] and [created_at] are
    assigned by the engine and read by no statement of the program.
    [price] and [quantity] are NOT NULL and so never hold NaN, which is
    bound as NULL; an integer [quantity] in the range of the 64-bit
    integers is an INTEGER, kept exactly. *)
Record row : Type := mkRow {
  user_id : pidval;
  product_id : pidval;
  email : string;
  title : string;
  price : num;
  image : string;
  quantity : num
}.

(** The connection: the table, and the rows saved by [BEGIN TRANSACTION]
    while a transaction is open. *)
Record db : Type := mkDb {
  carts : list row;
  journal : option (list row)
}.

Definition empty_db : db := mkDb [] None.

(** [new Error(msg)] of an argument guard is [InvalidInput]; an error of
    the engine, and the "Insert error" that stands for one, is
    [StorageError]. *)
Inductive error : Type :=
| InvalidInput (msg : string)
| StorageError (msg : string).

Inductive result (A : Type) : Type :=
| Ok (a : A)
| Err (e : error).
Arguments Ok {A} a.
Arguments Err {A} e.

(** *** Statements *)

Definition exec_begin (d : db) : option error * db :=
  match journal d with
  | Some _ =>
      (Some (StorageError
               "SQLITE_ERROR: cannot start a transaction within a transaction"),
       d)
  | None => (None, mkDb (carts d) (Some (carts d)))
  end.

Definition exec_commit (d : db) : option error * db :=
  match journal d with
  | Some _ => (None, mkDb (carts d) None)
  | None =>
      (Some (StorageError "SQLITE_ERROR: cannot commit - no transaction is active"),
       d)
  end.

(** The source ignores the error of [ROLLBACK]. *)
Definition exec_rollback (d : db) : db :=
  match journal d with
  | Some saved => mkDb saved None
  | None => d
  end.

Definition owned_by (u : pidval) (r : row) : bool := pid_eqb (user_id r) u.

Definition has_key (u p : pidval) (r : row) : bool :=
  pid_eqb (user_id r) u && pid_eqb (product_id r) p.

Definition changes (f : row -> bool) (rows : list row) : Z :=
  Z.of_nat (List.length (List.filter f rows)).

(** [DELETE FROM carts WHERE user_id = ?] *)
Definition exec_delete_user (u : pidval) (d : db) : Z * db :=
  (changes (owned_by u) (carts d),
   mkDb (List.filter (fun r => negb (owned_by u r)) (carts d)) (journal d)).

(** [DELETE FROM carts WHERE user_id = ? AND product_id = ?] *)
Definition exec_delete_line (u p : pidval) (d : db) : Z * db :=
  (changes (has_key u p) (carts d),
   mkDb (List.filter (fun r => negb (has_key u p r)) (carts d)) (journal d)).

Definition set_quantity (q : num) (r : row) : row :=
  mkRow (user_id r) (product_id r) (email r) (title r) (price r) (image r) q.

(** [UPDATE carts SET quantity = ? WHERE user_id = ? AND product_id = ?],
    for a quantity that is not NaN: the caller has checked it. *)
Definition exec_update_quantity (q : num) (u p : pidval) (d : db) : Z * db :=
  (changes (has_key u p) (carts d),
   mkDb (List.map (fun r => if has_key u p r then set_quantity q r else r)
           (carts d))
     (journal d)).

Definition is_nan (n : num) : bool :=
  match n with NaN => true | _ => false end.

(** [INSERT INTO carts (user_id, product_id, email, title, price, image,
    quantity) VALUES (?, ?, ?, ?, ?, ?, ?)].  A NULL product id, or a
    price or quantity that is NaN, which is bound as NULL, breaks NOT
    NULL; a row with the same user and product breaks UNIQUE(user_id,
    product_id).  A failed statement changes nothing. *)
Definition exec_insert (u : pidval) (p : option pidval) (em ti : string)
    (pr : num) (im : string) (q : num) (d : db) : option error * db :=
  match p with
  | None =>
      (Some (StorageError
               "SQLITE_CONSTRAINT: NOT NULL constraint failed: carts.product_id"),
       d)
  | Some p =>
      if is_nan pr
      then (Some (StorageError
                    "SQLITE_CONSTRAINT: NOT NULL constraint failed: carts.price"),
            d)
      else if is_nan q
      then (Some (StorageError
                    "SQLITE_CONSTRAINT: NOT NULL constraint failed: carts.quantity"),
            d)
      else if existsb (has_key u p) (carts d)
      then (Some (StorageError
                    "SQLITE_CONSTRAINT: UNIQUE constraint failed: carts.user_id, carts.product_id"),
            d)
      else (None, mkDb (carts d ++ [mkRow u p em ti pr im q])%list (journal d))
  end.

(** The range of the 64-bit integers. *)
Definition int64 (z : Z) : bool := (- 2 ^ 63 <=? z) && (z <? 2 ^ 63).

(** [a + b] in SQL.  The sum of two INTEGERs is exact when it is in the
    range of the 64-bit integers; any other sum is the sum of the doubles.
    The column affinity stores a sum that is an integer as an integer. *)
Definition sql_add (a b : num) : num :=
  match a, b with
  | Int x, Int y =>
      if int64 x && int64 y && int64 (x + y) then Int (x + y)
      else num_add (to_double x) (to_double y)
  | Int x, _ => num_add (to_double x) b
  | _, Int y => num_add a (to_double y)
  | _, _ => num_add a b
  end.

(** The [DO UPDATE SET] of the upsert: quantity is added, title, price and
    image are taken from the excluded row, email is kept. *)
Definition merge_excluded (ti : string) (pr : num) (im : string) (q : num)
    (r : row) : row :=
  mkRow (user_id r) (product_id r) (email r) ti pr im (sql_add (quantity r) q).

(** [INSERT ... ON CONFLICT(user_id, product_id) DO UPDATE SET
    quantity = quantity + excluded.quantity, title = excluded.title,
    price = excluded.price, image = excluded.image].  A sum that is NaN
    (the two infinities) is NULL and breaks NOT NULL. *)
Definition exec_upsert (u : pidval) (p : option pidval) (em ti : string)
    (pr : num) (im : string) (q : num) (d : db) : option error * db :=
  match p with
  | None =>
      (Some (StorageError
               "SQLITE_CONSTRAINT: NOT NULL constraint failed: carts.product_id"),
       d)
  | Some p =>
      if is_nan pr
      then (Some (StorageError
                    "SQLITE_CONSTRAINT: NOT NULL constraint failed: carts.price"),
            d)
      else if is_nan q
      then (Some (StorageError
                    "SQLITE_CONSTRAINT: NOT NULL constraint failed: carts.quantity"),
            d)
      else if existsb (has_key u p) (carts d)
      then
        if existsb (fun r => has_key u p r && is_nan (sql_add (quantity r) q))
             (carts d)
        then (Some (StorageError
                      "SQLITE_CONSTRAINT: NOT NULL constraint failed: carts.quantity"),
              d)
        else
          (None,
           mkDb (List.map (fun r => if has_key u p r
                                    then merge_excluded ti pr im q r else r)
                   (carts d))
             (journal d))
      else (None, mkDb (carts d ++ [mkRow u p em ti pr im q])%list (journal d))
  end.

(** A row as [getCartByUserId] selects it: [product_id as id, email, title,
    price, image, quantity].  The engine hands an INTEGER over as the
    nearest double. *)
Record line : Type := mkLine {
  line_id : value;
  line_email : string;
  line_title : string;
  line_price : num;
  line_image : string;
  line_quantity : num
}.

Definition read_number (n : num) : num :=
  match n with
  | Int z => to_double z
  | _ => n
  end.

Definition read_value (p : pidval) : value :=
  match p with
  | PInt z => JNum (to_double z)
  | PReal x => JNum (Real x)
  | PText s => JStr s
  end.

Definition select_line (r : row) : line :=
  mkLine (read_value (product_id r)) (email r) (title r)
    (read_number (price r)) (image r) (read_number (quantity r)).

(** [SELECT ... FROM carts WHERE user_id = ?] *)
Definition exec_select_cart (u : pidval) (d : db) : list line :=
  List.map select_line (List.filter (owned_by u) (carts d)).

(** *** Arguments *)

(** [typeof x === "string" ? parseInt(x, 10) : x] *)
Definition to_int (x : value) : value :=
  match x with
  | JStr s => JNum (parseInt s)
  | _ => x
  end.

(** [!id || isNaN(id) || id <= 0] *)
Definition invalid_id (id : value) : bool :=
  negb (truthy id) || isNaN id || le_zero id.

(** A number as it is bound to a statement and held by a column of
    INTEGER affinity; [None] is NULL. *)
Definition stored (n : num) : option pidval :=
  match n with
  | NaN => None
  | Int z => Some (PInt z)
  | Real x => Some (PReal x)
  end.

(** The id bound to a statement for a number that passed the guard. *)
Definition int_of (v : value) : pidval :=
  match v with
  | JNum (Int z) => PInt z
  | JNum (Real x) => PReal x
  | _ => PInt 0
  end.

(** [!email || typeof email !== "string"] *)
Definition invalid_email (em : value) : bool :=
  negb (truthy em) || negb (is_string em).

(** [email.trim()] *)
Definition trim_value (v : value) : string :=
  match v with
  | JStr s => trim s
  | _ => ""
  end.

(** An element of [cartItems], and the [item] of an upsert: an object whose
    [title] and [image] are strings or absent. *)
Record item : Type := mkItem {
  item_id : value;
  item_title : option string;
  item_price : value;
  item_image : option string;
  item_quantity : value
}.

(** [item.title?.trim() || ""] *)
Definition opt_trim (o : option string) : string :=
  match o with
  | Some s => trim s
  | None => ""
  end.

(** [typeof item.price === "number" ? item.price : 0] *)
Definition price_of (v : value) : num :=
  match v with
  | JNum n => n
  | _ => Int 0
  end.

(** [typeof item.quantity === "number" && item.quantity > 0 ? item.quantity : 1] *)
Definition quantity_of (v : value) : num :=
  if is_number v && gt_zero v then to_number v else Int 1.

(** *** Text in a column of INTEGER affinity *)

(** The white space of the engine: TAB, LF, VT, FF, CR and SP. *)
Definition sqlite_space (c : ascii) : bool :=
  let n := N_of_ascii c in
  ((9 <=? n)%N && (n <=? 13)%N) || (n =? 32)%N.

Fixpoint skip_spaces (s : string) : string :=
  match s with
  | EmptyString => EmptyString
  | String c rest => if sqlite_space c then skip_spaces rest else s
  end.

Fixpoint drop_spaces (s : string) : string :=
  match s with
  | EmptyString => EmptyString
  | String c rest =>
      match drop_spaces rest with
      | EmptyString => if sqlite_space c then EmptyString else String c EmptyString
      | kept => String c kept
      end
  end.

(** [m * 10^ex] when it is an integer of at most [2^53], for [0 <= m]. *)
Definition whole_value (m ex : Z) : option Z :=
  if m =? 0 then Some 0
  else if 0 <=? ex
  then
    if ex <=? 16
    then (if m * 10 ^ ex <=? 2 ^ 53 then Some (m * 10 ^ ex) else None)
    else None
  else if bits m <? - ex then None
  else if m mod 10 ^ (- ex) =? 0
  then (if m / 10 ^ (- ex) <=? 2 ^ 53 then Some (m / 10 ^ (- ex)) else None)
  else None.

(** The engine's conversion of a text that reads as a number to a double
    ([sqlite3AtoF]).  It is not always the nearest double, and differs
    between versions of the engine, so it is left open. *)
Class Engine : Type := { sqlite3AtoF : string -> num }.

Section Bound.

Context `{engine : Engine}.

(** A text in a column of INTEGER affinity.  A text that does not read as
    a number (white space, a sign, digits with at most one point, an
    exponent) stays a text.  Digits only, in the range of the 64-bit
    integers, are that integer.  A literal with a point or an exponent
    whose value is an integer of at most [2^53] is that integer.  Any
    other literal is the double the engine converts it to. *)
Definition numeric_affinity (s : string) : option pidval :=
  match decimal_literal (drop_spaces (skip_spaces s)) with
  | None => Some (PText s)
  | Some (whole, negative, m, ex) =>
      let signed (z : Z) : Z := if negative then - z else z in
      if whole && int64 (signed m) then Some (PInt (signed m))
      else
        match (if whole then None else whole_value m ex) with
        | Some z => Some (PInt (signed z))
        | None => stored (sqlite3AtoF s)
        end
  end.

(** The value of [item.id] as the column [product_id] stores it; [None] is
    NULL ([undefined], [null] and NaN are bound as NULL). *)
Definition bind_product_id (v : value) : option pidval :=
  match v with
  | JUndefined | JNull => None
  | JNum n => stored n
  | JStr s => numeric_affinity s
  end.

(** *** The exported functions *)

(** [getCartByUserId(userId, callback)] *)
Definition getCartByUserId (userId : value) (d : db) : result (list line) * db :=
  let id := to_int userId in
  if invalid_id id then (Err (InvalidInput "Valid user ID is required"), d)
  else (Ok (exec_select_cart (int_of id) d), d).

(** One [insertStmt.run(...)] of [saveCart]. *)
Definition insert_item (id : pidval) (em : string) (it : item) (d : db)
    : option error * db :=
  exec_insert id (bind_product_id (item_id it)) em (opt_trim (item_title it))
    (price_of (item_price it)) (opt_trim (item_image it))
    (quantity_of (item_quantity it)) d.

(** The loop [for (const item of cartItems) { if (hasError) break; ... }].
    [hasError] is written by the callback of a failed insert.  [observed]
    says whether the loop test sees that write before the next element
    (the engine calls back after the loop has queued every element, so it
    does not; both readings are kept). *)
Fixpoint insert_loop (observed : bool) (id : pidval) (em : string)
    (items : list item) (hasError : bool) (d : db) : bool * db :=
  match items with
  | [] => (hasError, d)
  | it :: rest =>
      if observed && hasError then (hasError, d)
      else
        let '(insertErr, d') := insert_item id em it d in
        insert_loop observed id em rest
          (hasError || bool_decide (is_Some insertErr)) d'
  end.

(** [const rollback = (err) => db.run("ROLLBACK", () => callback(err))] *)
Definition rollback {A : Type} (err : error) (d : db) : result A * db :=
  (Err err, exec_rollback d).

(** [saveCart(userId, email, cartItems, callback)]; [cartItems] is [None]
    when the argument is not an array. *)
Definition saveCart (observed : bool) (userId email : value)
    (cartItems : option (list item)) (d : db) : result unit * db :=
  let id := to_int userId in
  if invalid_id id then (Err (InvalidInput "Valid user ID is required"), d)
  else if invalid_email email
  then (Err (InvalidInput "Valid email is required"), d)
  else
    match cartItems with
    | None => (Err (InvalidInput "cartItems must be an array"), d)
    | Some items =>
        match exec_begin d with
        | (Some beginErr, d1) => rollback beginErr d1
        | (None, d1) =>
            let '(_, d2) := exec_delete_user (int_of id) d1 in
            let '(hasError, d3) :=
              insert_loop observed (int_of id) (trim_value email) items false d2 in
            if hasError then rollback (StorageError "Insert error") d3
            else
              match exec_commit d3 with
              | (Some commitErr, d4) => rollback commitErr d4
              | (None, d4) => (Ok tt, d4)
              end
        end
    end.

(** [addOrUpdateCartItem(userId, email, item, callback)].  The second
    argument of the callback, the engine's last insert row id, is read by
    no caller and is left out. *)
Definition addOrUpdateCartItem (userId email : value) (it : item) (d : db)
    : result unit * db :=
  let id := to_int userId in
  if invalid_id id then (Err (InvalidInput "Valid user ID is required"), d)
  else if invalid_email email
  then (Err (InvalidInput "Valid email is required"), d)
  else if negb (truthy (item_id it))
  then (Err (InvalidInput "Item must have an id"), d)
  else
    match exec_upsert (int_of id) (bind_product_id (item_id it))
            (trim_value email) (opt_trim (item_title it))
            (price_of (item_price it)) (opt_trim (item_image it))
            (quantity_of (item_quantity it)) d with
    | (Some err, d') => (Err err, d')
    | (None, d') => (Ok tt, d')
    end.

(** [updateCartItemQuantity(userId, productId, quantity, callback)] *)
Definition updateCartItemQuantity (userId productId quantity : value) (d : db)
    : result bool * db :=
  let uid := to_int userId in
  let pid := to_int productId in
  let q := to_int quantity in
  if invalid_id uid then (Err (InvalidInput "Valid user ID is required"), d)
  else if invalid_id pid
  then (Err (InvalidInput "Valid product ID is required"), d)
  else if invalid_id q
  then (Err (InvalidInput "Quantity must be a positive number"), d)
  else
    let '(n, d') :=
      exec_update_quantity (to_number q) (int_of uid) (int_of pid) d in
    (Ok (0 <? n), d').

(** [removeCartItem(userId, productId, callback)], also exported as
    [deleteCartItem]. *)
Definition removeCartItem (userId productId : value) (d : db)
    : result bool * db :=
  let uid := to_int userId in
  let pid := to_int productId in
  if invalid_id uid then (Err (InvalidInput "Valid user ID is required"), d)
  else if invalid_id pid
  then (Err (InvalidInput "Valid product ID is required"), d)
  else
    let '(n, d') := exec_delete_line (int_of uid) (int_of pid) d in
    (Ok (0 <? n), d').

Definition deleteCartItem := removeCartItem.

(** [clearCart(userId, callback)] *)
Definition clearCart (userId : value) (d : db) : result bool * db :=
  let uid := to_int userId in
  if invalid_id uid then (Err (InvalidInput "Valid user ID is required"), d)
  else
    let '(n, d') := exec_delete_user (int_of uid) d in
    (Ok (0 <? n), d').

End Bound.

End Db.

(** ** The cart routes of server.js *)

Module Server.
Import Js Db.

(** The payload of a verified access token: [{ id, email }]. *)
Record claims : Type := mkClaims {
  claim_id : value;
  claim_email : value
}.

(** The JSON bodies the cart routes send. *)
Inductive body : Type :=
| Items (items : list line) (message : option string)
| Failure (error : string) (code details : option string)
| Message (message : string).

Record response : Type := mkResponse {
  status : Z;
  payload : body
}.

(** [res.json(b)] and [res.status(s).json(b)] *)
Definition json (b : body) : response := mkResponse 200 b.

(** [err.message || err] *)
Definition details_of (e : error) : option string :=
  match e with
  | InvalidInput msg | StorageError msg => Some msg
  end.

(** The parts of a request the cart routes read.  [title] and [image] of
    the body are strings or absent. *)
Record request : Type := mkRequest {
  authorization : option string;
  param_productId : string;
  body_productId : value;
  body_quantity : value;
  body_title : option string;
  body_price : value;
  body_image : option string
}.

(** [s.split(" ")] *)
Fixpoint split_space (s : string) : list string :=
  match s with
  | EmptyString => [EmptyString]
  | String c rest =>
      if Ascii.eqb c " "%char then EmptyString :: split_space rest
      else
        match split_space rest with
        | [] => [String c EmptyString]
        | w :: ws => String c w :: ws
        end
  end.

(** [authHeader && authHeader.split(" ")[1]], as the token when it is
    truthy. *)
Definition bearer_token (authHeader : option string) : option string :=
  match authHeader with
  | None => None
  | Some h =>
      if String.eqb h "" then None
      else
        match nth_error (split_space h) 1 with
        | Some t => if String.eqb t "" then None else Some t
        | None => None
        end
  end.

Section Routes.

(** [jwt.verify(token, ACCESS_TOKEN_SECRET, ...)]: the payload of a
    token that verifies, [None] for an invalid or expired one. *)
Variable verify : string -> option claims.

Context `{engine : Engine}.

(** [authenticateToken(req, res, next)]: the response it sends, or the
    user it sets on the request before [next()]. *)
Definition authenticateToken (req : request) : response + claims :=
  match bearer_token (authorization req) with
  | None =>
      inl (mkResponse 401
             (Failure "Authorization token required" (Some "MISSING_TOKEN") None))
  | Some token =>
      match verify token with
      | None =>
          inl (mkResponse 403
                 (Failure "Invalid or expired token" (Some "INVALID_TOKEN") None))
      | Some user => inr user
      end
  end.

(** [app.get("/api/cart", authenticateToken, ...)] *)
Definition get_cart (user : claims) (req : request) (d : db) : response * db :=
  match getCartByUserId (claim_id user) d with
  | (Err err, d') =>
      (mkResponse 500 (Failure "Error fetching cart" None (details_of err)), d')
  | (Ok [], d') => (json (Items [] (Some "No items in cart")), d')
  | (Ok cartItems, d') => (json (Items cartItems None), d')
  end.

(** [app.post("/api/cart", authenticateToken, ...)] *)
Definition post_cart (user : claims) (req : request) (d : db) : response * db :=
  let userId := claim_id user in
  match addOrUpdateCartItem userId (claim_email user)
          (mkItem (body_productId req) (body_title req) (body_price req)
             (body_image req) (or_else (body_quantity req) (JNum (Int 1)))) d with
  | (Err err, d') =>
      (mkResponse 500 (Failure "Failed to update cart" None (details_of err)), d')
  | (Ok _, d') =>
      match getCartByUserId userId d' with
      | (Err err, d'') =>
          (mkResponse 500
             (Failure "Error fetching updated cart" None (details_of err)), d'')
      | (Ok cartItems, d'') => (json (Items cartItems None), d'')
      end
  end.

(** [app.put("/api/cart/:productId", authenticateToken, ...)].  db.js
    exports [updateCartItemQuantity] and [getCartByUserId], so the
    branches for a missing helper are not taken. *)
Definition put_cart_item (user : claims) (req : request) (d : db)
    : response * db :=
  let userId := claim_id user in
  let productId := JNum (parseInt (param_productId req)) in
  let quantity := JNum (parseInt_value (body_quantity req)) in
  if negb (truthy userId)
  then (mkResponse 401 (Failure "Not authenticated" None None), d)
  else if negb (truthy productId) || isNaN productId
  then (mkResponse 400 (Failure "Invalid product ID" None None), d)
  else if negb (truthy quantity) || isNaN quantity || lt_one quantity
  then (mkResponse 400 (Failure "Invalid quantity" None None), d)
  else
    match updateCartItemQuantity userId productId quantity d with
    | (Err err, d') =>
        (mkResponse 500 (Failure "Database update error" None (details_of err)), d')
    | (Ok false, d') =>
        (mkResponse 404 (Failure "Cart item not found" None None), d')
    | (Ok true, d') =>
        match getCartByUserId userId d' with
        | (Err err2, d'') =>
            (mkResponse 500
               (Failure "Failed to fetch updated cart" None (details_of err2)), d'')
        | (Ok items, d'') => (json (Items items None), d'')
        end
    end.

(** [app.delete("/api/cart/:productId", authenticateToken, ...)], through
    the exported [deleteCartItem]. *)
Definition delete_cart_item (user : claims) (req : request) (d : db)
    : response * db :=
  let userId := claim_id user in
  let productId := JNum (parseInt (param_productId req)) in
  if negb (truthy userId)
  then (mkResponse 401 (Failure "Not authenticated" None None), d)
  else if negb (truthy productId) || isNaN productId
  then (mkResponse 400 (Failure "Invalid product ID" None None), d)
  else
    match deleteCartItem userId productId d with
    | (Err err, d') =>
        (mkResponse 500
           (Failure "Failed to delete cart item" None (details_of err)), d')
    | (Ok removed, d') =>
        match getCartByUserId userId d' with
        | (Err err2, d'') =>
            (mkResponse 500
               (Failure "Failed to fetch updated cart" None (details_of err2)), d'')
        | (Ok items, d'') => (json (Items items None), d'')
        end
    end.

(** [app.delete("/api/cart", authenticateToken, ...)], through the
    exported [clearCart]. *)
Definition delete_cart (user : claims) (req : request) (d : db)
    : response * db :=
  let userId := claim_id user in
  match clearCart userId d with
  | (Err err, d') =>
      (mkResponse 500 (Failure "Failed to clear cart" None (details_of err)), d')
  | (Ok success, d') =>
      match getCartByUserId userId d' with
      | (Err err2, d'') =>
          (mkResponse 500
             (Failure "Failed to fetch updated cart" None (details_of err2)), d'')
      | (Ok cartItems, d'') => (json (Items cartItems None), d'')
      end
  end.

(** A route: the middleware, then the handler when it called [next()]. *)
Definition route (handler : claims -> request -> db -> response * db)
    (req : request) (d : db) : response * db :=
  match authenticateToken req with
  | inl res => (res, d)
  | inr user => handler user req d
  end.

End Routes.

End Server.

(** ** The client *)

(** What a request to the cart API comes back with: a response of the
    server, or none (time-out, network failure), with the message of the
    error the request is then rejected with. *)
Module Net.
Import Js.

Inductive reply : Type :=
| Replied (res : Server.response)
| NoResponse (message : string).

(** [response.ok], and the statuses axios resolves on: 200 to 299. *)
Definition ok (res : Server.response) : bool :=
  (200 <=? Server.status res) && (Server.status res <? 300).

(** [data?.error] *)
Definition error_of (b : Server.body) : option string :=
  match b with
  | Server.Failure e _ _ => Some e
  | _ => None
  end.

(** [data.message] *)
Definition message_of (b : Server.body) : option string :=
  match b with
  | Server.Items _ m => m
  | Server.Message m => Some m
  | Server.Failure _ _ _ => None
  end.

(** [Array.isArray(data) ? data : data?.items ?? null] *)
Definition items_of (b : Server.body) : option (list Db.line) :=
  match b with
  | Server.Items items _ => Some items
  | _ => None
  end.

(** A number after [JSON.stringify] on the server and [JSON.parse] on the
    client: NaN and the infinities are written as [null]; a finite number
    is written with digits that read back as the same number. *)
Definition json_number (n : num) : value :=
  match n with
  | NaN | Real (Infinity _) => JNull
  | _ => JNum n
  end.

Definition json_value (v : value) : value :=
  match v with
  | JNum n => json_number n
  | _ => v
  end.

(** [v ?? undefined] *)
Definition nullish (v : value) : value :=
  match v with
  | JNull => JUndefined
  | _ => v
  end.

(** [n || fallback] on a number of the response *)
Definition number_or (n : num) (fallback : num) : num :=
  match json_number n with
  | JNum m => if truthy (JNum m) then m else fallback
  | _ => fallback
  end.

(** [s || fallback] on an optional string *)
Definition or_default (s : option string) (fallback : string) : string :=
  match s with
  | Some t => if String.eqb t "" then fallback else t
  | None => fallback
  end.

(** The request did not succeed: a response outside 200 to 299, or none. *)
Definition rejected (server : reply) : bool :=
  match server with
  | Replied res => negb (ok res)
  | NoResponse _ => true
  end.

End Net.

(** *** The cart page (the [Cart] component) *)

Module Cart.
Import Js Db Net.

(** An element of the state [cartItems]. *)
Record item : Type := mkItem {
  product_id : value;
  name : string;
  price : num;
  quantity : num;
  image : string
}.

Inductive effect : Type :=
| ToastError (msg : string)
| ToastSuccess (msg : string)
| Navigate (path : string).

(** The component: the objects allocated so far, the array held by the
    state [cartItems] as the addresses of its elements, the state
    [loading], and the toasts and navigations issued, oldest first. *)
Record state : Type := mkState {
  heap : gmap nat item;
  next : nat;
  cartItems : list nat;
  loading : bool;
  effects : list effect
}.

(** The cart the page renders: the objects the state array points to. *)
Definition visible (st : state) : list item :=
  omap (fun l => heap st !! l) (cartItems st).

(** The addresses in the state array were allocated before [next]. *)
Definition allocated (st : state) : Prop :=
  Forall (fun l => (l < next st)%nat) (cartItems st).

Definition setCartItems (arr : list nat) (st : state) : state :=
  mkState (heap st) (next st) arr (loading st) (effects st).

Definition setLoading (b : bool) (st : state) : state :=
  mkState (heap st) (next st) (cartItems st) b (effects st).

Definition emit (es : list effect) (st : state) : state :=
  mkState (heap st) (next st) (cartItems st) (loading st) (effects st ++ es)%list.

(** A new object. *)
Definition alloc (o : item) (st : state) : nat * state :=
  (next st,
   mkState (<[next st := o]> (heap st)) (S (next st)) (cartItems st)
     (loading st) (effects st)).

(** [handleUnauthorized()] *)
Definition handleUnauthorized (st : state) : state :=
  emit [ToastError "Session expired. Please login again."; Navigate "/login"] st.

(** [cartItems.findIndex((i) => i.product_id === productId)], as the
    element found. *)
Definition find_item (productId : value) (st : state) : option item :=
  List.find (fun it => strict_eq (product_id it) productId) (visible st).

(** [prevCart.map((it) => it.product_id === productId
      ? { ...it, quantity: newQuantity } : it)]: a new object for a
    matching element, the same object otherwise. *)
Fixpoint map_quantity (productId : value) (newQuantity : num)
    (arr : list nat) (st : state) : list nat * state :=
  match arr with
  | [] => ([], st)
  | l :: rest =>
      match heap st !! l with
      | Some it =>
          if strict_eq (product_id it) productId
          then
            let '(l', st1) :=
              alloc (mkItem (product_id it) (name it) (price it) newQuantity
                       (image it)) st in
            let '(rest', st2) := map_quantity productId newQuantity rest st1 in
            (l' :: rest', st2)
          else
            let '(rest', st2) := map_quantity productId newQuantity rest st in
            (l :: rest', st2)
      | None =>
          let '(rest', st2) := map_quantity productId newQuantity rest st in
          (l :: rest', st2)
      end
  end.

(** The object built from an item of the response:
    [{ product_id: it.id ?? it.product_id, name: it.title ?? it.name,
       price: parseFloat(it.price) || 0, quantity: it.quantity || 1,
       image: it.image || "/logo192.png" }].  The items of the server have
    no [product_id] and their [title] is a string. *)
Definition format_line (it : line) : item :=
  mkItem (nullish (json_value (line_id it))) (line_title it)
    (number_or (line_price it) 0) (number_or (line_quantity it) 1)
    (if String.eqb (line_image it) "" then "/logo192.png" else line_image it).

(** [serverItems.map(...)]: one new object for each item. *)
Fixpoint alloc_all (objs : list item) (st : state) : list nat * state :=
  match objs with
  | [] => ([], st)
  | o :: rest =>
      let '(l, st1) := alloc o st in
      let '(ls, st2) := alloc_all rest st1 in
      (l :: ls, st2)
  end.

(** The [try] block after the request resolved. *)
Definition sync (res : Server.response) (done_msg : string) (st : state) : state :=
  match items_of (Server.payload res) with
  | Some serverItems =>
      let '(formatted, st1) := alloc_all (List.map format_line serverItems) st in
      setCartItems formatted st1
  | None => emit [ToastSuccess done_msg] st
  end.

(** The [catch] block: the saved array is put back, then a 401 calls
    [handleUnauthorized] and anything else shows an error. *)
Definition recover (prevCart : list nat) (server : reply) (fallback : string)
    (st : state) : state :=
  let st1 := setCartItems prevCart st in
  match server with
  | Replied res =>
      if Server.status res =? 401 then handleUnauthorized st1
      else emit [ToastError (or_default (error_of (Server.payload res)) fallback)] st1
  | NoResponse _ => emit [ToastError fallback] st1
  end.

(** The request: axios resolves on a 2xx status and rejects otherwise. *)
Definition settle (prevCart : list nat) (server : reply)
    (done_msg fallback : string) (st : state) : state :=
  let st1 :=
    match server with
    | Replied res =>
        if ok res then sync res done_msg st else recover prevCart server fallback st
    | NoResponse _ => recover prevCart server fallback st
    end in
  setLoading false st1.

(** [updateQuantity(productId, delta)], with what the PUT request comes
    back with. *)
Definition updateQuantity (isAuthenticated : bool) (productId : value)
    (delta : Z) (server : reply) (st : state) : state :=
  if negb isAuthenticated
  then emit [ToastError "Please login to update your cart"; Navigate "/login"] st
  else
    match find_item productId st with
    | None => emit [ToastError "Item not found in cart"] st
    | Some it =>
        let newQuantity := num_max 1 (num_add (quantity it) delta) in
        if num_eqb newQuantity (quantity it) then st
        else
          let prevCart := cartItems st in
          let '(nextCart, st1) := map_quantity productId newQuantity prevCart st in
          let st2 := setLoading true (setCartItems nextCart st1) in
          settle prevCart server "Quantity updated" "Failed to update quantity." st2
    end.

(** [removeItem(productId)], with what the DELETE request comes back
    with. *)
Definition removeItem (isAuthenticated : bool) (productId : value)
    (server : reply) (st : state) : state :=
  if negb isAuthenticated
  then emit [ToastError "Please login to modify your cart"; Navigate "/login"] st
  else
    let prevCart := cartItems st in
    let nextCart :=
      List.filter
        (fun l => match heap st !! l with
                  | Some it => negb (strict_eq (product_id it) productId)
                  | None => true
                  end) prevCart in
    let st2 := setLoading true (setCartItems nextCart st) in
    settle prevCart server "Item removed successfully" "Failed to remove item." st2.

End Cart.

(** *** The product list (Products.js) *)

Module Products.
Import Net.

Record product : Type := mkProduct {
  product_id : Z;
  product_title : string;
  product_price : Z;
  product_image : string
}.

(** An element of the state [cartItems]: [{ ...product, quantity }]. *)
Record item : Type := mkItem {
  id : Z;
  title : string;
  price : Z;
  image : string;
  quantity : Z
}.

(** The component: the objects allocated so far, the array held by the
    state [cartItems] as the addresses of its elements, the array written
    under the key "cartItems" of [localStorage], the last toast and the
    last navigation. *)
Record state : Type := mkState {
  heap : gmap nat item;
  next : nat;
  cartItems : list nat;
  localStorage : list item;
  toast : option string;
  location : option string
}.

(** The array as it is rendered and as [JSON.stringify] writes it. *)
Definition deref (h : gmap nat item) (arr : list nat) : list item :=
  omap (fun l => h !! l) arr.

Definition visible (st : state) : list item := deref (heap st) (cartItems st).

Definition setCartItems (arr : list nat) (st : state) : state :=
  mkState (heap st) (next st) arr (localStorage st) (toast st) (location st).

(** [localStorage.setItem("cartItems", JSON.stringify(arr))] *)
Definition store_local (arr : list nat) (st : state) : state :=
  mkState (heap st) (next st) (cartItems st) (deref (heap st) arr) (toast st)
    (location st).

Definition showToast (msg : string) (st : state) : state :=
  mkState (heap st) (next st) (cartItems st) (localStorage st) (Some msg)
    (location st).

Definition navigate (path : string) (st : state) : state :=
  mkState (heap st) (next st) (cartItems st) (localStorage st) (toast st)
    (Some path).

(** [handleUnauthorized()] *)
Definition handleUnauthorized (st : state) : state :=
  navigate "/login" (showToast "Session expired. Please login again." st).

(** [cartItems.findIndex((item) => item.id === product.id)]; [None] is -1. *)
Fixpoint findIndex (h : gmap nat item) (pid : Z) (arr : list nat) : option nat :=
  match arr with
  | [] => None
  | l :: rest =>
      match h !! l with
      | Some it =>
          if id it =? pid then Some 0%nat else S <$> findIndex h pid rest
      | None => S <$> findIndex h pid rest
      end
  end.

(** [updatedCart[i].quantity += 1]: the object the array points to at [i]
    is written in place. *)
Definition increment_at (arr : list nat) (i : nat) (st : state) : state :=
  match arr !! i with
  | Some l =>
      match heap st !! l with
      | Some it =>
          mkState
            (<[l := mkItem (id it) (title it) (price it) (image it)
                      (quantity it + 1)]> (heap st))
            (next st) (cartItems st) (localStorage st) (toast st) (location st)
      | None => st
      end
  | None => st
  end.

(** A new object [{ ...product, quantity: 1 }]. *)
Definition alloc_item (p : product) (st : state) : nat * state :=
  (next st,
   mkState
     (<[next st := mkItem (product_id p) (product_title p) (product_price p)
                     (product_image p) 1]> (heap st))
     (S (next st)) (cartItems st) (localStorage st) (toast st) (location st)).

(** [addToCart(product)], with what the POST request comes back with.
    [isAuthenticated] stands for [isAuthenticated && user]; [cartItems0] is
    the array of the render the handler closed over. *)
Definition addToCart (isAuthenticated : bool) (p : product) (server : reply)
    (st : state) : state :=
  if negb isAuthenticated
  then navigate "/login" (showToast "Please login to add items to cart" st)
  else
    let cartItems0 := cartItems st in
    let existingItemIndex := findIndex (heap st) (product_id p) cartItems0 in
    let '(updatedCart, st1) :=
      match existingItemIndex with
      | Some i =>
          (* updatedCart = [...cartItems]: a new array of the same objects *)
          (cartItems0, increment_at cartItems0 i st)
      | None =>
          let '(l, st') := alloc_item p st in
          ((cartItems0 ++ [l])%list, st')
      end in
    let st2 := store_local updatedCart (setCartItems updatedCart st1) in
    (* the [catch] block: "Revert to previous cart state" *)
    let revert (msg : string) : state :=
      showToast msg (store_local cartItems0 (setCartItems cartItems0 st2)) in
    match server with
    | Replied res =>
        if Server.status res =? 401 then handleUnauthorized st2
        else if negb (ok res)
        then revert (or_default (message_of (Server.payload res))
                       "Failed to update cart")
        else showToast "Item added to cart!" st2
    | NoResponse message =>
        revert (or_default (Some message)
                  "Failed to update cart. Please try again.")
    end.

End Products.

(** ** Runs of the store *)

Module Store.
Import Js Db.

(** The operations of the cart store, as the calls of db.js. *)
Inductive op : Type :=
| Upsert (userId email : value) (it : item)
| ReplaceAll (observed : bool) (userId email : value)
    (cartItems : option (list item))
| SetQuantity (userId productId quantity : value)
| RemoveLine (userId productId : value)
| Clear (userId : value).

Section Runs.

Context `{engine : Engine}.

Definition apply (o : op) (d : db) : db :=
  match o with
  | Upsert userId em it => snd (addOrUpdateCartItem userId em it d)
  | ReplaceAll observed userId em cartItems =>
      snd (saveCart observed userId em cartItems d)
  | SetQuantity userId productId q =>
      snd (updateCartItemQuantity userId productId q d)
  | RemoveLine userId productId => snd (removeCartItem userId productId d)
  | Clear userId => snd (clearCart userId d)
  end.

Definition run (ops : list op) (d : db) : db :=
  fold_left (fun acc o => apply o acc) ops d.

(** The user an operation is called for, after the conversion of the
    guard. *)
Definition op_user (o : op) : value :=
  match o with
  | Upsert userId _ _ | ReplaceAll _ userId _ _ | SetQuantity userId _ _
  | RemoveLine userId _ | Clear userId => to_int userId
  end.

(** The rows of a user, and the rows of a (user, product) pair. *)
Definition rows_of (u : pidval) (d : db) : list row :=
  List.filter (owned_by u) (carts d).

Definition lines_for (u p : pidval) (d : db) : list row :=
  List.filter (has_key u p) (carts d).

Definition find_line (u p : pidval) (d : db) : option row :=
  List.find (has_key u p) (carts d).

(** At most one row for every (user, product) pair. *)
Definition unique_rows (rows : list row) : Prop :=
  forall u p, (List.length (List.filter (has_key u p) rows) <= 1)%nat.

(** The state between two calls: no transaction open, and the rows
    unique. *)
Definition consistent (d : db) : Prop :=
  journal d = None /\ unique_rows (carts d).

(** An upsert for the pair [(u, p)] whose arguments the store accepts: a
    positive user id, a non-empty string as email, a truthy product id
    stored as [p], and a price that is not NaN. *)
Definition upsert_for (u : Z) (p : pidval) (o : op) : Prop :=
  match o with
  | Upsert userId em it =>
      to_int userId = JNum (Int u) /\ 0 < u /\
      invalid_email em = false /\
      truthy (item_id it) = true /\
      bind_product_id (item_id it) = Some p /\
      price_of (item_price it) <> NaN
  | _ => False
  end.

(** The row an element of [cartItems] is inserted as; [None] when the
    product id or the price is bound as NULL. *)
Definition row_of_item (id : pidval) (em : string) (it : item) : option row :=
  match bind_product_id (item_id it) with
  | Some p =>
      if is_nan (price_of (item_price it)) then None
      else
        Some (mkRow id p em (opt_trim (item_title it)) (price_of (item_price it))
                (opt_trim (item_image it)) (quantity_of (item_quantity it)))
  | None => None
  end.

(** Some insert of the loop of [saveCart] fails: the elements before [it]
    are inserted without error and the insert of [it] fails. *)
Definition insert_fails (observed : bool) (id : pidval) (em : string)
    (items : list item) (d : db) : Prop :=
  exists pre it post dk,
    items = (pre ++ it :: post)%list /\
    insert_loop observed id em pre false d = (false, dk) /\
    is_Some (fst (insert_item id em it dk)).

(** Some row of the pair holds a quantity whose sum with [q] is NaN (the
    two infinities), which a NOT NULL column refuses. *)
Definition null_sum (u p : pidval) (q : num) (d : db) : bool :=
  existsb (fun r => is_nan (sql_add (quantity r) q)) (lines_for u p d).

(** The quantity [updateCartItemQuantity] accepts: the number itself, or
    what [parseInt] reads from the start of a string, when it is above
    zero; [None] for anything else. *)
Definition positive_quantity (quantity : value) : option num :=
  match to_int quantity with
  | JNum n => if num_ltb 0 n then Some n else None
  | _ => None
  end.

(** The claim on [updateCartItemQuantity] as it is worded: a quantity that
    is not numeric ([isNaN]) or is not positive is refused with an error
    and the connection is left as it was. *)
Definition setQuantity_refuses_non_numeric : Prop :=
  forall (userId productId quantity : value) (d : db),
    isNaN quantity = true \/ le_zero quantity = true ->
    exists msg,
      updateCartItemQuantity userId productId quantity d =
      (Err (InvalidInput msg), d).


End Runs.

End Store.

(** ** Sample data *)

Module Sample.
Import Js Db.

(** An engine that converts a text to the nearest double. *)
#[global] Instance nearest : Engine := {|
  sqlite3AtoF s :=
    match decimal_literal (drop_spaces (skip_spaces s)) with
    | Some (_, negative, m, ex) => decimal negative m ex
    | None => NaN
    end
|}.

(** User 7 holds one mug (product 42), user 8 two pens (product 5). *)
Definition mug : row := mkRow 7 (PInt 42) "a@b.c" "Mug" 999 "m.png" 1.
Definition pens : row := mkRow 8 (PInt 5) "x@y.z" "Pen" 120 "p.png" 2.
Definition store : db := mkDb [mug; pens] None.

Definition alice : value := JNum (Int 7).
Definition alice_email : value := JStr "a@b.c".

(** A well-formed element and one without a product id. *)
Definition cup : item :=
  mkItem (JNum (Int 43)) (Some "Cup") (JNum (Int 450)) (Some "c.png")
    (JNum (Int 2)).
Definition no_id : item :=
  mkItem JUndefined (Some "Ghost") (JNum (Int 1)) None (JNum (Int 1)).

(** A second add of the mug, with a title that starts with a space. *)
Definition mug_again : item :=
  mkItem (JNum (Int 42)) (Some " Mug") (JNum (Int 999)) (Some "m.png")
    (JNum (Int 1)).

(** The mug again, with its id as a text the column stores as the integer
    42: with a leading space, and with a point. *)
Definition mug_spaced : item :=
  mkItem (JStr " 42") (Some "Mug") (JNum (Int 999)) (Some "m.png")
    (JNum (Int 1)).
Definition mug_pointed : item :=
  mkItem (JStr "42.0") (Some "Mug") (JNum (Int 999)) (Some "m.png")
    (JNum (Int 1)).

Definition alice_claims : Server.claims := Server.mkClaims alice alice_email.

(** A request with a bearer token, for product 42, with an empty body. *)
Definition bare_request : Server.request :=
  Server.mkRequest (Some "Bearer t0k3n") "42" JUndefined JUndefined None
    JUndefined None.

(** The product list of a signed-in user whose cart holds one shirt. *)
Definition shirt : Products.product := Products.mkProduct 1 "Shirt" 10 "s.png".
Definition shelf : Products.state :=
  Products.mkState {[ 0%nat := Products.mkItem 1 "Shirt" 10 "s.png" 1 ]} 1
    [0%nat] [Products.mkItem 1 "Shirt" 10 "s.png" 1] None None.

(** The answer of the POST route when the store fails. *)
Definition update_failed : Server.response :=
  Server.mkResponse 500 (Server.Failure "Failed to update cart" None None).

End Sample.

(** ** Users and contact messages: db.js over the tables [users] and
    [contacts] *)

Module Users.
Import Js.

(** [String(v)] *)
Definition to_string (v : value) : string :=
  match v with
  | JStr s => s
  | JNum n => number_to_string n
  | JUndefined => "undefined"
  | JNull => "null"
  end.

(** [hay.includes(needle)] *)
Fixpoint includes (needle hay : string) : bool :=
  String.prefix needle hay ||
  match hay with
  | EmptyString => false
  | String _ rest => includes needle rest
  end.

(** [err.message] *)
Definition message_of (e : Db.error) : string :=
  match e with
  | Db.InvalidInput msg | Db.StorageError msg => msg
  end.

(** One row of the table [users]; NULL is [None].  The column
    [created_at] is the clock of the engine and is left out. *)
Record user : Type := mkUser {
  id : Z;
  name : string;
  email : string;
  password : string;
  username : option string;
  bio : option string;
  location : option string;
  website : option string
}.

(** One row of the table [contacts]. *)
Record contact : Type := mkContact {
  contact_id : Z;
  contact_name : string;
  contact_email : string;
  contact_message : string
}.

(** The two tables, each with the last id its AUTOINCREMENT key gave. *)
Record tables : Type := mkTables {
  users : list user;
  users_seq : Z;
  contacts : list contact;
  contacts_seq : Z
}.

Definition empty_tables : tables := mkTables [] 0 [] 0.

(** [INSERT INTO users (name, email, password) VALUES (?, ?, ?)], with the
    id of the new row: [email] is UNIQUE. *)
Definition exec_insert_user (nm em pw : string) (t : tables)
    : Db.result Z * tables :=
  if existsb (fun u => String.eqb (email u) em) (users t)
  then (Db.Err (Db.StorageError
                  "SQLITE_CONSTRAINT: UNIQUE constraint failed: users.email"), t)
  else
    let lastID := users_seq t + 1 in
    (Db.Ok lastID,
     mkTables (users t ++ [mkUser lastID nm em pw None None None None])%list
       lastID (contacts t) (contacts_seq t)).

(** [INSERT INTO contacts (name, email, message) VALUES (?, ?, ?)] *)
Definition exec_insert_contact (nm em msg : string) (t : tables) : Z * tables :=
  let lastID := contacts_seq t + 1 in
  (lastID,
   mkTables (users t) (users_seq t)
     (contacts t ++ [mkContact lastID nm em msg])%list lastID).

(** A row of [users] without its password: [{ ...user }] after
    [delete userData.password]. *)
Record account : Type := mkAccount {
  account_id : Z;
  account_name : string;
  account_email : string;
  account_username : option string;
  account_bio : option string;
  account_location : option string;
  account_website : option string
}.

Definition without_password (u : user) : account :=
  mkAccount (id u) (name u) (email u) (username u) (bio u) (location u)
    (website u).

(** [SELECT id, name, email FROM users WHERE id = ?] *)
Record profile : Type := mkProfile {
  profile_id : Z;
  profile_name : string;
  profile_email : string
}.

Definition select_profile (u : user) : profile :=
  mkProfile (id u) (name u) (email u).

(** The body of [PUT /api/user/:userId] as [updateUserProfile] reads it:
    every field a string or absent. *)
Record profileData : Type := mkProfileData {
  data_name : option string;
  data_username : option string;
  data_bio : option string;
  data_location : option string;
  data_website : option string
}.

(** [WHERE id = ?]: the ids of the table are integers. *)
Definition has_id (i : Db.pidval) (u : user) : bool :=
  Db.pid_eqb (Db.PInt (id u)) i.

(** [UPDATE users SET name = ?, username = ?, bio = ?, location = ?,
    website = ? WHERE id = ?] *)
Definition set_profile (nm un b l w : string) (u : user) : user :=
  mkUser (id u) nm (email u) (password u) (Some un) (Some b) (Some l) (Some w).

Definition exec_update_profile (nm un b l w : string) (i : Db.pidval)
    (t : tables) : Z * tables :=
  (Z.of_nat (List.length (List.filter (fun u => has_id i u) (users t))),
   mkTables
     (List.map (fun u => if has_id i u then set_profile nm un b l w u else u)
        (users t))
     (users_seq t) (contacts t) (contacts_seq t)).

Section Bcrypt.

(** [bcrypt.hash(password, SALT_ROUNDS, ...)] and
    [bcrypt.compare(password, hash, ...)]; the salt is inside the library. *)
Variable bcrypt_hash : string -> Db.result string.
Variable bcrypt_compare : string -> string -> Db.result bool.

(** [registerUser(name, email, plainPassword, callback)] *)
Definition registerUser (nm em plainPassword : value) (t : tables)
    : Db.result Z * tables :=
  if negb (truthy nm) || negb (truthy em) || negb (truthy plainPassword)
  then (Db.Err (Db.InvalidInput "Name, email, and password are required"), t)
  else
    let trimmedName := trim (to_string nm) in
    let trimmedEmail := trim (to_string em) in
    let trimmedPass := to_string plainPassword in
    if String.eqb trimmedName "" || String.eqb trimmedEmail ""
       || String.eqb trimmedPass ""
    then (Db.Err (Db.InvalidInput "Name, email, and password cannot be empty"), t)
    else
      match bcrypt_hash trimmedPass with
      | Db.Err err => (Db.Err err, t)
      | Db.Ok hash =>
          match exec_insert_user trimmedName trimmedEmail hash t with
          | (Db.Err err, t') =>
              if includes "UNIQUE constraint failed" (message_of err)
              then (Db.Err (Db.StorageError "Email already exists"), t')
              else (Db.Err err, t')
          | (Db.Ok lastID, t') => (Db.Ok lastID, t')
          end
      end.

(** [authenticateUser(email, plainPassword, callback)]; [Ok None] is
    [callback(null, null)]. *)
Definition authenticateUser (em plainPassword : value) (t : tables)
    : Db.result (option account) * tables :=
  if negb (truthy em) || negb (truthy plainPassword)
  then (Db.Err (Db.InvalidInput "Email and password are required"), t)
  else
    let trimmedEmail := trim (to_string em) in
    match List.find (fun u => String.eqb (email u) trimmedEmail) (users t) with
    | None => (Db.Ok None, t)
    | Some u =>
        match bcrypt_compare (to_string plainPassword) (password u) with
        | Db.Err err => (Db.Err err, t)
        | Db.Ok false => (Db.Ok None, t)
        | Db.Ok true => (Db.Ok (Some (without_password u)), t)
        end
    end.

End Bcrypt.

(** [updateUserProfile(userId, profileData, callback)] *)
Definition updateUserProfile (userId : value) (data : profileData) (t : tables)
    : Db.result bool * tables :=
  let i := Db.to_int userId in
  if Db.invalid_id i
  then (Db.Err (Db.InvalidInput "Valid user ID is required"), t)
  else
    let '(n, t') :=
      exec_update_profile (Db.opt_trim (data_name data))
        (Db.opt_trim (data_username data)) (Db.opt_trim (data_bio data))
        (Db.opt_trim (data_location data)) (Db.opt_trim (data_website data))
        (Db.int_of i) t in
    (Db.Ok (0 <? n), t').

(** [getUserById(userId, callback)]; the probe [SELECT 1 as test] reads no
    table. *)
Definition getUserById (userId : value) (t : tables)
    : Db.result (option profile) * tables :=
  let i := Db.to_int userId in
  if Db.invalid_id i
  then (Db.Err (Db.InvalidInput "Valid user ID is required"), t)
  else
    (Db.Ok (select_profile <$>
              List.find (has_id (Db.int_of i)) (users t)), t).

(** [getUserByEmail(email, callback)] *)
Definition getUserByEmail (em : value) (t : tables)
    : Db.result (option user) * tables :=
  if Db.invalid_email em
  then (Db.Err (Db.InvalidInput "Valid email is required"), t)
  else
    (Db.Ok (List.find (fun u => String.eqb (email u) (Db.trim_value em))
              (users t)), t).

(** [saveContact(name, email, message, callback)], on arguments that are
    strings or absent. *)
Definition saveContact (nm em msg : option string) (t : tables)
    : Db.result Z * tables :=
  match nm, em, msg with
  | Some n, Some e, Some m =>
      if String.eqb n "" || String.eqb e "" || String.eqb m ""
      then (Db.Err (Db.InvalidInput "Name, email, and message are required"), t)
      else
        let '(lastID, t') := exec_insert_contact (trim n) (trim e) (trim m) t in
        (Db.Ok lastID, t')
  | _, _, _ =>
      (Db.Err (Db.InvalidInput "Name, email, and message are required"), t)
  end.

End Users.

(** ** The account routes of server.js *)

Module Auth.
Import Js.

(** The JSON bodies the account routes send. *)
Inductive body : Type :=
| Failure (error : string) (code details : option string)
| Registered (message : string) (userId : Z)
| Session (token : string) (user : Users.profile)
| Verified (user : Users.profile).

(** A response, with the refresh token when [res.cookie("refreshToken",
    ...)] set one. *)
Record response : Type := mkResponse {
  status : Z;
  payload : body;
  refreshToken : option string
}.

(** The fields of the body the routes read. *)
Record credentials : Type := mkCredentials {
  body_name : value;
  body_email : value;
  body_password : value
}.

Section Routes.

Variable bcrypt_hash : string -> Db.result string.
Variable bcrypt_compare : string -> string -> Db.result bool.

(** [generateAccessToken(user)] and [generateRefreshToken(user)]:
    [jwt.sign({ id: user.id, email: user.email }, secret, ...)]. *)
Variable generateAccessToken : Z -> string -> string.
Variable generateRefreshToken : Z -> string -> string.

(** [app.post("/api/auth/register", ...)] *)
Definition register (b : credentials) (t : Users.tables)
    : response * Users.tables :=
  if negb (truthy (body_name b)) || negb (truthy (body_email b))
     || negb (truthy (body_password b))
  then
    (mkResponse 400
       (Failure "Name, email, and password are required."
          (Some "MISSING_FIELDS") None) None, t)
  else
    match Users.registerUser bcrypt_hash (body_name b) (body_email b)
            (body_password b) t with
    | (Db.Err err, t') =>
        if Users.includes "Email already" (Users.message_of err)
        then
          (mkResponse 409
             (Failure "Email already registered" (Some "EMAIL_EXISTS") None)
             None, t')
        else
          (mkResponse 500
             (Failure "Registration failed" (Some "DB_ERROR")
                (Some (Users.message_of err))) None, t')
    | (Db.Ok userId, t') =>
        (mkResponse 201 (Registered "User registered successfully" userId)
           None, t')
    end.

(** [app.post("/api/auth/login", ...)] *)
Definition login (b : credentials) (t : Users.tables)
    : response * Users.tables :=
  if negb (truthy (body_email b)) || negb (truthy (body_password b))
  then
    (mkResponse 400 (Failure "Email and password are required" None None)
       None, t)
  else
    match Users.authenticateUser bcrypt_compare (body_email b)
            (body_password b) t with
    | (Db.Err err, t') =>
        (mkResponse 500 (Failure "Authentication failed" None None) None, t')
    | (Db.Ok None, t') =>
        (mkResponse 401 (Failure "Invalid email or password" None None) None, t')
    | (Db.Ok (Some user), t') =>
        let accessToken :=
          generateAccessToken (Users.account_id user) (Users.account_email user) in
        let refreshToken :=
          generateRefreshToken (Users.account_id user) (Users.account_email user) in
        (mkResponse 200
           (Session accessToken
              (Users.mkProfile (Users.account_id user) (Users.account_name user)
                 (Users.account_email user)))
           (Some refreshToken), t')
    end.

(** [app.get("/api/auth/verify", authenticateToken, ...)], after the
    middleware. *)
Definition verify_user (user : Server.claims) (t : Users.tables)
    : response * Users.tables :=
  match Users.getUserById (Server.claim_id user) t with
  | (Db.Err err, t') =>
      (mkResponse 500
         (Failure "Internal server error" None (Some (Users.message_of err)))
         None, t')
  | (Db.Ok None, t') =>
      (mkResponse 401 (Failure "User not found" None None) None, t')
  | (Db.Ok (Some user), t') => (mkResponse 200 (Verified user) None, t')
  end.

End Routes.

End Auth.

(** ** The product page (FullPage.js) *)

Module ProductPage.
Import Js Db Net.

(** An element of the state [cartItems].  No object is written in place
    here, so the array holds the objects themselves. *)
Record item : Type := mkItem {
  id : value;
  title : string;
  price : num;
  image : string;
  quantity : num
}.

Inductive notice : Type :=
| Info (msg : string)
| Error (msg : string).

(** The component: the states [cartItems] and [saving], the toasts shown,
    oldest first, the last navigation, and whether [localStorage] still
    holds the keys "token" and "user". *)
Record state : Type := mkState {
  cartItems : list item;
  saving : bool;
  notices : list notice;
  location : option string;
  session : bool
}.

Definition setCartItems (arr : list item) (st : state) : state :=
  mkState arr (saving st) (notices st) (location st) (session st).

Definition setSaving (b : bool) (st : state) : state :=
  mkState (cartItems st) b (notices st) (location st) (session st).

Definition notify (n : notice) (st : state) : state :=
  mkState (cartItems st) (saving st) (notices st ++ [n])%list (location st)
    (session st).

(** [handleUnauthorized()] *)
Definition handleUnauthorized (st : state) : state :=
  let st1 := notify (Error "Session expired — please login") st in
  mkState (cartItems st1) (saving st1) (notices st1) (Some "/login") false.

(** [+it.id === +p.id] *)
Definition same_number (i : value) (p : Z) : bool :=
  num_eqb (to_number i) (Int p).

(** [it.id !== p.id] *)
Definition other_id (i : value) (p : Z) : bool :=
  negb (strict_eq i (JNum (Int p))).

(** [arr.findIndex(f)]; [None] is -1. *)
Fixpoint findIndex (f : item -> bool) (arr : list item) : option nat :=
  match arr with
  | [] => None
  | it :: rest => if f it then Some 0%nat else S <$> findIndex f rest
  end.

(** [arr.map((it, i) => i === n ? f(it) : it)] *)
Fixpoint map_at (n : nat) (f : item -> item) (arr : list item) {struct arr}
    : list item :=
  match arr, n with
  | [], _ => []
  | it :: rest, O => f it :: rest
  | it :: rest, S m => it :: map_at m f rest
  end.

Definition with_quantity (q : num) (it : item) : item :=
  mkItem (id it) (title it) (price it) (image it) q.

(** [it.quantity || 1] *)
Definition quantity_or_1 (it : item) : num :=
  if truthy (JNum (quantity it)) then quantity it else 1.

(** The object built from an item of the response:
    [{ id: it.id ?? it.product_id, title: it.title ?? it.name,
       price: Number(it.price) || 0, image: it.image || "/logo192.png",
       quantity: it.quantity || 1 }].  The items of the server have no
    [product_id] and their [title] is a string. *)
Definition format_line (it : line) : item :=
  mkItem (nullish (json_value (line_id it))) (line_title it)
    (number_or (line_price it) 0)
    (if String.eqb (line_image it) "" then "/logo192.png" else line_image it)
    (number_or (line_quantity it) 1).

(** The revert of the [catch] block. *)
Definition revert (p : Products.product) (prev : list item) : list item :=
  match findIndex (fun it => same_number (id it) (Products.product_id p)) prev with
  | None => prev
  | Some idx =>
      match prev !! idx with
      | Some it =>
          if num_ltb 1 (quantity_or_1 it)
          then map_at idx (fun it => with_quantity (num_sub (quantity it) 1) it) prev
          else
            List.filter
              (fun it => negb (same_number (id it) (Products.product_id p))) prev
      | None => prev
      end
  end.

(** The revert of the 401 branch. *)
Definition revert_unauthorized (p : Products.product)
    (existingIndex : option nat) (prev : list item) : list item :=
  match existingIndex with
  | Some i =>
      map_at i
        (fun it => with_quantity (num_max 1 (num_sub (quantity it) 1)) it) prev
  | None => List.filter (fun it => other_id (id it) (Products.product_id p)) prev
  end.

(** [addToCart(p)] for a product that is loaded, with the token read from
    [localStorage] when the page was mounted and what the POST request
    comes back with. *)
Definition addToCart (p : Products.product) (token : option string)
    (server : reply) (st : state) : state :=
  let useServer :=
    match token with Some t => negb (String.eqb t "") | None => false end in
  let existingIndex :=
    findIndex (fun it => same_number (id it) (Products.product_id p))
      (cartItems st) in
  let optimisticCart :=
    match existingIndex with
    | Some i =>
        map_at i (fun it => with_quantity (num_add (quantity_or_1 it) 1) it)
          (cartItems st)
    | None =>
        (cartItems st ++
         [mkItem (JNum (Int (Products.product_id p))) (Products.product_title p)
            (Int (Products.product_price p)) (Products.product_image p) 1])%list
    end in
  let st1 := setSaving true (setCartItems optimisticCart st) in
  if negb useServer
  then setSaving false (notify (Info "Added to cart (local)") st1)
  else
    let failed (message : string) : state :=
      notify (Error (or_default (Some message) "Failed to update cart. Try again."))
        (setCartItems (revert p (cartItems st1)) st1) in
    let st2 :=
      match server with
      | Replied res =>
          if Server.status res =? 401
          then
            handleUnauthorized
              (setCartItems
                 (revert_unauthorized p existingIndex (cartItems st1)) st1)
          else if negb (ok res)
          then
            failed
              (match error_of (Server.payload res) with
               | Some e =>
                   if String.eqb e ""
                   then or_default (message_of (Server.payload res))
                          ("Server error (" ++ pretty (Server.status res) ++ ")")
                   else e
               | None =>
                   or_default (message_of (Server.payload res))
                     ("Server error (" ++ pretty (Server.status res) ++ ")")
               end)
          else
            match items_of (Server.payload res) with
            | Some items =>
                notify (Info "Added to cart")
                  (setCartItems (List.map format_line items) st1)
            | None => notify (Info "Added to cart") st1
            end
      | NoResponse message => failed message
      end in
    setSaving false st2.

End ProductPage.

(** * The registration form (Register.js) *)

(** ** Regular expressions

    The part of JavaScript's regular expressions the form uses: character
    classes, sequence and repetition.  [test] is the match of the whole
    string ([/^r$/.test(s)]), computed by derivatives; [test_class] is the
    search of one character of a class ([/[...]/.test(s)]). *)

Module Regex.

Inductive re : Type :=
| Void
| Eps
| Class (f : ascii -> bool)
| Seq (r1 r2 : re)
| Alt (r1 r2 : re)
| Star (r : re).

(** [r+] *)
Definition Plus (r : re) : re := Seq r (Star r).

Fixpoint nullable (r : re) : bool :=
  match r with
  | Void => false
  | Eps => true
  | Class _ => false
  | Seq r1 r2 => nullable r1 && nullable r2
  | Alt r1 r2 => nullable r1 || nullable r2
  | Star _ => true
  end.

Fixpoint deriv (c : ascii) (r : re) : re :=
  match r with
  | Void => Void
  | Eps => Void
  | Class f => if f c then Eps else Void
  | Seq r1 r2 =>
      if nullable r1
      then Alt (Seq (deriv c r1) r2) (deriv c r2)
      else Seq (deriv c r1) r2
  | Alt r1 r2 => Alt (deriv c r1) (deriv c r2)
  | Star r1 => Seq (deriv c r1) (Star r1)
  end.

Fixpoint test (r : re) (s : string) : bool :=
  match s with
  | EmptyString => nullable r
  | String c rest => test (deriv c r) rest
  end.

Fixpoint test_class (f : ascii -> bool) (s : string) : bool :=
  match s with
  | EmptyString => false
  | String c rest => f c || test_class f rest
  end.

(** The strings a pattern stands for. *)
Inductive lang : re -> string -> Prop :=
| lang_eps : lang Eps ""
| lang_class f c : f c = true -> lang (Class f) (String c "")
| lang_seq r1 r2 s1 s2 :
    lang r1 s1 -> lang r2 s2 -> lang (Seq r1 r2) (s1 ++ s2)
| lang_alt_l r1 r2 s : lang r1 s -> lang (Alt r1 r2) s
| lang_alt_r r1 r2 s : lang r2 s -> lang (Alt r1 r2) s
| lang_star_nil r : lang (Star r) ""
| lang_star_cons r s1 s2 :
    lang r s1 -> lang (Star r) s2 -> lang (Star r) (s1 ++ s2).

End Regex.

Module RegisterPage.
Import Js.

(** The state [formData]: the four inputs, each a string. *)
Record formData : Type := mkForm {
  name : string;
  email : string;
  password : string;
  confirmPassword : string
}.

(** [[^\s@]] *)
Definition not_space_at (c : ascii) : bool :=
  negb (is_space c) && negb (Ascii.eqb c "@").

(** [/^[^\s@]+@[^\s@]+\.[^\s@]+$/] *)
Definition email_pattern : Regex.re :=
  Regex.Seq (Regex.Plus (Regex.Class not_space_at))
    (Regex.Seq (Regex.Class (Ascii.eqb "@"))
       (Regex.Seq (Regex.Plus (Regex.Class not_space_at))
          (Regex.Seq (Regex.Class (Ascii.eqb "."))
             (Regex.Plus (Regex.Class not_space_at))))).

(** [[A-Z]] *)
Definition upper (c : ascii) : bool :=
  let n := N_of_ascii c in ((65 <=? n)%N && (n <=? 90)%N)%bool.

(** The class of special characters of the last pattern: the characters
    of the two strings below and, between them, the double quote
    (character 34). *)
Definition special (c : ascii) : bool :=
  existsb (Ascii.eqb c)
    (list_ascii_of_string "!@#$%^&*(),.?" ++ [ascii_of_nat 34] ++
     list_ascii_of_string ":{}|<>")%list.

(** [validateForm()]: [None] is [return true]; [Some msg] is
    [toast.error(msg)] followed by [return false]. *)
Definition validateForm (f : formData) : option string :=
  if negb (truthy (JStr (name f))) || negb (truthy (JStr (email f)))
     || negb (truthy (JStr (password f)))
  then Some "All fields are required"
  else if negb (Regex.test email_pattern (email f))
  then Some "Please enter a valid email address"
  else if Z.of_nat (String.length (password f)) <? 8
  then Some "Password must be at least 8 characters long"
  else if negb (Regex.test_class upper (password f))
  then Some "Password must contain at least one uppercase letter"
  else if negb (Regex.test_class special (password f))
  then Some "Password must contain at least one special character"
  else if negb (String.eqb (password f) (confirmPassword f))
  then Some "Passwords do not match"
  else None.

(** What [axios.post] comes back with: a response, a request that got none
    ([error.request] only), or an error before the request was made. *)
Inductive reply : Type :=
| Replied (res : Auth.response)
| NoResponse
| NotSent.

(** The toasts of the page: [toast.error(msg)] of [validateForm], the
    [toast.success] of a registration, and the [toast.error] of
    [handleSubmit], whose text is a cross mark, a space and
    [errorMessage]. *)
Inductive toast : Type :=
| Invalid (msg : string)
| Success
| Rejected (errorMessage : string).

Record state : Type := mkState {
  form : formData;
  isLoading : bool;
  toasts : list toast;
  location : string
}.

(** The body [handleSubmit] posts to /api/auth/register. *)
Definition request_body (f : formData) : Auth.credentials :=
  Auth.mkCredentials (JStr (name f)) (JStr (email f)) (JStr (password f)).

(** [error.response.data.error] and [error.response.data.message] *)
Definition data_error (b : Auth.body) : option string :=
  match b with
  | Auth.Failure e _ _ => Some e
  | _ => None
  end.

Definition data_message (b : Auth.body) : option string :=
  match b with
  | Auth.Registered m _ => Some m
  | _ => None
  end.

(** The statuses axios resolves on. *)
Definition resolved (res : Auth.response) : bool :=
  (200 <=? Auth.status res) && (Auth.status res <? 300).

(** [handleSubmit(e)], with what the request comes back with when it is
    sent. *)
Definition handleSubmit (server : reply) (s : state) : state :=
  match validateForm (form s) with
  | Some msg =>
      mkState (form s) (isLoading s) (toasts s ++ [Invalid msg])%list
        (location s)
  | None =>
      let fallback := "Registration failed. Please try again." in
      match server with
      | Replied res =>
          if resolved res
          then mkState (mkForm "" "" "" "") false
                 (toasts s ++ [Success])%list "/login"
          else
            mkState (form s) false
              (toasts s ++
               [Rejected
                  (Net.or_default (data_error (Auth.payload res))
                     (Net.or_default (data_message (Auth.payload res))
                        fallback))])%list
              (location s)
      | NoResponse =>
          mkState (form s) false
            (toasts s ++
             [Rejected
                "No response from server. Please check your connection."])%list
            (location s)
      | NotSent =>
          mkState (form s) false (toasts s ++ [Rejected fallback])%list
            (location s)
      end
  end.

End RegisterPage.

(** ** Further notions used in the statements *)

Module Props.
Import Js Db Store.

(** A string that [trim] leaves as it is. *)
Definition trimmed (s : string) : Prop := trim s = s.

(** The text columns of a row carry no white space at either end. *)
Definition row_trimmed (r : row) : Prop :=
  trimmed (email r) /\ trimmed (title r) /\ trimmed (image r).


(** A whole quantity from 1 to [2^53 - 1]: one more is a double, and one
    less than that is the quantity again. *)
Definition whole_quantity (q : num) : Prop :=
  exists z, q = Int z /\ 1 <= z < 2 ^ 53.

(** A string without the space character. *)
Definition no_space (s : string) : Prop :=
  Forall (fun c => c <> " "%char) (list_ascii_of_string s).

(** The addresses in the state array of the product list were allocated
    before [next]. *)
Definition products_allocated (st : Products.state) : Prop :=
  Forall (fun l => (l < Products.next st)%nat) (Products.cartItems st).

(** What [updateQuantity] shows while the request is out: the quantity of
    the matching items replaced. *)
Definition with_new_quantity (productId : value) (newQuantity : num)
    (it : Cart.item) : Cart.item :=
  if strict_eq (Cart.product_id it) productId
  then Cart.mkItem (Cart.product_id it) (Cart.name it) (Cart.price it)
         newQuantity (Cart.image it)
  else it.

(** The calls of db.js that write the tables [users] and [contacts]. *)
Inductive account_op : Type :=
| Register (nm em plainPassword : value)
| UpdateProfile (userId : value) (data : Users.profileData)
| SaveContact (nm em msg : option string).

Definition account_apply (bcrypt_hash : string -> Db.result string)
    (o : account_op) (t : Users.tables) : Users.tables :=
  match o with
  | Register nm em pw => snd (Users.registerUser bcrypt_hash nm em pw t)
  | UpdateProfile userId data => snd (Users.updateUserProfile userId data t)
  | SaveContact nm em msg => snd (Users.saveContact nm em msg t)
  end.

Definition account_run (bcrypt_hash : string -> Db.result string)
    (ops : list account_op) (t : Users.tables) : Users.tables :=
  fold_left (fun acc o => account_apply bcrypt_hash o acc) ops t.

(** No two users share an email or an id, and every id was given by the
    AUTOINCREMENT key. *)
Definition accounts_distinct (t : Users.tables) : Prop :=
  NoDup (List.map Users.email (Users.users t)) /\
  NoDup (List.map Users.id (Users.users t)) /\
  Forall (fun u => 0 < Users.id u <= Users.users_seq t) (Users.users t) /\
  0 <= Users.users_seq t.

(** A string that is not empty and is white space only. *)
Definition blank (s : string) : Prop := s <> "" /\ trim s = "".

(** A string that is not empty and has no white space and no at sign. *)
Definition plain (s : string) : Prop :=
  s <> "" /\
  Forall (fun c => RegisterPage.not_space_at c = true) (list_ascii_of_string s).

(** Something, an at sign, something, a dot, something. *)
Definition email_shape (e : string) : Prop :=
  exists a b c,
    e = a ++ String "@" (b ++ String "." c) /\ plain a /\ plain b /\ plain c.

(** Some character of the string is in the class. *)
Definition has_char (f : ascii -> bool) (s : string) : Prop :=
  exists c, In c (list_ascii_of_string s) /\ f c = true.

End Props.

(** ** More sample data *)

Module Fixture.
Import Js Db.

(** The cart page of a signed-in user: two mugs and one pen. *)
Definition mugs : Cart.item := Cart.mkItem (JNum 42) "Mug" 999 2 "m.png".
Definition pen : Cart.item := Cart.mkItem (JNum 5) "Pen" 120 1 "p.png".
Definition page : Cart.state :=
  Cart.mkState {[ 0%nat := mugs; 1%nat := pen ]} 2 [0%nat; 1%nat] false [].

(** Answers of the server: a failure, and a snapshot with three mugs. *)
Definition failure : Net.reply :=
  Net.Replied (Server.mkResponse 500
                 (Server.Failure "Database update error" None None)).
Definition snapshot : Net.reply :=
  Net.Replied (Server.json
                 (Server.Items [mkLine (JNum 42) "a@b.c" "Mug" 999 "" 3] None)).
Definition acknowledged : Net.reply :=
  Net.Replied (Server.json (Server.Message "Quantity updated")).

(** The product page with one shirt in the cart. *)
Definition hat : Products.product := Products.mkProduct 2 "Hat" 5 "h.png".
Definition product_page : ProductPage.state :=
  ProductPage.mkState [ProductPage.mkItem (JNum 1) "Shirt" 10 "s.png" 1] false
    [] None true.

(** A bcrypt that hashes by prefixing and compares accordingly. *)
Definition toy_hash (p : string) : Db.result string := Ok ("$2b$" ++ p)%string.
Definition toy_compare (p h : string) : Db.result bool :=
  Ok (String.eqb ("$2b$" ++ p)%string h).

(** The table [users] after Ann registered. *)
Definition ann : Users.user :=
  Users.mkUser 1 "Ann" "ann@x.io" "$2b$Secret!1" None None None None.
Definition members : Users.tables := Users.mkTables [ann] 1 [] 0.

(** A registration form the page accepts, and the page before it is
    sent. *)
Definition bob_form : RegisterPage.formData :=
  RegisterPage.mkForm "Bob" "bob@x.io" "Hunter#22" "Hunter#22".
Definition register_page : RegisterPage.state :=
  RegisterPage.mkState bob_form false [] "/register".

End Fixture.

(** * Properties of the store *)

Import Js Db Store.

Section StoreProperties.

Context `{engine : Engine}.

(** ** Numbers *)

Lemma real_eqb_eq (x y : real) : real_eqb x y = true <-> x = y.
Proof.
  destruct x as [k e|s], y as [k' e'|s']; simpl; split; intros E;
    try discriminate.
  - apply andb_prop in E as [E1 E2]. apply Z.eqb_eq in E1.
    apply Pos.eqb_eq in E2. congruence.
  - injection E as -> ->. rewrite Z.eqb_refl, Pos.eqb_refl. reflexivity.
  - apply Bool.eqb_prop in E. congruence.
  - injection E as ->. apply Bool.eqb_reflx.
Qed.

Lemma compare_parts_antisym m1 e1 m2 e2 :
  compare_parts m2 e2 m1 e1 = CompOpp (compare_parts m1 e1 m2 e2).
Proof.
  unfold compare_parts. rewrite (Z.min_comm e2 e1). apply Z.compare_antisym.
Qed.

Lemma num_compare_antisym (a b : num) :
  num_compare b a = CompOpp <$> num_compare a b.
Proof.
  destruct a as [|x|[k e|s]], b as [|y|[k' e'|s']]; simpl; try reflexivity;
    try (rewrite compare_parts_antisym; reflexivity).
  - rewrite Z.compare_antisym. reflexivity.
  - destruct s'; reflexivity.
  - destruct s'; reflexivity.
  - destruct s; reflexivity.
  - destruct s; reflexivity.
  - destruct s, s'; reflexivity.
Qed.

(** For numbers other than NaN, [a <= b] is the negation of [b < a]. *)
Lemma num_leb_ltb (a b : num) :
  a <> NaN -> b <> NaN -> num_leb a b = negb (num_ltb b a).
Proof.
  intros Ha Hb. unfold num_leb, num_ltb. rewrite (num_compare_antisym a b).
  destruct a, b; try congruence;
    destruct (num_compare _ _) as [[| |]|] eqn:E; try reflexivity;
    simpl in E; try discriminate;
    repeat match type of E with
    | context [match ?x with _ => _ end] => destruct x
    end; discriminate.
Qed.

Lemma num_ltb_int (x y : Z) : num_ltb (Int x) (Int y) = (x <? y).
Proof.
  unfold num_ltb. simpl. unfold Z.ltb. destruct (x ?= y); reflexivity.
Qed.

Lemma num_ltb_nan (a : num) : num_ltb a NaN = false.
Proof. unfold num_ltb. destruct a as [|x|[k e|s]]; reflexivity. Qed.

(** ** Guards *)

(** The guard [!id || isNaN(id) || id <= 0] lets through the numbers above
    zero. *)
Lemma invalid_id_number (n : num) : invalid_id (JNum n) = negb (num_ltb 0 n).
Proof.
  unfold invalid_id, isNaN, le_zero. cbn [to_number].
  destruct n as [|z|x].
  - reflexivity.
  - cbn [truthy]. rewrite num_leb_ltb by discriminate.
    rewrite num_ltb_int, Bool.negb_involutive. cbn [orb].
    destruct (Z.eqb_spec z 0) as [->|Hz]; [reflexivity|].
    reflexivity.
  - cbn [truthy negb orb]. apply num_leb_ltb; discriminate.
Qed.

Lemma valid_id_number (x : value) :
  invalid_id (to_int x) = false ->
  exists n, to_int x = JNum n /\ num_ltb 0 n = true.
Proof.
  destruct x as [| |n|s]; cbn [to_int]; try discriminate.
  - rewrite invalid_id_number. intros E%negb_false_iff. eauto.
  - rewrite invalid_id_number. intros E%negb_false_iff. eauto.
Qed.

Lemma positive_id_valid (z : Z) : 0 < z -> invalid_id (JNum (Int z)) = false.
Proof.
  intros E. rewrite invalid_id_number, num_ltb_int.
  apply negb_false_iff, Z.ltb_lt, E.
Qed.

Lemma int_of_inj (n : num) (u : Z) :
  num_ltb 0 n = true -> int_of (JNum n) = PInt u -> n = Int u.
Proof.
  destruct n as [|z|x]; simpl; [discriminate| |discriminate].
  intros _ [= ->]. reflexivity.
Qed.

(** The user of a call that passed the guard is [u] exactly when the
    converted argument is the number [u]. *)
Lemma int_of_user (x : value) (u : Z) :
  invalid_id (to_int x) = false ->
  int_of (to_int x) = PInt u <-> to_int x = JNum (Int u).
Proof.
  intros Hid. destruct (valid_id_number x Hid) as (n & Hn & Hpos).
  rewrite Hn. split.
  - intros E. apply (int_of_inj n u Hpos) in E. congruence.
  - intros [= ->]. reflexivity.
Qed.

Lemma pid_eqb_eq (a b : pidval) : pid_eqb a b = true <-> a = b.
Proof.
  destruct a, b; simpl; split; intros E; try discriminate; try congruence.
  - apply Z.eqb_eq in E. congruence.
  - injection E as ->. apply Z.eqb_refl.
  - apply real_eqb_eq in E. congruence.
  - injection E as ->. apply real_eqb_eq. reflexivity.
  - apply String.eqb_eq in E. congruence.
  - injection E as ->. apply String.eqb_refl.
Qed.

Lemma pid_eqb_refl (a : pidval) : pid_eqb a a = true.
Proof. apply pid_eqb_eq. reflexivity. Qed.

Lemma pid_eqb_neq (a b : pidval) : pid_eqb a b = false <-> a <> b.
Proof.
  destruct (pid_eqb a b) eqn:E.
  - apply pid_eqb_eq in E. split; [discriminate|contradiction].
  - split; [|reflexivity]. intros _ Hab. apply pid_eqb_eq in Hab. congruence.
Qed.

Lemma has_key_spec (u p : pidval) (r : row) :
  has_key u p r = true <-> user_id r = u /\ product_id r = p.
Proof.
  unfold has_key. rewrite andb_true_iff, !pid_eqb_eq. reflexivity.
Qed.

Lemma owned_by_spec (u : pidval) (r : row) :
  owned_by u r = true <-> user_id r = u.
Proof. apply pid_eqb_eq. Qed.

Lemma db_eta (d : db) : mkDb (carts d) (journal d) = d.
Proof. destruct d; reflexivity. Qed.

(** The quantity of an element is never NaN. *)
Lemma quantity_of_number (v : value) : is_nan (quantity_of v) = false.
Proof.
  unfold quantity_of, gt_zero.
  destruct v as [| |n|s]; cbn [is_number andb]; try reflexivity.
  cbn [to_number]. destruct (num_ltb 0 n) eqn:E; [|reflexivity].
  destruct n; [|reflexivity|reflexivity]. rewrite num_ltb_nan in E.
  discriminate.
Qed.

(** ** Statements keep the journal *)

Lemma exec_insert_journal u p em ti pr im q d :
  journal (snd (exec_insert u p em ti pr im q d)) = journal d.
Proof.
  unfold exec_insert. destruct p as [p|]; [|reflexivity].
  destruct (is_nan pr); [reflexivity|].
  destruct (is_nan q); [reflexivity|].
  destruct (existsb _ _); reflexivity.
Qed.

Lemma exec_upsert_journal u p em ti pr im q d :
  journal (snd (exec_upsert u p em ti pr im q d)) = journal d.
Proof.
  unfold exec_upsert. destruct p as [p|]; [|reflexivity].
  destruct (is_nan pr); [reflexivity|].
  destruct (is_nan q); [reflexivity|].
  destruct (existsb _ _); [|reflexivity].
  destruct (existsb _ _); reflexivity.
Qed.

Lemma insert_item_journal id em it d :
  journal (snd (insert_item id em it d)) = journal d.
Proof. apply exec_insert_journal. Qed.

Lemma insert_loop_journal observed id em items :
  forall hasError d,
    journal (snd (insert_loop observed id em items hasError d)) = journal d.
Proof.
  induction items as [|it rest IH]; intros hasError d; simpl; [reflexivity|].
  destruct (observed && hasError); [reflexivity|].
  destruct (insert_item id em it d) as [insertErr d'] eqn:E.
  rewrite IH. change d' with (snd (insertErr, d')). rewrite <- E.
  apply insert_item_journal.
Qed.

(** The flag only goes up. *)
Lemma insert_loop_flag_true observed id em items :
  forall d, fst (insert_loop observed id em items true d) = true.
Proof.
  induction items as [|it rest IH]; intros d; simpl; [reflexivity|].
  destruct observed; simpl; [reflexivity|].
  destruct (insert_item id em it d) as [insertErr d']. apply IH.
Qed.

Lemma insert_loop_cons observed id em it rest d :
  insert_loop observed id em (it :: rest) false d =
  insert_loop observed id em rest
    (bool_decide (is_Some (fst (insert_item id em it d))))
    (snd (insert_item id em it d)).
Proof.
  simpl. rewrite andb_false_r.
  destruct (insert_item id em it d) as [insertErr d']. reflexivity.
Qed.

(** The flag is up at the end exactly when some insert failed. *)
Lemma insert_loop_flag observed id em items :
  forall d,
    fst (insert_loop observed id em items false d) = true <->
    insert_fails observed id em items d.
Proof.
  induction items as [|it rest IH]; intros d.
  - simpl. split; [discriminate|].
    intros (pre & it & post & dk & Heq & _). destruct pre; discriminate.
  - rewrite insert_loop_cons.
    destruct (insert_item id em it d) as [insertErr d'] eqn:E.
    destruct insertErr as [e|]; simpl.
    + rewrite insert_loop_flag_true. split; [|reflexivity].
      intros _. exists [], it, rest, d. rewrite E. simpl. eauto.
    + rewrite IH. split.
      * intros (pre & it' & post & dk & -> & Hpre & Hfail).
        exists (it :: pre), it', post, dk. split; [reflexivity|].
        split; [|exact Hfail]. rewrite insert_loop_cons, E. exact Hpre.
      * intros (pre & it' & post & dk & Heq & Hpre & Hfail).
        destruct pre as [|it0 pre].
        -- simpl in Heq. injection Heq as <- <-.
           simpl in Hpre. injection Hpre as <-.
           rewrite E in Hfail. simpl in Hfail. destruct Hfail; discriminate.
        -- simpl in Heq. injection Heq as <- ->.
           rewrite insert_loop_cons, E in Hpre.
           exists pre, it', post, dk. eauto.
Qed.

(** ** [saveCart] *)

Lemma insert_item_ok id em it d d' :
  insert_item id em it d = (None, d') ->
  exists r, row_of_item id em it = Some r /\
            carts d' = (carts d ++ [r])%list /\ journal d' = journal d.
Proof.
  unfold insert_item, exec_insert, row_of_item.
  destruct (bind_product_id (item_id it)) as [p|]; [|discriminate].
  destruct (is_nan (price_of (item_price it))); [discriminate|].
  rewrite quantity_of_number.
  destruct (existsb _ _); [discriminate|].
  intros [= <-]. eexists. split; [reflexivity|]. split; reflexivity.
Qed.

Lemma insert_loop_ok observed id em items :
  forall d d',
    insert_loop observed id em items false d = (false, d') ->
    exists rows,
      Forall2 (fun it r => row_of_item id em it = Some r) items rows /\
      carts d' = (carts d ++ rows)%list.
Proof.
  induction items as [|it rest IH]; intros d d' E0.
  - simpl in E0. injection E0 as <-. exists []. split; [constructor|].
    rewrite app_nil_r. reflexivity.
  - rewrite insert_loop_cons in E0.
    destruct (insert_item id em it d) as [[e|] d1] eqn:E; simpl in E0.
    + pose proof (insert_loop_flag_true observed id em rest d1) as Ht.
      rewrite E0 in Ht. discriminate.
    + apply insert_item_ok in E as (r & Hr & Hc & _).
      apply IH in E0 as (rows & Hrows & Hc').
      exists (r :: rows). split; [constructor; assumption|].
      rewrite Hc', Hc, <- app_assoc. reflexivity.
Qed.

(** With no transaction open, [BEGIN] and [COMMIT] succeed and the call
    is the delete and the inserts, kept or undone as a whole. *)
Lemma saveCart_idle observed userId em items d :
  journal d = None ->
  invalid_id (to_int userId) = false ->
  invalid_email em = false ->
  saveCart observed userId em (Some items) d =
  let run :=
    insert_loop observed (int_of (to_int userId)) (trim_value em) items false
      (mkDb (List.filter (fun r => negb (owned_by (int_of (to_int userId)) r))
               (carts d))
         (Some (carts d))) in
  if fst run then (Err (StorageError "Insert error"), d)
  else (Ok tt, mkDb (carts (snd run)) None).
Proof.
  intros Hj Hid Hem. unfold saveCart.
  rewrite Hid, Hem.
  unfold exec_begin. rewrite Hj. simpl.
  pose proof (insert_loop_journal observed (int_of (to_int userId))
    (trim_value em) items false
    (mkDb (List.filter (fun r => negb (owned_by (int_of (to_int userId)) r))
             (carts d))
       (Some (carts d)))) as Hjl.
  destruct (insert_loop _ _ _ _ _ _) as [hasError d3]. simpl in Hjl |- *.
  destruct hasError.
  - unfold rollback, exec_rollback. rewrite Hjl.
    destruct d as [c j]. simpl in Hj. subst j. reflexivity.
  - unfold exec_commit. rewrite Hjl. reflexivity.
Qed.

(** The two outcomes of a call on a connection with no transaction open. *)
Lemma saveCart_outcome observed userId em cartItems d :
  journal d = None ->
  (exists e, saveCart observed userId em cartItems d = (Err e, d)) \/
  (exists items d',
     cartItems = Some items /\ invalid_id (to_int userId) = false /\
     invalid_email em = false /\
     insert_loop observed (int_of (to_int userId)) (trim_value em) items false
       (mkDb (List.filter (fun r => negb (owned_by (int_of (to_int userId)) r))
                (carts d))
          (Some (carts d))) = (false, d') /\
     saveCart observed userId em cartItems d = (Ok tt, mkDb (carts d') None)).
Proof.
  intros Hj.
  destruct (invalid_id (to_int userId)) eqn:Hid.
  { left. unfold saveCart. rewrite Hid. eauto. }
  destruct (invalid_email em) eqn:Hem.
  { left. unfold saveCart. rewrite Hid, Hem. eauto. }
  destruct cartItems as [items|].
  2:{ left. unfold saveCart. rewrite Hid, Hem. eauto. }
  rewrite (saveCart_idle observed userId em items d Hj Hid Hem).
  simpl.
  destruct (insert_loop observed _ (trim_value em) items false _)
    as [hasError d3] eqn:Hloop.
  destruct hasError; simpl; [left; eauto|].
  right. exists items, d3. repeat split; assumption.
Qed.

(** C1.  [saveCart] is all or nothing.  Called on a connection with no
    transaction open: (1) a call that does not succeed leaves the
    connection as it was before the call; (2) when an insert fails, the
    call does not succeed: it reports "Insert error" and the connection is
    as before the call; (3) a call that succeeds leaves the rows of the
    other users followed by one row for every element supplied. *)
Theorem saveCart_atomic (observed : bool) (userId em : value)
    (cartItems : option (list item)) (d : db) :
  journal d = None ->
  let id := int_of (to_int userId) in
  let res := fst (saveCart observed userId em cartItems d) in
  let d' := snd (saveCart observed userId em cartItems d) in
  (res <> Ok tt -> d' = d) /\
  (forall items,
     cartItems = Some items ->
     invalid_id (to_int userId) = false ->
     invalid_email em = false ->
     insert_fails observed id (trim_value em) items
       (snd (exec_delete_user id (snd (exec_begin d)))) ->
     res = Err (StorageError "Insert error") /\ d' = d) /\
  (res = Ok tt ->
   exists items rows,
     cartItems = Some items /\
     Forall2 (fun it r => row_of_item id (trim_value em) it = Some r)
       items rows /\
     carts d' =
       (List.filter (fun r => negb (owned_by id r)) (carts d) ++ rows)%list /\
     journal d' = None).
Proof.
  intros Hj id res d'. subst id res d'.
  split; [|split].
  - destruct (saveCart_outcome observed userId em cartItems d Hj)
      as [(e & ->)|(items & d3 & _ & _ & _ & _ & ->)]; simpl.
    + reflexivity.
    + intros E. exfalso. apply E. reflexivity.
  - intros items -> Hid Hem Hfail.
    unfold exec_begin in Hfail. rewrite Hj in Hfail. simpl in Hfail.
    apply insert_loop_flag in Hfail.
    rewrite (saveCart_idle observed userId em items d Hj Hid Hem).
    simpl. rewrite Hfail. split; reflexivity.
  - destruct (saveCart_outcome observed userId em cartItems d Hj)
      as [(e & ->)|(items & d3 & -> & _ & _ & Hloop & ->)]; simpl.
    + discriminate.
    + intros _.
      apply insert_loop_ok in Hloop as (rows & Hrows & Hc).
      exists items, rows. repeat split; assumption.
Qed.

(** An element without a product id is such a failing insert. *)
Lemma saveCart_rejects_missing_id observed userId em items d it :
  journal d = None ->
  invalid_id (to_int userId) = false ->
  invalid_email em = false ->
  In it items ->
  bind_product_id (item_id it) = None ->
  saveCart observed userId em (Some items) d =
  (Err (StorageError "Insert error"), d).
Proof.
  intros Hj Hid Hem Hin Hnull.
  rewrite (saveCart_idle observed userId em items d Hj Hid Hem).
  simpl.
  assert (forall hasError d0,
    fst (insert_loop observed (int_of (to_int userId)) (trim_value em) items
           hasError d0) = true)
    as Hflag.
  { clear -Hin Hnull. induction items as [|it0 rest IH]; [destruct Hin|].
    intros hasError d0. destruct hasError; [apply insert_loop_flag_true|].
    rewrite insert_loop_cons. destruct Hin as [->|Hin].
    - unfold insert_item, exec_insert. rewrite Hnull. simpl.
      apply insert_loop_flag_true.
    - apply IH. exact Hin. }
  rewrite Hflag. reflexivity.
Qed.

(** ** Lists of rows *)

Section Rows.

Context {A : Type}.

Lemma filter_filter_length (f g : A -> bool) (l : list A) :
  (List.length (List.filter f (List.filter g l)) <=
   List.length (List.filter f l))%nat.
Proof.
  induction l as [|x l IH]; simpl; [lia|].
  destruct (g x); simpl; destruct (f x); simpl; lia.
Qed.

Lemma filter_filter_same (f g : A -> bool) (l : list A) :
  (forall x, f x = true -> g x = true) ->
  List.filter f (List.filter g l) = List.filter f l.
Proof.
  intros H. induction l as [|x l IH]; simpl; [reflexivity|].
  destruct (g x) eqn:Eg; simpl.
  - destruct (f x); congruence.
  - destruct (f x) eqn:Ef; [apply H in Ef; congruence|exact IH].
Qed.

Lemma filter_map_commute (f : A -> bool) (h : A -> A) (l : list A) :
  (forall x, f (h x) = f x) ->
  List.filter f (List.map h l) = List.map h (List.filter f l).
Proof.
  intros H. induction l as [|x l IH]; simpl; [reflexivity|].
  rewrite H. destruct (f x); simpl; congruence.
Qed.

Lemma filter_map_same (f : A -> bool) (h : A -> A) (l : list A) :
  (forall x, f (h x) = f x) ->
  (forall x, f x = true -> h x = x) ->
  List.filter f (List.map h l) = List.filter f l.
Proof.
  intros H1 H2. induction l as [|x l IH]; simpl; [reflexivity|].
  rewrite H1. destruct (f x) eqn:Ef; [rewrite (H2 x Ef)|]; congruence.
Qed.

Lemma existsb_false_filter (f : A -> bool) (l : list A) :
  existsb f l = false -> List.filter f l = [].
Proof.
  induction l as [|x l IH]; simpl; [reflexivity|].
  destruct (f x); simpl; [discriminate|exact IH].
Qed.

Lemma existsb_true_filter (f : A -> bool) (l : list A) :
  existsb f l = true -> List.filter f l <> [].
Proof.
  induction l as [|x l IH]; simpl; [discriminate|].
  destruct (f x); simpl; [discriminate|exact IH].
Qed.

End Rows.

(** ** Uniqueness of the (user, product) pair *)

Lemma unique_rows_filter (g : row -> bool) (rows : list row) :
  unique_rows rows -> unique_rows (List.filter g rows).
Proof.
  intros H u p. specialize (H u p).
  pose proof (filter_filter_length (has_key u p) g rows). lia.
Qed.

Lemma unique_rows_map (h : row -> row) (rows : list row) :
  (forall u p r, has_key u p (h r) = has_key u p r) ->
  unique_rows rows -> unique_rows (List.map h rows).
Proof.
  intros Hh H u p. specialize (H u p).
  rewrite filter_map_commute by (intros; apply Hh).
  rewrite length_map. exact H.
Qed.

Lemma unique_rows_snoc (rows : list row) (r : row) :
  existsb (has_key (user_id r) (product_id r)) rows = false ->
  unique_rows rows -> unique_rows (rows ++ [r]).
Proof.
  intros Hnew H u p. rewrite List.filter_app, List.length_app. simpl.
  destruct (has_key u p r) eqn:Hk; simpl.
  - apply has_key_spec in Hk as [<- <-].
    rewrite (existsb_false_filter _ _ Hnew). simpl. lia.
  - specialize (H u p). lia.
Qed.

Lemma exec_insert_unique u p em ti pr im q d :
  unique_rows (carts d) ->
  unique_rows (carts (snd (exec_insert u p em ti pr im q d))).
Proof.
  intros Hu. unfold exec_insert. destruct p as [p|]; [|exact Hu].
  destruct (is_nan pr); [exact Hu|].
  destruct (is_nan q); [exact Hu|].
  destruct (existsb _ _) eqn:E; [exact Hu|]. simpl.
  apply unique_rows_snoc; assumption.
Qed.

Lemma exec_upsert_unique u p em ti pr im q d :
  unique_rows (carts d) ->
  unique_rows (carts (snd (exec_upsert u p em ti pr im q d))).
Proof.
  intros Hu. unfold exec_upsert. destruct p as [p|]; [|exact Hu].
  destruct (is_nan pr); [exact Hu|].
  destruct (is_nan q); [exact Hu|].
  destruct (existsb (has_key u p) _) eqn:E.
  - destruct (existsb (fun r => _ && _) _); [exact Hu|]. simpl.
    apply unique_rows_map; [|exact Hu].
    intros u' p' r. destruct (has_key u p r); reflexivity.
  - simpl. apply unique_rows_snoc; assumption.
Qed.

Lemma insert_loop_unique observed id em items :
  forall hasError d,
    unique_rows (carts d) ->
    unique_rows (carts (snd (insert_loop observed id em items hasError d))).
Proof.
  induction items as [|it rest IH]; intros hasError d H; simpl; [exact H|].
  destruct (observed && hasError); [exact H|].
  destruct (insert_item id em it d) as [insertErr d'] eqn:E.
  apply IH. change d' with (snd (insertErr, d')). rewrite <- E.
  apply exec_insert_unique. exact H.
Qed.

Lemma addOrUpdateCartItem_consistent userId em it d :
  consistent d -> consistent (snd (addOrUpdateCartItem userId em it d)).
Proof.
  intros [Hj Hu]. unfold addOrUpdateCartItem.
  destruct (invalid_id _); [split; assumption|].
  destruct (invalid_email _); [split; assumption|].
  destruct (negb _); [split; assumption|].
  pose proof (exec_upsert_journal (int_of (to_int userId))
    (bind_product_id (item_id it)) (trim_value em) (opt_trim (item_title it))
    (price_of (item_price it)) (opt_trim (item_image it))
    (quantity_of (item_quantity it)) d) as Hj'.
  pose proof (exec_upsert_unique (int_of (to_int userId))
    (bind_product_id (item_id it)) (trim_value em) (opt_trim (item_title it))
    (price_of (item_price it)) (opt_trim (item_image it))
    (quantity_of (item_quantity it)) d Hu) as Hu'.
  destruct (exec_upsert _ _ _ _ _ _ _ _) as [[e|] d']; simpl in *;
    (split; [congruence|assumption]).
Qed.

Lemma saveCart_consistent observed userId em cartItems d :
  consistent d -> consistent (snd (saveCart observed userId em cartItems d)).
Proof.
  intros [Hj Hu].
  destruct (saveCart_outcome observed userId em cartItems d Hj)
    as [(e & ->)|(items & d3 & _ & _ & _ & Hloop & ->)]; simpl.
  - split; assumption.
  - split; [reflexivity|]. simpl.
    change d3 with (snd (false, d3)). rewrite <- Hloop.
    apply insert_loop_unique. simpl. apply unique_rows_filter. exact Hu.
Qed.

Lemma updateCartItemQuantity_consistent userId productId q d :
  consistent d ->
  consistent (snd (updateCartItemQuantity userId productId q d)).
Proof.
  intros [Hj Hu]. unfold updateCartItemQuantity.
  destruct (invalid_id (to_int userId)); [split; assumption|].
  destruct (invalid_id (to_int productId)); [split; assumption|].
  destruct (invalid_id (to_int q)); [split; assumption|].
  simpl. split; [exact Hj|]. simpl.
  apply unique_rows_map; [|exact Hu].
  intros u p r. destruct (has_key _ _ r); reflexivity.
Qed.

Lemma removeCartItem_consistent userId productId d :
  consistent d -> consistent (snd (removeCartItem userId productId d)).
Proof.
  intros [Hj Hu]. unfold removeCartItem.
  destruct (invalid_id (to_int userId)); [split; assumption|].
  destruct (invalid_id (to_int productId)); [split; assumption|].
  simpl. split; [exact Hj|]. simpl. apply unique_rows_filter. exact Hu.
Qed.

Lemma clearCart_consistent userId d :
  consistent d -> consistent (snd (clearCart userId d)).
Proof.
  intros [Hj Hu]. unfold clearCart.
  destruct (invalid_id (to_int userId)); [split; assumption|].
  simpl. split; [exact Hj|]. simpl. apply unique_rows_filter. exact Hu.
Qed.

Lemma apply_consistent (o : op) (d : db) :
  consistent d -> consistent (apply o d).
Proof.
  destruct o; simpl.
  - apply addOrUpdateCartItem_consistent.
  - apply saveCart_consistent.
  - apply updateCartItemQuantity_consistent.
  - apply removeCartItem_consistent.
  - apply clearCart_consistent.
Qed.

Lemma run_consistent (ops : list op) :
  forall d, consistent d -> consistent (run ops d).
Proof.
  induction ops as [|o ops IH]; intros d H; simpl; [exact H|].
  apply IH, apply_consistent, H.
Qed.

Lemma empty_db_consistent : consistent empty_db.
Proof. split; [reflexivity|]. intros u p. simpl. lia. Qed.

Lemma run_snoc (ops : list op) (o : op) (d : db) :
  run (ops ++ [o]) d = apply o (run ops d).
Proof. unfold run. rewrite fold_left_app. reflexivity. Qed.

(** After an upsert that binds no NULL the pair has a row. *)
Lemma exec_upsert_stored (u p : pidval) em ti pr im q d :
  is_nan pr = false -> is_nan q = false ->
  lines_for u p (snd (exec_upsert u (Some p) em ti pr im q d)) <> [].
Proof.
  intros Hpr Hq. unfold lines_for, exec_upsert. rewrite Hpr, Hq.
  destruct (existsb (has_key u p) (carts d)) eqn:E.
  - apply existsb_true_filter in E.
    destruct (existsb (fun r => _ && _) _); simpl; [exact E|].
    rewrite filter_map_commute
      by (intros r; destruct (has_key u p r) eqn:Hk; exact Hk).
    destruct (List.filter (has_key u p) (carts d)); [congruence|discriminate].
  - simpl. rewrite List.filter_app. simpl.
    assert (has_key u p (mkRow u p em ti pr im q) = true) as ->
      by (apply has_key_spec; split; reflexivity).
    intros H. apply app_eq_nil in H as [_ H]. discriminate.
Qed.

Lemma is_nan_false (n : num) : n <> NaN -> is_nan n = false.
Proof. destruct n; [congruence|reflexivity..]. Qed.

(** After an accepted upsert for [(u, p)] the pair has a row. *)
Lemma upsert_for_stored (u : Z) (p : pidval) (o : op) (d : db) :
  upsert_for u p o -> lines_for u p (apply o d) <> [].
Proof.
  destruct o as [userId em it| | | |]; simpl; try contradiction.
  intros (Hid & Hpos & Hem & Ht & Hp & Hpr).
  unfold addOrUpdateCartItem.
  rewrite Hid, (positive_id_valid u Hpos), Hem, Ht, Hp. cbn [negb int_of].
  pose proof (exec_upsert_stored u p (trim_value em) (opt_trim (item_title it))
    (price_of (item_price it)) (opt_trim (item_image it))
    (quantity_of (item_quantity it)) d (is_nan_false _ Hpr)
    (quantity_of_number _)) as Hst.
  destruct (exec_upsert _ _ _ _ _ _ _ _) as [[e|] d']; exact Hst.
Qed.

(** C2.  Starting from the empty store, after any sequence of store
    operations every (user, product) pair has at most one row; and after a
    non-empty sequence of accepted upserts for one pair, that pair has
    exactly one row. *)
Theorem cart_lines_unique (ops : list op) (u : Z) (p : pidval) :
  (List.length (lines_for u p (run ops empty_db)) <= 1)%nat /\
  (ops <> [] ->
   Forall (upsert_for u p) ops ->
   List.length (lines_for u p (run ops empty_db)) = 1%nat).
Proof.
  pose proof (run_consistent ops empty_db empty_db_consistent) as [_ Hu].
  split; [apply Hu|].
  intros Hne Hall.
  destruct (exists_last Hne) as (ops' & o & ->).
  apply Forall_app in Hall as [_ Hlast].
  apply Forall_inv in Hlast.
  specialize (Hu u p). unfold lines_for in *.
  rewrite run_snoc in *.
  pose proof (upsert_for_stored u p o (run ops' empty_db) Hlast) as Hst.
  unfold lines_for in Hst.
  destruct (List.filter (has_key u p) (carts (apply o (run ops' empty_db))))
    as [|r [|r' rest]]; simpl in *; [congruence|reflexivity|lia].
Qed.

(** ** Frame: the rows of the other users *)

Lemma owned_by_other (u u' : pidval) (r : row) :
  u' <> u -> user_id r = u -> owned_by u' r = false.
Proof. intros Hne <-. apply pid_eqb_neq. congruence. Qed.

Lemma rows_of_insert u u' p em ti pr im q d :
  u' <> u ->
  rows_of u' (snd (exec_insert u p em ti pr im q d)) = rows_of u' d.
Proof.
  intros Hne. unfold exec_insert, rows_of.
  destruct p as [p|]; [|reflexivity].
  destruct (is_nan pr); [reflexivity|].
  destruct (is_nan q); [reflexivity|].
  destruct (existsb _ _); [reflexivity|]. simpl.
  rewrite List.filter_app. simpl.
  rewrite (owned_by_other u u' (mkRow u p em ti pr im q) Hne eq_refl).
  apply app_nil_r.
Qed.

Lemma owned_has_key u u' p r :
  u' <> u -> owned_by u' r = true -> has_key u p r = false.
Proof.
  unfold has_key. intros Hne Hr. apply owned_by_spec in Hr.
  destruct (pid_eqb (user_id r) u) eqn:E; [|reflexivity].
  apply pid_eqb_eq in E. congruence.
Qed.

Lemma rows_of_upsert u u' p em ti pr im q d :
  u' <> u ->
  rows_of u' (snd (exec_upsert u p em ti pr im q d)) = rows_of u' d.
Proof.
  intros Hne. unfold exec_upsert, rows_of.
  destruct p as [p|]; [|reflexivity].
  destruct (is_nan pr); [reflexivity|].
  destruct (is_nan q); [reflexivity|].
  destruct (existsb (has_key u p) _).
  - destruct (existsb (fun r => _ && _) _); [reflexivity|]. simpl.
    apply filter_map_same.
    + intros r. destruct (has_key u p r); reflexivity.
    + intros r Hr. rewrite (owned_has_key u u' p r Hne Hr). reflexivity.
  - simpl. rewrite List.filter_app. simpl.
    rewrite (owned_by_other u u' (mkRow u p em ti pr im q) Hne eq_refl).
  apply app_nil_r.
Qed.

Lemma rows_of_delete_user u u' d :
  u' <> u -> rows_of u' (snd (exec_delete_user u d)) = rows_of u' d.
Proof.
  intros Hne. unfold rows_of. simpl. apply filter_filter_same.
  intros r Hr. apply owned_by_spec in Hr.
  rewrite (owned_by_other u' u r) by congruence. reflexivity.
Qed.

Lemma rows_of_delete_line u u' p d :
  u' <> u -> rows_of u' (snd (exec_delete_line u p d)) = rows_of u' d.
Proof.
  intros Hne. unfold rows_of. simpl. apply filter_filter_same.
  intros r Hr. rewrite (owned_has_key u u' p r Hne Hr). reflexivity.
Qed.

Lemma rows_of_update_quantity q u u' p d :
  u' <> u -> rows_of u' (snd (exec_update_quantity q u p d)) = rows_of u' d.
Proof.
  intros Hne. unfold rows_of. simpl. apply filter_map_same.
  - intros r. destruct (has_key u p r); reflexivity.
  - intros r Hr. rewrite (owned_has_key u u' p r Hne Hr). reflexivity.
Qed.

Lemma rows_of_insert_loop observed u u' em items :
  u' <> u ->
  forall hasError d,
    rows_of u' (snd (insert_loop observed u em items hasError d)) = rows_of u' d.
Proof.
  intros Hne. induction items as [|it rest IH]; intros hasError d; simpl;
    [reflexivity|].
  destruct (observed && hasError); [reflexivity|].
  destruct (insert_item u em it d) as [insertErr d'] eqn:E.
  rewrite IH. change d' with (snd (insertErr, d')). rewrite <- E.
  apply rows_of_insert. exact Hne.
Qed.

(** The user of a call that passed the guard is not [u'] when the
    converted argument is not the number [u']. *)
Lemma other_user (x : value) (u' : Z) :
  invalid_id (to_int x) = false ->
  to_int x <> JNum (Int u') ->
  PInt u' <> int_of (to_int x).
Proof.
  intros Hid Hne E. apply Hne. apply (int_of_user x u' Hid). congruence.
Qed.

(** C10.  A store operation called for a user leaves the rows of every
    other user as they were: for a connection with no transaction open, an
    operation [o] and a user [u'] that is not the user [o] is called for,
    the rows of [u'] after [o] are the rows of [u'] before. *)
Theorem other_users_unchanged (o : op) (d : db) (u' : Z) :
  journal d = None ->
  op_user o <> JNum (Int u') ->
  rows_of u' (apply o d) = rows_of u' d.
Proof.
  intros Hj Hne.
  destruct o as [userId em it|observed userId em cartItems
                |userId productId q|userId productId|userId]; simpl in *.
  - unfold addOrUpdateCartItem.
    destruct (invalid_id (to_int userId)) eqn:Hid; [reflexivity|].
    destruct (invalid_email em); [reflexivity|].
    destruct (negb _); [reflexivity|].
    pose proof (other_user userId u' Hid Hne) as Hu.
    pose proof (rows_of_upsert (int_of (to_int userId)) u'
      (bind_product_id (item_id it))
      (trim_value em) (opt_trim (item_title it)) (price_of (item_price it))
      (opt_trim (item_image it)) (quantity_of (item_quantity it)) d Hu) as H.
    destruct (exec_upsert _ _ _ _ _ _ _ _) as [[e|] d1]; exact H.
  - destruct (saveCart_outcome observed userId em cartItems d Hj)
      as [(e & ->)|(items & d3 & _ & Hid & _ & Hloop & ->)]; simpl;
      [reflexivity|].
    pose proof (other_user userId u' Hid Hne) as Hu.
    pose proof (rows_of_insert_loop observed (int_of (to_int userId)) u'
      (trim_value em) items Hu false
      (mkDb (List.filter (fun r => negb (owned_by (int_of (to_int userId)) r))
               (carts d))
         (Some (carts d)))) as H.
    rewrite Hloop in H. unfold rows_of in *. simpl in *. rewrite H.
    apply (rows_of_delete_user (int_of (to_int userId)) u' d Hu).
  - unfold updateCartItemQuantity.
    destruct (invalid_id (to_int userId)) eqn:Hid; [reflexivity|].
    destruct (invalid_id (to_int productId)); [reflexivity|].
    destruct (invalid_id (to_int q)); [reflexivity|].
    apply (rows_of_update_quantity _ _ u' _ d (other_user userId u' Hid Hne)).
  - unfold removeCartItem.
    destruct (invalid_id (to_int userId)) eqn:Hid; [reflexivity|].
    destruct (invalid_id (to_int productId)); [reflexivity|].
    apply (rows_of_delete_line _ u' _ d (other_user userId u' Hid Hne)).
  - unfold clearCart.
    destruct (invalid_id (to_int userId)) eqn:Hid; [reflexivity|].
    apply (rows_of_delete_user _ u' d (other_user userId u' Hid Hne)).
Qed.

(** ** Upsert *)

Section Find.

Context {A : Type}.

Lemma find_map_commute (f : A -> bool) (h : A -> A) (l : list A) :
  (forall x, f (h x) = f x) ->
  List.find f (List.map h l) = option_map h (List.find f l).
Proof.
  intros H. induction l as [|x l IH]; simpl; [reflexivity|].
  rewrite H. destruct (f x); [reflexivity|exact IH].
Qed.

Lemma find_map_other (f : A -> bool) (h : A -> A) (l : list A) :
  (forall x, f (h x) = f x) ->
  (forall x, f x = true -> h x = x) ->
  List.find f (List.map h l) = List.find f l.
Proof.
  intros H1 H2. induction l as [|x l IH]; simpl; [reflexivity|].
  rewrite H1. destruct (f x) eqn:E; [rewrite (H2 x E); reflexivity|exact IH].
Qed.

Lemma find_snoc (f : A -> bool) (l : list A) (x : A) :
  List.find f (l ++ [x]) =
  match List.find f l with
  | Some y => Some y
  | None => if f x then Some x else None
  end.
Proof.
  induction l as [|y l IH]; simpl; [reflexivity|].
  destruct (f y); [reflexivity|exact IH].
Qed.

Lemma find_existsb (f : A -> bool) (l : list A) :
  existsb f l = bool_decide (is_Some (List.find f l)).
Proof.
  induction l as [|x l IH]; simpl; [reflexivity|].
  destruct (f x); simpl; [reflexivity|exact IH].
Qed.

Lemma find_none_map (f : A -> bool) (h : A -> A) (l : list A) :
  List.find f l = None ->
  List.map (fun x => if f x then h x else x) l = l.
Proof.
  induction l as [|x l IH]; simpl; [reflexivity|].
  destruct (f x); [discriminate|]. intros H. rewrite (IH H). reflexivity.
Qed.

Lemma find_none_filter (f : A -> bool) (l : list A) :
  List.find f l = None -> List.filter f l = [].
Proof.
  induction l as [|x l IH]; simpl; [reflexivity|].
  destruct (f x); [discriminate|exact IH].
Qed.

Lemma find_some_filter (f : A -> bool) (l : list A) (x : A) :
  List.find f l = Some x -> (0 < List.length (List.filter f l))%nat.
Proof.
  induction l as [|y l IH]; simpl; [discriminate|].
  destruct (f y); simpl; [lia|exact IH].
Qed.

End Find.



Lemma existsb_filter {A : Type} (f g : A -> bool) (l : list A) :
  existsb (fun x => f x && g x) l = existsb g (List.filter f l).
Proof.
  induction l as [|x l IH]; simpl; [reflexivity|].
  destruct (f x); simpl; rewrite IH; reflexivity.
Qed.

(** The upsert on a row that exists and on a pair that has none. *)
Lemma exec_upsert_find u p em ti pr im q d :
  is_nan pr = false -> is_nan q = false -> null_sum u p q d = false ->
  exec_upsert u (Some p) em ti pr im q d =
  (None, snd (exec_upsert u (Some p) em ti pr im q d)) /\
  find_line u p (snd (exec_upsert u (Some p) em ti pr im q d)) =
  match find_line u p d with
  | Some r => Some (merge_excluded ti pr im q r)
  | None => Some (mkRow u p em ti pr im q)
  end.
Proof.
  intros Hpr Hq Hsum. unfold null_sum, lines_for in Hsum.
  unfold exec_upsert, find_line. rewrite Hpr, Hq, existsb_filter, Hsum.
  rewrite find_existsb.
  destruct (List.find (has_key u p) (carts d)) as [r|] eqn:E.
  - simpl. split; [reflexivity|].
    rewrite find_map_commute
      by (intros x; destruct (has_key u p x) eqn:Hk; exact Hk).
    rewrite E. simpl. apply find_some in E as [_ E]. rewrite E. reflexivity.
  - simpl. split; [reflexivity|]. rewrite find_snoc, E.
    assert (has_key u p (mkRow u p em ti pr im q) = true) as ->
      by (apply has_key_spec; split; reflexivity).
    reflexivity.
Qed.



(** ** Set quantity *)

Lemma positive_quantity_guard (quantity : value) :
  match positive_quantity quantity with
  | Some q => to_int quantity = JNum q /\ num_ltb 0 q = true
  | None => invalid_id (to_int quantity) = true
  end.
Proof.
  unfold positive_quantity.
  destruct quantity as [| |n|s]; cbn [to_int]; try reflexivity.
  - rewrite invalid_id_number.
    destruct (num_ltb 0 n) eqn:E; [split; [reflexivity|exact E]|reflexivity].
  - rewrite invalid_id_number.
    destruct (num_ltb 0 (parseInt s)) eqn:E;
      [split; [reflexivity|exact E]|reflexivity].
Qed.

(** C4, as amended.  [updateCartItemQuantity] reads a string quantity with
    [parseInt] and takes any other value as it is.  When what it reads is
    not a number above zero (undefined, null, NaN, a number that is not
    positive, a string with no leading digits or with a leading number
    that is not positive), the call fails with an [InvalidInput] error and
    leaves the connection, and so every stored quantity, as it was.  With
    a user id and a product id above zero and a quantity read as [q] above
    zero: when the pair has a row the call reports a change and the row
    holds exactly [q], whatever it held before; when the pair has no row
    the call reports no change and the connection is as it was; the rows
    of every other pair are found as before. *)
Theorem setQuantity_floor (userId productId quantity : value) (d : db) :
  (positive_quantity quantity = None ->
   exists msg,
     updateCartItemQuantity userId productId quantity d =
     (Err (InvalidInput msg), d)) /\
  (forall (u p q : num),
     to_int userId = JNum u -> num_ltb 0 u = true ->
     to_int productId = JNum p -> num_ltb 0 p = true ->
     positive_quantity quantity = Some q ->
     let uid := int_of (JNum u) in
     let pid := int_of (JNum p) in
     match find_line uid pid d with
     | Some r =>
         fst (updateCartItemQuantity userId productId quantity d) = Ok true /\
         find_line uid pid
           (snd (updateCartItemQuantity userId productId quantity d)) =
         Some (set_quantity q r)
     | None =>
         updateCartItemQuantity userId productId quantity d = (Ok false, d)
     end /\
     forall u' p',
       (u', p') <> (uid, pid) ->
       find_line u' p'
         (snd (updateCartItemQuantity userId productId quantity d)) =
       find_line u' p' d).
Proof.
  split.
  - intros Hq. pose proof (positive_quantity_guard quantity) as Hg.
    rewrite Hq in Hg. unfold updateCartItemQuantity.
    destruct (invalid_id (to_int userId)); [eauto|].
    destruct (invalid_id (to_int productId)); [eauto|].
    rewrite Hg. eauto.
  - intros u p q Hu Hupos Hp Hppos Hq uid pid. subst uid pid.
    pose proof (positive_quantity_guard quantity) as Hg.
    rewrite Hq in Hg. destruct Hg as [Hqi Hqpos].
    unfold updateCartItemQuantity.
    rewrite Hu, Hp, Hqi, !invalid_id_number, Hupos, Hppos, Hqpos.
    cbn [negb to_number exec_update_quantity fst snd carts]. split.
    + unfold find_line. cbn [carts].
      destruct (List.find (has_key (int_of (JNum u)) (int_of (JNum p)))
                  (carts d)) as [r|] eqn:E.
      * split.
        -- f_equal. apply Z.ltb_lt. unfold changes.
           pose proof (find_some_filter _ _ _ E). lia.
        -- rewrite find_map_commute
             by (intros x; destruct (has_key _ _ x) eqn:Hk; exact Hk).
           rewrite E. cbn [option_map]. apply find_some in E as [_ E].
           rewrite E. reflexivity.
      * unfold changes. rewrite (find_none_filter _ _ E).
        rewrite (find_none_map _ (set_quantity q) _ E).
        cbn [List.length Z.of_nat Z.ltb Z.compare]. rewrite db_eta.
        reflexivity.
    + intros u' p' Hne. unfold find_line. cbn [carts].
      apply (find_map_other (has_key u' p')).
      * intros x. destruct (has_key _ _ x); reflexivity.
      * intros x Hx.
        destruct (has_key (int_of (JNum u)) (int_of (JNum p)) x) eqn:Hk;
          [|reflexivity].
        apply has_key_spec in Hx as [<- <-]. apply has_key_spec in Hk as [Hk1 Hk2].
        exfalso. apply Hne. rewrite Hk1, Hk2. reflexivity.
Qed.

End StoreProperties.

(** ** At sample inputs *)



(** C4, counterexample.  The quantity "5abc" is not numeric: [isNaN] holds
    of it.  User 7 holds product 42 with quantity 1; the call with "5abc"
    reports a change and the row holds 5, and so does the PUT route with
    that quantity in the body. *)
Lemma setQuantity_refuses_non_numeric_fails :
  isNaN (JStr "5abc") = true /\
  updateCartItemQuantity Sample.alice (JStr "42") (JStr "5abc") Sample.store =
  (Ok true, mkDb [set_quantity 5 Sample.mug; Sample.pens] None) /\
  Server.put_cart_item Sample.alice_claims
    (Server.mkRequest None "42" JUndefined (JStr "5abc") None JUndefined None)
    Sample.store =
  (Server.json
     (Server.Items [mkLine (JNum 42) "a@b.c" "Mug" 999 "m.png" 5] None),
   mkDb [set_quantity 5 Sample.mug; Sample.pens] None) /\
  ~ setQuantity_refuses_non_numeric.
Proof.
  split; [reflexivity|]. split; [reflexivity|]. split; [reflexivity|].
  intros H.
  destruct (H Sample.alice (JStr "42") (JStr "5abc") Sample.store
              (or_introl eq_refl)) as [msg Hm].
  vm_compute in Hm. discriminate Hm.
Qed.

Lemma setQuantity_floor_witness :
  updateCartItemQuantity Sample.alice (JStr "42") (JStr "0") Sample.store =
  (Err (InvalidInput "Quantity must be a positive number"), Sample.store) /\
  find_line 7 (PInt 42)
    (snd (updateCartItemQuantity Sample.alice (JStr "42") (JStr "5")
            Sample.store)) =
  Some (set_quantity 5 Sample.mug) /\
  find_line 7 (PInt 42)
    (snd (updateCartItemQuantity Sample.alice (JStr "42")
            (JStr "9007199254740993") Sample.store)) =
  Some (set_quantity 9007199254740992 Sample.mug).
Proof.
  split; [|split].
  - destruct (proj1 (setQuantity_floor Sample.alice (JStr "42") (JStr "0")
                       Sample.store) eq_refl) as [msg H].
    rewrite H. vm_compute in H. injection H as <-. reflexivity.
  - exact (proj2 (proj1 (proj2 (setQuantity_floor Sample.alice (JStr "42")
                                  (JStr "5") Sample.store)
                           7 42 5 eq_refl eq_refl eq_refl eq_refl eq_refl))).
  - exact (proj2 (proj1 (proj2 (setQuantity_floor Sample.alice (JStr "42")
                                  (JStr "9007199254740993") Sample.store)
                           7 42 9007199254740992
                           eq_refl eq_refl eq_refl eq_refl eq_refl))).
Defined.

(** * Properties of the routes *)

Import Server.

Section RouteProperties.

Context `{engine : Engine}.

Lemma getCartByUserId_valid (userId : value) (d : db) :
  invalid_id (to_int userId) = false ->
  getCartByUserId userId d =
  (Ok (List.map select_line (rows_of (int_of (to_int userId)) d)), d).
Proof. intros H. unfold getCartByUserId. rewrite H. reflexivity. Qed.

(** PUT and DELETE on a product answer 400 before any store call when
    the product id of the path is not numeric. *)
Lemma put_rejects_product_id (user : claims) (req : request) (d : db) :
  truthy (claim_id user) = true ->
  parseInt (param_productId req) = NaN ->
  put_cart_item user req d =
  (mkResponse 400 (Failure "Invalid product ID" None None), d).
Proof.
  intros Hu Hp. unfold put_cart_item. rewrite Hu, Hp. reflexivity.
Qed.

Lemma delete_rejects_product_id (user : claims) (req : request) (d : db) :
  truthy (claim_id user) = true ->
  parseInt (param_productId req) = NaN ->
  delete_cart_item user req d =
  (mkResponse 400 (Failure "Invalid product ID" None None), d).
Proof.
  intros Hu Hp. unfold delete_cart_item. rewrite Hu, Hp. reflexivity.
Qed.

(** A number that is not above zero is NaN, zero or below one. *)
Lemma quantity_guard_rejects (n : num) :
  num_ltb 0 n = false ->
  negb (truthy (JNum n)) || isNaN (JNum n) || lt_one (JNum n) = true.
Proof.
  unfold isNaN, lt_one. cbn [to_number].
  destruct n as [|z|[k e|[|]]]; try reflexivity.
  - rewrite !num_ltb_int. cbn [truthy]. intros E%Z.ltb_ge.
    destruct (Z.eqb_spec z 0) as [->|Hz]; [reflexivity|]. cbn [negb orb].
    apply Z.ltb_lt. lia.
  - unfold num_ltb, num_compare, compare_parts. cbn [truthy negb orb].
    rewrite Z.min_r, Z.min_l by lia.
    replace (- Z.pos e - - Z.pos e) with 0 by lia.
    replace (0 - - Z.pos e) with (Z.pos e) by lia.
    rewrite Z.mul_0_l, Z.pow_0_r, Z.mul_1_r, Z.mul_1_l.
    pose proof (Z.pow_pos_nonneg 2 (Z.pos e)) as Hpow.
    destruct (0 ?= 2 * k + 1) eqn:E; [| discriminate |]; intros _.
    + apply Z.compare_eq in E. lia.
    + apply Z.compare_gt_iff in E.
      assert (2 * k + 1 < 2 ^ Z.pos e) as Hlt by lia.
      apply Z.compare_lt_iff in Hlt. rewrite Hlt. reflexivity.
  - discriminate.
Qed.

(** PUT answers 400 before any store call when what [parseInt] reads from
    the quantity of the body is not a number above zero. *)
Lemma put_rejects_quantity (user : claims) (req : request) (d : db) :
  truthy (claim_id user) = true ->
  positive_quantity (JNum (parseInt_value (body_quantity req))) = None ->
  exists msg,
    put_cart_item user req d = (mkResponse 400 (Failure msg None None), d).
Proof.
  intros Hu Hq. unfold put_cart_item. cbv zeta.
  unfold positive_quantity in Hq. cbn [to_int] in Hq.
  destruct (num_ltb 0 (parseInt_value (body_quantity req))) eqn:E;
    [discriminate|].
  rewrite Hu, (quantity_guard_rejects _ E). cbn [negb].
  destruct (negb _ || isNaN _); eauto.
Qed.

(** A POST whose product id is a text that is no number is not rejected
    either: the row is stored under that text. *)
Lemma post_stores_text_product_id :
  let req :=
    mkRequest None "" (JStr "abc") JUndefined (Some "Mug") (JNum (Int 999)) None in
  status (fst (post_cart Sample.alice_claims req empty_db)) = 200 /\
  carts (snd (post_cart Sample.alice_claims req empty_db)) =
  [mkRow 7 (PText "abc") "a@b.c" "Mug" 999 "" 1].
Proof. split; vm_compute; reflexivity. Qed.

(** C5, on the code.  A POST whose body has no product id reaches the
    store: [addOrUpdateCartItem] is called and rejects the item, and the
    route answers 500 "Failed to update cart", not a validation error.  The
    connection is as it was. *)
Theorem post_without_product_id (user : claims) (req : request) (d : db) :
  invalid_id (to_int (claim_id user)) = false ->
  invalid_email (claim_email user) = false ->
  truthy (body_productId req) = false ->
  addOrUpdateCartItem (claim_id user) (claim_email user)
    (mkItem (body_productId req) (body_title req) (body_price req)
       (body_image req) (or_else (body_quantity req) (JNum (Int 1)))) d =
  (Err (InvalidInput "Item must have an id"), d) /\
  post_cart user req d =
  (mkResponse 500
     (Failure "Failed to update cart" None (Some "Item must have an id")), d).
Proof.
  intros Hid Hem Hp.
  assert (addOrUpdateCartItem (claim_id user) (claim_email user)
            (mkItem (body_productId req) (body_title req) (body_price req)
               (body_image req) (or_else (body_quantity req) (JNum (Int 1)))) d =
          (Err (InvalidInput "Item must have an id"), d)) as H.
  { unfold addOrUpdateCartItem. rewrite Hid, Hem. simpl item_id.
    rewrite Hp. reflexivity. }
  split; [exact H|]. unfold post_cart. rewrite H. reflexivity.
Qed.


(** ** Clear *)

Section Clear.

Context {A : Type}.

Lemma filter_negb_nil (f : A -> bool) (l : list A) :
  List.filter f (List.filter (fun x => negb (f x)) l) = [].
Proof.
  induction l as [|x l IH]; simpl; [reflexivity|].
  destruct (f x) eqn:E; simpl; [exact IH|]. rewrite E. exact IH.
Qed.

Lemma filter_negb_all (f : A -> bool) (l : list A) :
  List.filter f l = [] -> List.filter (fun x => negb (f x)) l = l.
Proof.
  induction l as [|x l IH]; simpl; [reflexivity|].
  destruct (f x); simpl; [discriminate|]. intros H. rewrite (IH H).
  reflexivity.
Qed.

End Clear.

Lemma clearCart_valid (userId : value) (d : db) :
  invalid_id (to_int userId) = false ->
  clearCart userId d =
  (Ok (0 <? changes (owned_by (int_of (to_int userId))) (carts d)),
   mkDb (List.filter (fun r => negb (owned_by (int_of (to_int userId)) r))
           (carts d)) (journal d)).
Proof. intros H. unfold clearCart. rewrite H. reflexivity. Qed.

Lemma delete_cart_valid (user : claims) (req : request) (d : db) :
  invalid_id (to_int (claim_id user)) = false ->
  delete_cart user req d =
  (json (Items [] None), snd (clearCart (claim_id user) d)).
Proof.
  intros Hid. unfold delete_cart. rewrite (clearCart_valid _ d Hid).
  rewrite getCartByUserId_valid by exact Hid.
  unfold rows_of. cbn [carts snd]. rewrite filter_negb_nil. reflexivity.
Qed.

(** C7.  For a request that passes [authenticateToken] with a user whose
    id is a number above zero, DELETE /api/cart answers 200 with an empty
    list of items and leaves no row of the user: the table is the rows of
    the other users.  So does a second DELETE after it, which leaves the
    connection as the first left it.  On a cart that is already empty the
    store's [clearCart] reports [false], the answer is the same and the
    connection is unchanged. *)
Theorem clear_always_succeeds (verify : string -> option claims)
    (req : request) (user : claims) (d : db) :
  authenticateToken verify req = inr user ->
  invalid_id (to_int (claim_id user)) = false ->
  let uid := int_of (to_int (claim_id user)) in
  let d1 := snd (route verify delete_cart req d) in
  route verify delete_cart req d = (json (Items [] None), d1) /\
  rows_of uid d1 = [] /\
  carts d1 = List.filter (fun r => negb (owned_by uid r)) (carts d) /\
  route verify delete_cart req d1 = (json (Items [] None), d1) /\
  (rows_of uid d = [] ->
   clearCart (claim_id user) d = (Ok false, d) /\ d1 = d).
Proof.
  intros Hauth Hid uid d1. subst uid d1. unfold route. rewrite Hauth.
  rewrite !(delete_cart_valid user req _ Hid). cbn [snd].
  rewrite !(clearCart_valid _ _ Hid). cbn [snd carts journal].
  split; [reflexivity|].
  split; [unfold rows_of; cbn [carts]; apply filter_negb_nil|].
  split; [reflexivity|]. split.
  - f_equal. f_equal.
    apply filter_filter_same. intros r Hr. exact Hr.
  - intros Hempty. unfold rows_of in Hempty. unfold changes.
    rewrite Hempty, (filter_negb_all _ _ Hempty), db_eta.
    split; reflexivity.
Qed.

End RouteProperties.

(** ** At sample inputs *)

Lemma post_without_product_id_witness :
  post_cart Sample.alice_claims Sample.bare_request Sample.store =
  (mkResponse 500
     (Failure "Failed to update cart" None (Some "Item must have an id")),
   Sample.store).
Proof.
  apply (post_without_product_id Sample.alice_claims Sample.bare_request
           Sample.store); reflexivity.
Defined.


(** User 7 holds a mug and user 8 two pens: the DELETE of user 7 answers
    with no items and leaves the pens only. *)
Lemma clear_always_succeeds_witness :
  route (fun _ => Some Sample.alice_claims) delete_cart Sample.bare_request
    Sample.store =
  (json (Items [] None), mkDb [Sample.pens] None) /\
  rows_of 7 (mkDb [Sample.pens] None) = [] /\
  route (fun _ => Some Sample.alice_claims) delete_cart Sample.bare_request
    (mkDb [Sample.pens] None) =
  (json (Items [] None), mkDb [Sample.pens] None).
Proof.
  pose (T := clear_always_succeeds (fun _ => Some Sample.alice_claims)
               Sample.bare_request Sample.alice_claims Sample.store
               eq_refl eq_refl).
  exact (conj (proj1 T)
           (conj (proj1 (proj2 T)) (proj1 (proj2 (proj2 (proj2 T)))))).
Defined.

(** * Properties of the client *)

(** ** What the cart page emits *)

Lemma map_quantity_effects productId newQuantity arr :
  forall st,
    Cart.effects (snd (Cart.map_quantity productId newQuantity arr st)) =
    Cart.effects st.
Proof.
  induction arr as [|l rest IH]; intros st; simpl; [reflexivity|].
  destruct (Cart.heap st !! l) as [it|].
  - destruct (strict_eq (Cart.product_id it) productId).
    + destruct (Cart.map_quantity productId newQuantity rest _)
        as [rest' st2] eqn:E. simpl.
      change st2 with (snd (rest', st2)). rewrite <- E, IH. reflexivity.
    + destruct (Cart.map_quantity productId newQuantity rest st)
        as [rest' st2] eqn:E. simpl.
      change st2 with (snd (rest', st2)). rewrite <- E, IH. reflexivity.
  - destruct (Cart.map_quantity productId newQuantity rest st)
      as [rest' st2] eqn:E. simpl.
    change st2 with (snd (rest', st2)). rewrite <- E, IH. reflexivity.
Qed.

(** A rejected request whose status is not 401 ends in an error toast and
    nothing else. *)
Lemma settle_rejected prevCart res done_msg fallback st :
  Net.ok res = false ->
  Server.status res <> 401 ->
  Cart.effects (Cart.settle prevCart (Net.Replied res) done_msg fallback st) =
  (Cart.effects st ++
   [Cart.ToastError (Net.or_default (Net.error_of (payload res)) fallback)])%list.
Proof.
  intros Hok Hst. unfold Cart.settle, Cart.recover. rewrite Hok.
  destruct (status res =? 401) eqn:E; [apply Z.eqb_eq in E; contradiction|].
  reflexivity.
Qed.

(** A rejected request whose status is 401 ends in [handleUnauthorized]:
    the user is sent to the login page. *)
Lemma settle_unauthorized prevCart res done_msg fallback st :
  Server.status res = 401 ->
  Cart.effects (Cart.settle prevCart (Net.Replied res) done_msg fallback st) =
  (Cart.effects st ++
   [Cart.ToastError "Session expired. Please login again.";
    Cart.Navigate "/login"])%list.
Proof.
  intros Hst. unfold Cart.settle, Cart.recover, Net.ok. rewrite Hst.
  reflexivity.
Qed.

(** C9, on the code.  A cart request whose token does not verify (invalid
    or expired) is answered 403 by [authenticateToken], whatever the route,
    and the connection is untouched.  On that answer [updateQuantity] and
    [removeItem] of the cart page show an error and do not navigate to the
    login page. *)
Theorem invalid_token_not_rerouted (verify : string -> option claims)
    (handler : claims -> request -> db -> response * db)
    (req : request) (d : db) (token : string) :
  bearer_token (authorization req) = Some token ->
  verify token = None ->
  let res :=
    mkResponse 403
      (Failure "Invalid or expired token" (Some "INVALID_TOKEN") None) in
  route verify handler req d = (res, d) /\
  (forall productId delta st,
     ~ In (Cart.Navigate "/login") (Cart.effects st) ->
     ~ In (Cart.Navigate "/login")
         (Cart.effects
            (Cart.updateQuantity true productId delta (Net.Replied res) st))) /\
  (forall productId st,
     ~ In (Cart.Navigate "/login") (Cart.effects st) ->
     ~ In (Cart.Navigate "/login")
         (Cart.effects (Cart.removeItem true productId (Net.Replied res) st))).
Proof.
  intros Htok Hver res. split; [|split].
  - unfold route, authenticateToken. rewrite Htok, Hver. reflexivity.
  - intros productId delta st Hno. unfold Cart.updateQuantity. cbn [negb].
    destruct (Cart.find_item productId st) as [it|].
    + destruct (num_eqb _ (Cart.quantity it));
        [exact Hno|].
      destruct (Cart.map_quantity _ _ _ st) as [nextCart st1] eqn:E.
      rewrite settle_rejected by (subst res; first [reflexivity|discriminate]).
      cbn [Cart.effects Cart.setLoading Cart.setCartItems].
      assert (Cart.effects st1 = Cart.effects st) as ->.
      { change st1 with (snd (nextCart, st1)). rewrite <- E.
        apply map_quantity_effects. }
      rewrite in_app_iff. intros [H|[H|[]]]; [auto|discriminate].
    + cbn [Cart.emit Cart.effects]. rewrite in_app_iff.
      intros [H|[H|[]]]; [auto|discriminate].
  - intros productId st Hno. unfold Cart.removeItem. cbn [negb].
    rewrite settle_rejected by (subst res; first [reflexivity|discriminate]).
    cbn [Cart.effects Cart.setLoading Cart.setCartItems].
    rewrite in_app_iff. intros [H|[H|[]]]; [auto|discriminate].
Qed.

Lemma invalid_token_not_rerouted_witness :
  route (fun _ => None) put_cart_item Sample.bare_request Sample.store =
  (mkResponse 403
     (Failure "Invalid or expired token" (Some "INVALID_TOKEN") None),
   Sample.store).
Proof.
  apply (invalid_token_not_rerouted (fun _ => None) put_cart_item
           Sample.bare_request Sample.store "t0k3n"); reflexivity.
Defined.

(** ** The product list *)

(** Whenever the product is already in the cart and the POST fails with a
    status other than 401, the revert puts the array of before back, and
    the object found for the product holds one more than before. *)
Lemma addToCart_revert_shares_object (p : Products.product)
    (res : Server.response) (st : Products.state) (i l : nat)
    (it : Products.item) :
  Products.findIndex (Products.heap st) (Products.product_id p)
    (Products.cartItems st) = Some i ->
  Products.cartItems st !! i = Some l ->
  Products.heap st !! l = Some it ->
  Net.ok res = false -> status res <> 401 ->
  let st' := Products.addToCart true p (Net.Replied res) st in
  Products.cartItems st' = Products.cartItems st /\
  Products.heap st' !! l =
  Some (Products.mkItem (Products.id it) (Products.title it)
          (Products.price it) (Products.image it) (Products.quantity it + 1)).
Proof.
  intros Hidx Hl Hit Hok Hst. unfold Products.addToCart. cbn [negb].
  rewrite Hidx. unfold Products.increment_at. rewrite Hl, Hit, Hok.
  destruct (status res =? 401) eqn:E; [apply Z.eqb_eq in E; contradiction|].
  cbn. split; [reflexivity|]. apply lookup_insert_eq.
Qed.

(** On a 401 [addToCart] returns after [handleUnauthorized]: nothing is
    reverted, the cart keeps the item added before the request. *)
Lemma addToCart_unauthorized_keeps_item :
  let st' :=
    Products.addToCart true (Products.mkProduct 2 "Hat" 5 "h.png")
      (Net.Replied (mkResponse 401 (Failure "Not authenticated" None None)))
      Sample.shelf in
  Products.visible st' =
  [Products.mkItem 1 "Shirt" 10 "s.png" 1; Products.mkItem 2 "Hat" 5 "h.png" 1] /\
  Products.location st' = Some "/login".
Proof. vm_compute. split; reflexivity. Qed.

(** C8, on the code.  The cart shows one shirt.  [addToCart] of the same
    shirt, with the POST answered 500, runs its revert: the state array is
    the array of before, but the object it points to was incremented in
    place, so the cart now shows two shirts, and so does the copy in
    [localStorage]. *)
Theorem addToCart_revert_keeps_increment :
  let st' :=
    Products.addToCart true Sample.shirt (Net.Replied Sample.update_failed)
      Sample.shelf in
  Products.visible Sample.shelf = [Products.mkItem 1 "Shirt" 10 "s.png" 1] /\
  Products.cartItems st' = Products.cartItems Sample.shelf /\
  Products.visible st' = [Products.mkItem 1 "Shirt" 10 "s.png" 2] /\
  Products.localStorage st' = [Products.mkItem 1 "Shirt" 10 "s.png" 2] /\
  Products.toast st' = Some "Failed to update cart".
Proof. vm_compute. repeat split; reflexivity. Qed.

(** * The theorems at sample inputs *)

Lemma saveCart_atomic_witness :
  fst (saveCart false Sample.alice Sample.alice_email
         (Some [Sample.cup; Sample.no_id]) Sample.store) =
  Err (StorageError "Insert error") /\
  snd (saveCart false Sample.alice Sample.alice_email
         (Some [Sample.cup; Sample.no_id]) Sample.store) = Sample.store.
Proof.
  refine (proj1 (proj2 (saveCart_atomic false Sample.alice Sample.alice_email
                          (Some [Sample.cup; Sample.no_id]) Sample.store eq_refl))
            [Sample.cup; Sample.no_id] eq_refl eq_refl eq_refl _).
  exists [Sample.cup], Sample.no_id, [],
    (mkDb [Sample.pens; mkRow 7 (PInt 43) "a@b.c" "Cup" 450 "c.png" 2]
       (Some [Sample.mug; Sample.pens])).
  split; [reflexivity|]. split; [reflexivity|].
  vm_compute. eauto.
Defined.

(** Three upserts of the mug, with the ids 42, " 42" and "42.0": one
    line. *)
Lemma cart_lines_unique_witness :
  List.length
    (lines_for 7 (PInt 42)
       (run [Upsert Sample.alice Sample.alice_email Sample.mug_again;
             Upsert (JStr "7") Sample.alice_email Sample.mug_spaced;
             Upsert Sample.alice Sample.alice_email Sample.mug_pointed]
          empty_db)) = 1%nat /\
  List.length
    (carts
       (run [Upsert Sample.alice Sample.alice_email Sample.mug_again;
             Upsert (JStr "7") Sample.alice_email Sample.mug_spaced;
             Upsert Sample.alice Sample.alice_email Sample.mug_pointed]
          empty_db)) = 1%nat.
Proof.
  split; [|vm_compute; reflexivity].
  refine (proj2 (cart_lines_unique
                   [Upsert Sample.alice Sample.alice_email Sample.mug_again;
                    Upsert (JStr "7") Sample.alice_email Sample.mug_spaced;
                    Upsert Sample.alice Sample.alice_email Sample.mug_pointed]
                   7 (PInt 42)) _ _).
  - discriminate.
  - repeat constructor; first [reflexivity | lia | discriminate].
Defined.

Lemma other_users_unchanged_witness :
  rows_of 8 (apply (Clear Sample.alice) Sample.store) = [Sample.pens].
Proof.
  refine (eq_trans (other_users_unchanged (Clear Sample.alice) Sample.store 8
                      eq_refl _) _).
  - simpl. discriminate.
  - reflexivity.
Defined.

(** ** Rollback on the cart page *)

Lemma omap_agree {A B : Type} (f g : A -> option B) (l : list A) :
  Forall (fun x => f x = g x) l -> omap f l = omap g l.
Proof.
  induction 1 as [|x l Hx _ IH]; [reflexivity|].
  csimpl. rewrite Hx. destruct (g x); [f_equal; exact IH|exact IH].
Qed.

(** [map_quantity] allocates from [next] upward and writes nowhere else. *)
Lemma map_quantity_heap productId newQuantity arr :
  forall st l,
    (l < Cart.next st)%nat ->
    Cart.heap (snd (Cart.map_quantity productId newQuantity arr st)) !! l =
    Cart.heap st !! l.
Proof.
  induction arr as [|a rest IH]; intros st l Hl; simpl; [reflexivity|].
  destruct (Cart.heap st !! a) as [it|].
  - destruct (strict_eq (Cart.product_id it) productId).
    + destruct (Cart.map_quantity productId newQuantity rest _)
        as [rest' st2] eqn:E. simpl.
      change st2 with (snd (rest', st2)). rewrite <- E, IH.
      * simpl. apply lookup_insert_ne. lia.
      * simpl. lia.
    + destruct (Cart.map_quantity productId newQuantity rest st)
        as [rest' st2] eqn:E. simpl.
      change st2 with (snd (rest', st2)). rewrite <- E. apply IH, Hl.
  - destruct (Cart.map_quantity productId newQuantity rest st)
      as [rest' st2] eqn:E. simpl.
    change st2 with (snd (rest', st2)). rewrite <- E. apply IH, Hl.
Qed.

(** After a request that did not succeed, the state array is the saved
    array and the objects are those the request left. *)
Lemma settle_rejected_cart prevCart server done_msg fallback st :
  Net.rejected server = true ->
  Cart.cartItems (Cart.settle prevCart server done_msg fallback st) = prevCart /\
  Cart.heap (Cart.settle prevCart server done_msg fallback st) = Cart.heap st.
Proof.
  intros Hrej. unfold Cart.settle, Cart.recover.
  destruct server as [res|msg]; simpl in Hrej.
  - apply negb_true_iff in Hrej. rewrite Hrej.
    destruct (status res =? 401); split; reflexivity.
  - split; reflexivity.
Qed.

(** X12.  [updateQuantity] rolls back exactly: when the addresses of the
    state array were allocated before [next] and the request did not
    succeed (a response outside 200 to 299, or none), the page shows the
    cart of before the call, item for item. *)
Lemma updateQuantity_rollback_exact productId delta server st :
  Cart.allocated st ->
  Net.rejected server = true ->
  Cart.visible (Cart.updateQuantity true productId delta server st) =
  Cart.visible st.
Proof.
  intros Hwf Hrej. unfold Cart.updateQuantity. cbn [negb].
  destruct (Cart.find_item productId st) as [it|]; [|reflexivity].
  destruct (num_eqb _ (Cart.quantity it));
    [reflexivity|].
  destruct (Cart.map_quantity _ _ _ st) as [nextCart st1] eqn:E.
  unfold Cart.visible.
  destruct (settle_rejected_cart (Cart.cartItems st) server "Quantity updated"
              "Failed to update quantity."
              (Cart.setLoading true (Cart.setCartItems nextCart st1)) Hrej)
    as [-> ->].
  cbn [Cart.heap Cart.setLoading Cart.setCartItems].
  apply omap_agree. unfold Cart.allocated in Hwf.
  eapply Forall_impl; [exact Hwf|]. intros l Hl. cbv beta in *.
  change st1 with (snd (nextCart, st1)). rewrite <- E.
  apply map_quantity_heap, Hl.
Qed.

(** X13.  [removeItem] rolls back exactly: when the request did not
    succeed, the page shows the cart of before the call, item for item. *)
Lemma removeItem_rollback_exact productId server st :
  Net.rejected server = true ->
  Cart.visible (Cart.removeItem true productId server st) = Cart.visible st.
Proof.
  intros Hrej. unfold Cart.removeItem. cbn [negb]. cbv zeta.
  unfold Cart.visible.
  match goal with
  | |- context [Cart.settle ?p server ?m ?f ?s] =>
      destruct (settle_rejected_cart p server m f s Hrej) as [-> ->]
  end.
  reflexivity.
Qed.

(** * Further properties of the store *)

Import Props.

Section FurtherStoreProperties.

Context `{engine : Engine}.

(** ** What every stored row satisfies *)

Lemma Forall_list_filter {A : Type} (P : A -> Prop) (f : A -> bool)
    (l : list A) :
  Forall P l -> Forall P (List.filter f l).
Proof.
  induction 1 as [|x l Hx _ IH]; simpl; [constructor|].
  destruct (f x); [constructor; assumption|exact IH].
Qed.

Lemma insert_loop_rows observed id em items (P : row -> Prop) :
  (forall it r, row_of_item id em it = Some r -> P r) ->
  forall hasError d,
    Forall P (carts d) ->
    Forall P (carts (snd (insert_loop observed id em items hasError d))).
Proof.
  intros Hnew. induction items as [|it rest IH]; intros hasError d H; simpl;
    [exact H|].
  destruct (observed && hasError); [exact H|].
  destruct (insert_item id em it d) as [[e|] d'] eqn:E; apply IH.
  - unfold insert_item, exec_insert in E.
    destruct (bind_product_id (item_id it)); [|injection E as _ <-; exact H].
    destruct (is_nan (price_of (item_price it)));
      [injection E as _ <-; exact H|].
    destruct (is_nan (quantity_of (item_quantity it)));
      [injection E as _ <-; exact H|].
    destruct (existsb _ _); [injection E as _ <-; exact H|discriminate].
  - apply insert_item_ok in E as (r & Hr & Hc & _). rewrite Hc.
    apply Forall_app. split; [exact H|]. constructor; [|constructor].
    apply (Hnew it r Hr).
Qed.

(** A property of rows that every inserted row has, that the update of an
    upsert keeps and that [UPDATE ... SET quantity] with a quantity above
    zero keeps, holds of every row after every operation. *)
Lemma apply_rows (P : row -> Prop) (o : op) (d : db) :
  (forall id em it r,
     row_of_item id (trim_value em) it = Some r -> P r) ->
  (forall it pr r,
     P r ->
     P (merge_excluded (opt_trim (item_title it)) pr (opt_trim (item_image it))
          (quantity_of (item_quantity it)) r)) ->
  (forall q r, num_ltb 0 q = true -> P r -> P (set_quantity q r)) ->
  journal d = None ->
  Forall P (carts d) ->
  Forall P (carts (apply o d)).
Proof.
  intros Hnew Hmerge Hset Hj H.
  destruct o as [userId em it|observed userId em cartItems
                |userId productId q|userId productId|userId]; simpl.
  - unfold addOrUpdateCartItem.
    destruct (invalid_id _); [exact H|].
    destruct (invalid_email _); [exact H|].
    destruct (negb _); [exact H|].
    unfold exec_upsert.
    destruct (bind_product_id (item_id it)) as [p|] eqn:Hp; [|exact H].
    destruct (is_nan (price_of (item_price it))) eqn:Hpr; [exact H|].
    rewrite quantity_of_number.
    destruct (existsb (has_key _ p) _).
    + destruct (existsb (fun r => _ && _) _); [exact H|]. simpl.
      apply Forall_map. eapply Forall_impl; [exact H|].
      intros r Hr. cbv beta. destruct (has_key _ _ r); [apply Hmerge|]; exact Hr.
    + simpl. apply Forall_app. split; [exact H|]. constructor; [|constructor].
      apply (Hnew (int_of (to_int userId)) em it).
      unfold row_of_item. rewrite Hp, Hpr. reflexivity.
  - destruct (saveCart_outcome observed userId em cartItems d Hj)
      as [(e & ->)|(items & d3 & _ & _ & _ & Hloop & ->)]; simpl;
      [exact H|].
    change d3 with (snd (false, d3)). rewrite <- Hloop.
    apply insert_loop_rows; [apply Hnew|]. simpl.
    apply Forall_list_filter. exact H.
  - unfold updateCartItemQuantity.
    destruct (invalid_id (to_int userId)); [exact H|].
    destruct (invalid_id (to_int productId)); [exact H|].
    destruct (invalid_id (to_int q)) eqn:Hq; [exact H|].
    destruct (valid_id_number _ Hq) as (n & Hn & Hpos). rewrite Hn.
    simpl. apply Forall_map. eapply Forall_impl; [exact H|].
    intros r Hr. cbv beta. destruct (has_key _ _ r); [apply Hset|]; assumption.
  - unfold removeCartItem.
    destruct (invalid_id (to_int userId)); [exact H|].
    destruct (invalid_id (to_int productId)); [exact H|].
    simpl. apply Forall_list_filter. exact H.
  - unfold clearCart.
    destruct (invalid_id (to_int userId)); [exact H|].
    simpl. apply Forall_list_filter. exact H.
Qed.

Lemma run_rows (P : row -> Prop) (ops : list op) :
  (forall id em it r,
     row_of_item id (trim_value em) it = Some r -> P r) ->
  (forall it pr r,
     P r ->
     P (merge_excluded (opt_trim (item_title it)) pr (opt_trim (item_image it))
          (quantity_of (item_quantity it)) r)) ->
  (forall q r, num_ltb 0 q = true -> P r -> P (set_quantity q r)) ->
  forall d,
    consistent d -> Forall P (carts d) -> Forall P (carts (run ops d)).
Proof.
  intros Hnew Hmerge Hset. induction ops as [|o ops IH]; intros d Hc H; simpl;
    [exact H|].
  apply IH; [apply apply_consistent, Hc|].
  apply apply_rows; try assumption. apply Hc.
Qed.

(** ** Trimmed text *)

Lemma trim_start_head (s : string) :
  trim_start s = EmptyString \/
  exists c rest, trim_start s = String c rest /\ is_space c = false.
Proof.
  induction s as [|c rest IH]; simpl; [left; reflexivity|].
  destruct (is_space c) eqn:E; [exact IH|]. right. eauto.
Qed.

Lemma trim_end_head (c : ascii) (rest : string) :
  is_space c = false -> exists kept, trim_end (String c rest) = String c kept.
Proof.
  intros E. simpl. destruct (trim_end rest); [rewrite E|]; eauto.
Qed.

Lemma trim_end_idempotent (s : string) : trim_end (trim_end s) = trim_end s.
Proof.
  induction s as [|c rest IH]; simpl; [reflexivity|].
  destruct (trim_end rest) as [|c' kept] eqn:E.
  - destruct (is_space c) eqn:Ec; simpl; [reflexivity|]. rewrite Ec.
    reflexivity.
  - change (trim_end (String c (String c' kept)))
      with (match trim_end (String c' kept) with
            | EmptyString =>
                if is_space c then EmptyString else String c EmptyString
            | k => String c k
            end).
    rewrite IH. reflexivity.
Qed.

Lemma trim_idempotent (s : string) : trimmed (trim s).
Proof.
  unfold trimmed, trim.
  destruct (trim_start_head s) as [->|(c & rest & -> & Hc)]; [reflexivity|].
  destruct (trim_end_head c rest Hc) as [kept Hk]. rewrite Hk.
  simpl trim_start. rewrite Hc, <- Hk. apply trim_end_idempotent.
Qed.

Lemma opt_trim_trimmed (o : option string) : trimmed (opt_trim o).
Proof. destruct o; [apply trim_idempotent|reflexivity]. Qed.

Lemma trim_value_trimmed (v : value) : trimmed (trim_value v).
Proof. destruct v; try reflexivity. apply trim_idempotent. Qed.

(** X2.  Starting from the empty store, after any sequence of store
    operations the email, the title and the image of every stored line
    carry no white space at either end: [trim] leaves them as they are. *)
Theorem stored_text_trimmed (ops : list op) :
  Forall row_trimmed (carts (run ops empty_db)).
Proof.
  apply run_rows.
  - intros id em it r. unfold row_of_item.
    destruct (bind_product_id _); [|discriminate].
    destruct (is_nan _); [discriminate|]. intros [= <-].
    repeat split; simpl;
      [apply trim_value_trimmed|apply opt_trim_trimmed|apply opt_trim_trimmed].
  - intros it pr r (He & _ & _).
    repeat split; simpl; [exact He|apply opt_trim_trimmed|apply opt_trim_trimmed].
  - intros q r _ H. exact H.
  - apply empty_db_consistent.
  - constructor.
Qed.

(** ** Replacing a cart *)

Lemma insert_loop_break id em items d :
  insert_loop true id em items true d = (true, d).
Proof. destruct items; reflexivity. Qed.

Lemma insert_loop_app observed id em l1 l2 :
  forall hasError d,
    insert_loop observed id em (l1 ++ l2) hasError d =
    insert_loop observed id em l2
      (fst (insert_loop observed id em l1 hasError d))
      (snd (insert_loop observed id em l1 hasError d)).
Proof.
  induction l1 as [|it rest IH]; intros hasError d; [reflexivity|].
  simpl. destruct (observed && hasError) eqn:E.
  - apply andb_true_iff in E as [-> ->]. simpl.
    symmetry. apply insert_loop_break.
  - destruct (insert_item id em it d) as [insertErr d']. apply IH.
Qed.

Lemma insert_loop_fresh observed id em items rows :
  Forall2 (fun it r => row_of_item id em it = Some r) items rows ->
  NoDup (List.map product_id rows) ->
  forall d,
    (forall r, In r rows -> existsb (has_key id (product_id r)) (carts d) = false) ->
    insert_loop observed id em items false d =
    (false, mkDb (carts d ++ rows) (journal d)).
Proof.
  induction 1 as [|it r items rows Hr _ IH]; intros Hnd d Hfresh.
  - simpl. rewrite app_nil_r, db_eta. reflexivity.
  - rewrite insert_loop_cons.
    assert (insert_item id em it d = (None, mkDb (carts d ++ [r]) (journal d)))
      as Hins.
    { unfold insert_item, exec_insert. unfold row_of_item in Hr.
      destruct (bind_product_id (item_id it)) as [p|]; [|discriminate].
      destruct (is_nan (price_of (item_price it))); [discriminate|].
      rewrite quantity_of_number.
      injection Hr as <-. specialize (Hfresh _ (or_introl eq_refl)).
      simpl in Hfresh. rewrite Hfresh. reflexivity. }
    rewrite Hins. simpl fst. simpl snd. simpl in Hnd.
    apply NoDup_cons in Hnd as [Hnotin Hnd].
    rewrite (IH Hnd).
    + simpl. rewrite <- app_assoc. reflexivity.
    + intros r' Hin. simpl. rewrite existsb_app. simpl.
      rewrite (Hfresh r' (or_intror Hin)). simpl. rewrite orb_false_r.
      destruct (has_key id (product_id r') r) eqn:Hk; [|reflexivity].
      apply has_key_spec in Hk as [_ Hk]. exfalso. apply Hnotin.
      rewrite Hk. apply list_elem_of_In, in_map. exact Hin.
Qed.

Lemma row_of_item_user id em it r :
  row_of_item id em it = Some r -> user_id r = id.
Proof.
  unfold row_of_item. destruct (bind_product_id _); [|discriminate].
  destruct (is_nan _); [discriminate|]. intros [= <-]. reflexivity.
Qed.

Lemma no_row_of_user (u p : pidval) (rows : list row) :
  existsb (has_key u p) (List.filter (fun r => negb (owned_by u r)) rows) = false.
Proof.
  induction rows as [|r rows IH]; simpl; [reflexivity|].
  unfold owned_by at 1. destruct (pid_eqb (user_id r) u) eqn:E; simpl;
    [exact IH|].
  unfold has_key at 1. rewrite E. exact IH.
Qed.

(** X3.  [saveCart] then [getCartByUserId].  On a connection with no
    transaction open, for a positive user id and a non-empty string as
    email, when every element supplied has a product id and a price that
    are not bound as NULL and the stored product ids are pairwise
    different, [saveCart] succeeds and [getCartByUserId] then returns
    exactly one line for every element, in the order supplied, whatever
    the cart held before. *)
Theorem saveCart_then_getCart (observed : bool) (userId em : value)
    (items : list item) (rows : list row) (d : db) (z : Z) :
  journal d = None ->
  to_int userId = JNum (Int z) -> 0 < z ->
  invalid_email em = false ->
  Forall2 (fun it r => row_of_item z (trim_value em) it = Some r) items rows ->
  NoDup (List.map product_id rows) ->
  fst (saveCart observed userId em (Some items) d) = Ok tt /\
  getCartByUserId userId (snd (saveCart observed userId em (Some items) d)) =
  (Ok (List.map select_line rows),
   snd (saveCart observed userId em (Some items) d)).
Proof.
  intros Hj Hz Hpos Hem Hrows Hnd.
  assert (invalid_id (to_int userId) = false) as Hid
    by (rewrite Hz; apply positive_id_valid, Hpos).
  rewrite (saveCart_idle observed userId em items d Hj Hid Hem).
  cbv zeta. rewrite Hz. cbn [int_of].
  rewrite (insert_loop_fresh observed z (trim_value em) items rows Hrows Hnd)
    by (intros r _; apply no_row_of_user).
  simpl. split; [reflexivity|].
  unfold getCartByUserId. rewrite Hz, (positive_id_valid z Hpos).
  unfold exec_select_cart. simpl. rewrite List.filter_app.
  rewrite filter_negb_nil. simpl. do 3 f_equal.
  clear -Hrows. induction Hrows as [|it r items rows Hr _ IH]; [reflexivity|].
  simpl. unfold owned_by at 1.
  rewrite (row_of_item_user _ _ _ _ Hr), pid_eqb_refl.
  f_equal. exact IH.
Qed.

(** X4.  An array that holds the same product twice is refused as a
    whole.  On a connection with no transaction open, for a valid user id
    and email, when two elements of the array are stored under the same
    product id, [saveCart] reports "Insert error" and the connection is as
    it was before the call. *)
Theorem saveCart_duplicate_product (observed : bool) (userId em : value)
    (l1 l2 l3 : list item) (a b : item) (p : pidval) (d : db) :
  journal d = None ->
  invalid_id (to_int userId) = false ->
  invalid_email em = false ->
  bind_product_id (item_id a) = Some p ->
  bind_product_id (item_id b) = Some p ->
  saveCart observed userId em (Some (l1 ++ a :: l2 ++ b :: l3)%list) d =
  (Err (StorageError "Insert error"), d).
Proof.
  intros Hj Hid Hem Ha Hb.
  rewrite (saveCart_idle observed userId em _ d Hj Hid Hem). cbv zeta.
  set (z := int_of (to_int userId)).
  set (d2 := mkDb (List.filter (fun r => negb (owned_by z r)) (carts d))
               (Some (carts d))).
  assert (fst (insert_loop observed z (trim_value em)
                 (l1 ++ a :: l2 ++ b :: l3)%list false d2) = true) as ->;
    [|reflexivity].
  replace (l1 ++ a :: l2 ++ b :: l3)%list
    with ((l1 ++ a :: l2) ++ b :: l3)%list
    by (rewrite <- app_assoc; reflexivity).
  rewrite insert_loop_app.
  destruct (insert_loop observed z (trim_value em) (l1 ++ a :: l2)%list false d2)
    as [[|] d1] eqn:Hpre; cbn [fst snd].
  - apply insert_loop_flag_true.
  - rewrite insert_loop_cons.
    assert (is_Some (fst (insert_item z (trim_value em) b d1))) as Hfail.
    { apply insert_loop_ok in Hpre as (rows & Hrows & Hc).
      apply Forall2_app_inv_l in Hrows as (r1 & r2 & _ & Hr2 & ->).
      inversion Hr2 as [|? ra ? r3 Hra _]; subst.
      unfold insert_item, exec_insert. rewrite Hb.
      destruct (is_nan (price_of (item_price b))); [eauto|].
      rewrite quantity_of_number.
      assert (existsb (has_key z p) (carts d1) = true) as ->; [|eauto].
      rewrite Hc. rewrite !existsb_app. simpl.
      assert (has_key z p ra = true) as ->.
      { apply has_key_spec. split; [apply (row_of_item_user _ _ _ _ Hra)|].
        unfold row_of_item in Hra. rewrite Ha in Hra.
        destruct (is_nan (price_of (item_price a))); [discriminate|].
        injection Hra as <-. reflexivity. }
      simpl. rewrite !orb_true_r. reflexivity. }
    rewrite bool_decide_eq_true_2 by exact Hfail.
    apply insert_loop_flag_true.
Qed.

(** ** Removing a line *)

Lemma changes_found (f : row -> bool) (rows : list row) :
  (0 <? changes f rows) =
  match List.find f rows with Some _ => true | None => false end.
Proof.
  unfold changes. induction rows as [|r rows IH]; simpl; [reflexivity|].
  destruct (f r); simpl; [|exact IH]. apply Z.ltb_lt. lia.
Qed.

Lemma other_key (u u' p p' : pidval) (r : row) :
  (u', p') <> (u, p) -> has_key u' p' r = true -> has_key u p r = false.
Proof.
  intros Hne H. apply has_key_spec in H as [<- <-].
  destruct (has_key u p r) eqn:E; [|reflexivity].
  apply has_key_spec in E as [<- <-]. contradiction.
Qed.

(** X5.  [removeCartItem] for a positive user id and a positive product
    id: it reports [true] exactly when the pair had a line, afterwards the
    pair has no line, and the lines of every other pair are as before. *)
Theorem removeCartItem_removes (userId productId : value) (d : db) (u p : Z) :
  to_int userId = JNum (Int u) -> 0 < u ->
  to_int productId = JNum (Int p) -> 0 < p ->
  fst (removeCartItem userId productId d) =
  Ok (match find_line u (PInt p) d with Some _ => true | None => false end) /\
  lines_for u (PInt p) (snd (removeCartItem userId productId d)) = [] /\
  forall u' p' : pidval,
    (u', p') <> (PInt u, PInt p) ->
    lines_for u' p' (snd (removeCartItem userId productId d)) =
    lines_for u' p' d.
Proof.
  intros Hu Hupos Hp Hppos. unfold removeCartItem.
  rewrite Hu, Hp, !positive_id_valid by assumption.
  cbn [int_of exec_delete_line fst snd]. split; [|split].
  - rewrite changes_found. reflexivity.
  - unfold lines_for. cbn [carts]. apply filter_negb_nil.
  - intros u' p' Hne. unfold lines_for. cbn [carts].
    apply filter_filter_same. intros r Hr.
    rewrite (other_key u u' (PInt p) p' r Hne Hr). reflexivity.
Qed.

(** X6.  A line under a negative product id can be added but not changed
    or removed on its own.  For a valid user and email, an upsert whose
    item id is a negative number [z] (with a price that is not NaN) is
    accepted, unless the sum with a stored quantity is NULL, and leaves a
    line under [z]; on every connection [updateCartItemQuantity] and
    [removeCartItem] for that product id fail with "Valid product ID is
    required" and change nothing. *)
Theorem negative_product_id_locked (userId em quantity : value) (it : item)
    (z : Z) (d d0 : db) :
  invalid_id (to_int userId) = false ->
  invalid_email em = false ->
  item_id it = JNum (Int z) -> z < 0 ->
  price_of (item_price it) <> NaN ->
  (null_sum (int_of (to_int userId)) (PInt z) (quantity_of (item_quantity it)) d
   = false ->
   fst (addOrUpdateCartItem userId em it d) = Ok tt) /\
  lines_for (int_of (to_int userId)) (PInt z)
    (snd (addOrUpdateCartItem userId em it d)) <> [] /\
  updateCartItemQuantity userId (JNum (Int z)) quantity d0 =
  (Err (InvalidInput "Valid product ID is required"), d0) /\
  removeCartItem userId (JNum (Int z)) d0 =
  (Err (InvalidInput "Valid product ID is required"), d0).
Proof.
  intros Hid Hem Hit Hz Hpr.
  assert (invalid_id (to_int (JNum (Int z))) = true) as Hpid.
  { cbn [to_int]. rewrite invalid_id_number, num_ltb_int.
    apply negb_true_iff, Z.ltb_ge. lia. }
  assert (truthy (JNum (Int z)) = true) as Ht
    by (cbn [truthy]; apply negb_true_iff, Z.eqb_neq; lia).
  pose proof (quantity_of_number (item_quantity it)) as Hq.
  pose proof (is_nan_false _ Hpr) as Hpr'.
  split; [|split; [|split]].
  - intros Hsum. unfold addOrUpdateCartItem. rewrite Hid, Hem, Hit, Ht. cbn [negb].
    cbn [bind_product_id stored].
    destruct (exec_upsert_find (int_of (to_int userId)) (PInt z)
                (trim_value em) (opt_trim (item_title it))
                (price_of (item_price it)) (opt_trim (item_image it))
                (quantity_of (item_quantity it)) d Hpr' Hq Hsum) as [-> _].
    reflexivity.
  - unfold addOrUpdateCartItem. rewrite Hid, Hem, Hit, Ht. cbn [negb].
    cbn [bind_product_id stored].
    pose proof (exec_upsert_stored (int_of (to_int userId)) (PInt z)
      (trim_value em) (opt_trim (item_title it))
      (price_of (item_price it)) (opt_trim (item_image it))
      (quantity_of (item_quantity it)) d Hpr' Hq) as Hst.
    destruct (exec_upsert _ _ _ _ _ _ _ _) as [[e|] d']; exact Hst.
  - unfold updateCartItemQuantity. rewrite Hid, Hpid. reflexivity.
  - unfold removeCartItem. rewrite Hid, Hpid. reflexivity.
Qed.

End FurtherStoreProperties.

(** ** At sample inputs *)

Lemma saveCart_then_getCart_witness :
  getCartByUserId Sample.alice
    (snd (saveCart false Sample.alice Sample.alice_email
            (Some [Sample.cup; Sample.mug_again]) Sample.store)) =
  (Ok [mkLine (JNum 43) "a@b.c" "Cup" 450 "c.png" 2;
       mkLine (JNum 42) "a@b.c" "Mug" 999 "m.png" 1],
   mkDb [Sample.pens; mkRow 7 (PInt 43) "a@b.c" "Cup" 450 "c.png" 2;
         mkRow 7 (PInt 42) "a@b.c" "Mug" 999 "m.png" 1] None).
Proof.
  refine (proj2 (saveCart_then_getCart false Sample.alice Sample.alice_email
            [Sample.cup; Sample.mug_again]
            [mkRow 7 (PInt 43) "a@b.c" "Cup" 450 "c.png" 2;
             mkRow 7 (PInt 42) "a@b.c" "Mug" 999 "m.png" 1]
            Sample.store 7 eq_refl eq_refl _ eq_refl _ _)).
  - lia.
  - repeat constructor.
  - apply NoDup_cons. split; [|apply NoDup_singleton].
    rewrite list_elem_of_In. simpl. intros [H|[]]. discriminate.
Defined.

(** The mug under the id 42 and under the id " 42" is one product
    twice. *)
Lemma saveCart_duplicate_product_witness :
  saveCart true Sample.alice Sample.alice_email
    (Some [Sample.mug_again; Sample.cup; Sample.mug_spaced]) Sample.store =
  (Err (StorageError "Insert error"), Sample.store).
Proof.
  apply (saveCart_duplicate_product true Sample.alice Sample.alice_email []
           [Sample.cup] [] Sample.mug_again Sample.mug_spaced (PInt 42)
           Sample.store);
    reflexivity.
Defined.

Lemma removeCartItem_removes_witness :
  removeCartItem Sample.alice (JStr "42") Sample.store =
  (Ok true, mkDb [Sample.pens] None).
Proof.
  pose proof (proj1 (removeCartItem_removes Sample.alice (JStr "42")
                       Sample.store 7 42 eq_refl eq_refl eq_refl eq_refl)) as H.
  destruct (removeCartItem Sample.alice (JStr "42") Sample.store) as [res d']
    eqn:E.
  simpl in H. rewrite H. vm_compute in E. injection E as _ <-. reflexivity.
Defined.

Lemma negative_product_id_locked_witness :
  removeCartItem Sample.alice (JNum (Int (-5)))
    (snd (addOrUpdateCartItem Sample.alice Sample.alice_email
            (mkItem (JNum (Int (-5))) (Some "Odd") (JNum (Int 1)) None JUndefined)
            empty_db)) =
  (Err (InvalidInput "Valid product ID is required"),
   mkDb [mkRow 7 (PInt (-5)) "a@b.c" "Odd" 1 "" 1] None).
Proof.
  refine (proj2 (proj2 (proj2 (negative_product_id_locked Sample.alice
    Sample.alice_email JUndefined
    (mkItem (JNum (Int (-5))) (Some "Odd") (JNum (Int 1)) None JUndefined)
    (-5) empty_db _ eq_refl eq_refl eq_refl _ _)))).
  - lia.
  - discriminate.
Defined.

(** * Further properties of the routes *)

Section FurtherRouteProperties.

Context `{engine : Engine}.

Lemma valid_id_truthy (x : value) (z : Z) :
  to_int x = JNum (Int z) -> 0 < z -> truthy x = true.
Proof.
  destruct x as [| |n|s]; cbn [to_int]; try discriminate.
  - intros [= ->] Hz. cbn [truthy]. apply negb_true_iff, Z.eqb_neq. lia.
  - destruct s; [|reflexivity]. discriminate.
Qed.

Lemma positive_param_passes (n : num) (p : Z) :
  n = Int p -> p <> 0 -> negb (truthy (JNum n)) || isNaN (JNum n) = false.
Proof.
  intros -> Hp. unfold isNaN. cbn [to_number truthy orb].
  rewrite orb_false_r. apply negb_false_iff, negb_true_iff, Z.eqb_neq, Hp.
Qed.

Lemma positive_quantity_passes (v : value) (q : Z) :
  parseInt_value v = Int q -> 0 < q ->
  negb (truthy (JNum (parseInt_value v))) || isNaN (JNum (parseInt_value v))
  || lt_one (JNum (parseInt_value v)) = false.
Proof.
  intros -> Hq. unfold isNaN, lt_one. cbn [to_number truthy].
  rewrite num_ltb_int.
  destruct (Z.eqb_spec q 0) as [->|_]; [lia|]. cbn [negb orb].
  apply Z.ltb_ge. lia.
Qed.

(** X7.  PUT /api/cart/:productId for a line that does not exist.  For a
    user with a positive id, a positive product id in the path and a
    positive quantity in the body, when the user has no line for the
    product the route answers 404 "Cart item not found" and the store is
    as it was. *)
Theorem put_missing_line_not_found (user : claims) (req : request) (d : db)
    (u p q : Z) :
  to_int (claim_id user) = JNum (Int u) -> 0 < u ->
  parseInt (param_productId req) = Int p -> 0 < p ->
  parseInt_value (body_quantity req) = Int q -> 0 < q ->
  find_line u (PInt p) d = None ->
  put_cart_item user req d =
  (mkResponse 404 (Failure "Cart item not found" None None), d).
Proof.
  intros Hu Hupos Hp Hppos Hq Hqpos Hnone.
  unfold put_cart_item. cbv zeta.
  rewrite (valid_id_truthy _ _ Hu Hupos).
  rewrite (positive_param_passes _ p Hp) by lia.
  rewrite (positive_quantity_passes _ q Hq Hqpos). cbn [negb].
  unfold updateCartItemQuantity.
  rewrite Hu, Hp, Hq. cbn [to_int]. rewrite !positive_id_valid by assumption.
  cbn [int_of to_number exec_update_quantity]. rewrite changes_found.
  unfold find_line in Hnone. rewrite Hnone.
  rewrite (find_none_map _ (set_quantity q) _ Hnone), db_eta. reflexivity.
Qed.

(** X8.  DELETE /api/cart/:productId for a line that does not exist.
    Under the same conditions on the user and the product id, when the
    user has no line for the product the route still answers 200, with the
    cart of the user as it is, and the store is as it was. *)
Theorem delete_missing_line_ok (user : claims) (req : request) (d : db)
    (u p : Z) :
  to_int (claim_id user) = JNum (Int u) -> 0 < u ->
  parseInt (param_productId req) = Int p -> 0 < p ->
  find_line u (PInt p) d = None ->
  delete_cart_item user req d =
  (json (Items (List.map select_line (rows_of u d)) None), d).
Proof.
  intros Hu Hupos Hp Hppos Hnone.
  unfold delete_cart_item. cbv zeta.
  rewrite (valid_id_truthy _ _ Hu Hupos).
  rewrite (positive_param_passes _ p Hp) by lia. cbn [negb].
  unfold deleteCartItem, removeCartItem.
  rewrite Hu, Hp. cbn [to_int]. rewrite !positive_id_valid by assumption.
  cbn [int_of exec_delete_line].
  unfold find_line in Hnone.
  rewrite (filter_negb_all _ _ (find_none_filter _ _ Hnone)), db_eta.
  rewrite getCartByUserId_valid by (rewrite Hu; apply positive_id_valid, Hupos).
  rewrite Hu. reflexivity.
Qed.

(** X9.  A negative product id in the path passes the check of the
    routes and is refused by the store: for a user with a positive id and
    a negative product id, PUT (with a positive quantity) answers 500
    "Database update error" and DELETE answers 500 "Failed to delete cart
    item", both with the detail "Valid product ID is required", and the
    store is as it was. *)
Theorem negative_product_id_server_error (user : claims) (req : request)
    (d : db) (u p q : Z) :
  to_int (claim_id user) = JNum (Int u) -> 0 < u ->
  parseInt (param_productId req) = Int p -> p < 0 ->
  parseInt_value (body_quantity req) = Int q -> 0 < q ->
  put_cart_item user req d =
  (mkResponse 500
     (Failure "Database update error" None
        (Some "Valid product ID is required")), d) /\
  delete_cart_item user req d =
  (mkResponse 500
     (Failure "Failed to delete cart item" None
        (Some "Valid product ID is required")), d).
Proof.
  intros Hu Hupos Hp Hneg Hq Hqpos.
  assert (invalid_id (JNum (Int p)) = true) as Hpid.
  { rewrite invalid_id_number, num_ltb_int. apply negb_true_iff, Z.ltb_ge. lia. }
  unfold put_cart_item, delete_cart_item. cbv zeta.
  rewrite (valid_id_truthy _ _ Hu Hupos).
  rewrite (positive_param_passes _ p Hp) by lia.
  rewrite (positive_quantity_passes _ q Hq Hqpos). cbn [negb].
  unfold deleteCartItem, removeCartItem, updateCartItemQuantity.
  rewrite Hu, Hp. cbn [to_int]. rewrite (positive_id_valid u Hupos), Hpid.
  split; reflexivity.
Qed.

(** ** The authorization header *)

Lemma split_space_single (w : string) : no_space w -> split_space w = [w].
Proof.
  unfold no_space. induction w as [|c w IH]; simpl; intros H; [reflexivity|].
  apply Forall_cons_iff in H as [Hc H].
  destruct (Ascii.eqb c " ") eqn:E; [apply Ascii.eqb_eq in E; contradiction|].
  rewrite (IH H). reflexivity.
Qed.

Lemma split_space_word (w rest : string) :
  no_space w -> split_space (w ++ String " " rest) = w :: split_space rest.
Proof.
  unfold no_space. induction w as [|c w IH]; simpl; intros H; [reflexivity|].
  apply Forall_cons_iff in H as [Hc H].
  destruct (Ascii.eqb c " ") eqn:E; [apply Ascii.eqb_eq in E; contradiction|].
  rewrite (IH H). reflexivity.
Qed.

Lemma bearer_token_second_word (scheme tok : string) :
  no_space scheme -> no_space tok -> tok <> "" ->
  bearer_token (Some (scheme ++ String " " tok)) = Some tok.
Proof.
  intros Hs Ht Hne. unfold bearer_token.
  assert (String.eqb (scheme ++ String " " tok) "" = false) as ->
    by (destruct scheme; reflexivity).
  rewrite (split_space_word scheme tok Hs), (split_space_single tok Ht).
  simpl. destruct (String.eqb tok "") eqn:E; [|reflexivity].
  apply String.eqb_eq in E. contradiction.
Qed.

Lemma bearer_token_one_word (h : string) :
  no_space h -> bearer_token (Some h) = None.
Proof.
  intros H. unfold bearer_token. rewrite (split_space_single h H).
  destruct (String.eqb h ""); reflexivity.
Qed.

(** X10.  [authenticateToken] reads the second word of the header and
    nothing else.  A header made of one word, a space and a non-empty
    token is handled as the token alone, whatever the first word is (also
    when it is not "Bearer", or is empty): the user of a token that
    verifies, 403 for one that does not.  A header without a space (such
    as a bare token), like a missing header, is answered 401
    "MISSING_TOKEN". *)
Theorem authenticateToken_second_word (verify : string -> option claims)
    (req : request) :
  (forall scheme tok,
     no_space scheme -> no_space tok -> tok <> "" ->
     authorization req = Some (scheme ++ String " " tok) ->
     authenticateToken verify req =
     match verify tok with
     | Some user => inr user
     | None =>
         inl (mkResponse 403
                (Failure "Invalid or expired token" (Some "INVALID_TOKEN") None))
     end) /\
  ((authorization req = None \/
    exists h, authorization req = Some h /\ no_space h) ->
   authenticateToken verify req =
   inl (mkResponse 401
          (Failure "Authorization token required" (Some "MISSING_TOKEN") None))).
Proof.
  split.
  - intros scheme tok Hs Ht Hne Hauth. unfold authenticateToken.
    rewrite Hauth, (bearer_token_second_word scheme tok Hs Ht Hne).
    destruct (verify tok); reflexivity.
  - intros [Hnone|(h & Hh & Hns)]; unfold authenticateToken.
    + rewrite Hnone. reflexivity.
    + rewrite Hh, (bearer_token_one_word h Hns). reflexivity.
Qed.

(** ** The quantity of a POST *)











End FurtherRouteProperties.

(** ** At sample inputs *)

Lemma put_missing_line_not_found_witness :
  put_cart_item Sample.alice_claims
    (mkRequest None "99" JUndefined (JNum (Int 3)) None JUndefined None)
    Sample.store =
  (mkResponse 404 (Failure "Cart item not found" None None), Sample.store).
Proof.
  apply (put_missing_line_not_found Sample.alice_claims
           (mkRequest None "99" JUndefined (JNum (Int 3)) None JUndefined None)
           Sample.store 7 99 3); first [reflexivity | lia].
Defined.

Lemma delete_missing_line_ok_witness :
  delete_cart_item Sample.alice_claims
    (mkRequest None "99" JUndefined JUndefined None JUndefined None)
    Sample.store =
  (json (Items [mkLine (JNum 42) "a@b.c" "Mug" 999 "m.png" 1] None),
   Sample.store).
Proof.
  apply (delete_missing_line_ok Sample.alice_claims
           (mkRequest None "99" JUndefined JUndefined None JUndefined None)
           Sample.store 7 99); first [reflexivity | lia].
Defined.

Lemma negative_product_id_server_error_witness :
  put_cart_item Sample.alice_claims
    (mkRequest None "-5" JUndefined (JNum (Int 3)) None JUndefined None)
    Sample.store =
  (mkResponse 500
     (Failure "Database update error" None
        (Some "Valid product ID is required")), Sample.store).
Proof.
  apply (negative_product_id_server_error Sample.alice_claims
           (mkRequest None "-5" JUndefined (JNum (Int 3)) None JUndefined None)
           Sample.store 7 (-5) 3); first [reflexivity | lia].
Defined.

Lemma authenticateToken_second_word_witness :
  authenticateToken
    (fun t => if String.eqb t "t0k3n" then Some Sample.alice_claims else None)
    (mkRequest (Some "Basic t0k3n") "" JUndefined JUndefined None JUndefined None)
  = inr Sample.alice_claims.
Proof.
  refine (proj1 (authenticateToken_second_word
    (fun t => if String.eqb t "t0k3n" then Some Sample.alice_claims else None)
    (mkRequest (Some "Basic t0k3n") "" JUndefined JUndefined None JUndefined None))
    "Basic" "t0k3n" _ _ _ eq_refl).
  - repeat constructor; discriminate.
  - repeat constructor; discriminate.
  - discriminate.
Defined.



(** * Further properties of the client *)

Lemma updateQuantity_rollback_exact_witness :
  Cart.visible
    (Cart.updateQuantity true (JNum 42) 1 Fixture.failure Fixture.page)
  = [Fixture.mugs; Fixture.pen].
Proof.
  refine (eq_trans (updateQuantity_rollback_exact (JNum 42) 1 Fixture.failure
                      Fixture.page _ eq_refl) _).
  - repeat constructor.
  - reflexivity.
Defined.

Lemma removeItem_rollback_exact_witness :
  Cart.visible (Cart.removeItem true (JNum 42) Fixture.failure Fixture.page)
  = [Fixture.mugs; Fixture.pen].
Proof.
  refine (eq_trans (removeItem_rollback_exact (JNum 42) Fixture.failure
                      Fixture.page eq_refl) _).
  reflexivity.
Defined.

(** ** The cart page after a request that succeeded *)

(** [alloc_all] allocates from [next] upward: the new addresses hold the
    objects, in order, and nothing below [next] is written. *)
Lemma alloc_all_spec (objs : list Cart.item) :
  forall st,
    omap (fun l => Cart.heap (snd (Cart.alloc_all objs st)) !! l)
      (fst (Cart.alloc_all objs st)) = objs /\
    (Cart.next st <= Cart.next (snd (Cart.alloc_all objs st)))%nat /\
    Forall (fun l => (Cart.next st <= l)%nat) (fst (Cart.alloc_all objs st)) /\
    forall l, (l < Cart.next st)%nat ->
              Cart.heap (snd (Cart.alloc_all objs st)) !! l = Cart.heap st !! l.
Proof.
  induction objs as [|o rest IH]; intros st.
  - simpl. repeat split; [lia|constructor].
  - specialize (IH (snd (Cart.alloc o st))).
    cbn [Cart.alloc_all Cart.alloc snd] in IH |- *. revert IH.
    destruct (Cart.alloc_all rest _) as [ls st2].
    cbn [fst snd Cart.next Cart.heap]. intros (Hv & Hn & Hge & Hkeep).
    repeat split.
    + csimpl. rewrite Hkeep by lia. rewrite lookup_insert_eq.
      rewrite Hv. reflexivity.
    + lia.
    + constructor; [lia|]. eapply Forall_impl; [exact Hge|].
      intros l Hl. cbv beta in *. lia.
    + intros l Hl. rewrite Hkeep by lia. apply lookup_insert_ne. lia.
Qed.

Lemma settle_synced prevCart res done_msg fallback st items :
  Net.ok res = true ->
  Net.items_of (Server.payload res) = Some items ->
  Cart.visible (Cart.settle prevCart (Net.Replied res) done_msg fallback st) =
  List.map Cart.format_line items.
Proof.
  intros Hok Hitems. unfold Cart.settle, Cart.sync. rewrite Hok, Hitems.
  destruct (alloc_all_spec (List.map Cart.format_line items) st)
    as (Hv & _ & _ & _).
  destruct (Cart.alloc_all (List.map Cart.format_line items) st)
    as [formatted st1].
  exact Hv.
Qed.

(** X14.  The server is authoritative on the cart page.  When the request
    of [updateQuantity] (for an item that is in the cart, with a changed
    quantity) or of [removeItem] is answered with a status from 200 to 299
    and a list of items, the page afterwards shows exactly those items,
    each formatted, in the order sent, whatever it showed before. *)
Theorem cart_page_shows_snapshot (productId : value) (delta : Z)
    (res : Server.response) (items : list line) (st : Cart.state) :
  Net.ok res = true ->
  Net.items_of (Server.payload res) = Some items ->
  (forall it,
     Cart.find_item productId st = Some it ->
     num_eqb (num_max 1 (num_add (Cart.quantity it) delta)) (Cart.quantity it)
     = false ->
     Cart.visible (Cart.updateQuantity true productId delta (Net.Replied res) st)
     = List.map Cart.format_line items) /\
  Cart.visible (Cart.removeItem true productId (Net.Replied res) st) =
  List.map Cart.format_line items.
Proof.
  intros Hok Hitems. split.
  - intros it Hfind Hchg. unfold Cart.updateQuantity. cbn [negb].
    rewrite Hfind. cbv zeta. rewrite Hchg.
    destruct (Cart.map_quantity _ _ _ st) as [nextCart st1].
    apply (settle_synced _ res _ _ _ items Hok Hitems).
  - unfold Cart.removeItem. cbn [negb]. cbv zeta.
    apply (settle_synced _ res _ _ _ items Hok Hitems).
Qed.

Lemma cart_page_shows_snapshot_witness :
  Cart.visible (Cart.removeItem true (JNum 5) Fixture.snapshot Fixture.page) =
  [Cart.mkItem (JNum 42) "Mug" 999 3 "/logo192.png"].
Proof.
  refine (proj2 (cart_page_shows_snapshot (JNum 5) 0
                   (Server.json
                      (Server.Items [mkLine (JNum 42) "a@b.c" "Mug" 999 "" 3] None))
                   [mkLine (JNum 42) "a@b.c" "Mug" 999 "" 3] Fixture.page
                   eq_refl eq_refl)).
Defined.

Lemma map_quantity_spec productId newQuantity arr :
  forall st,
    Forall (fun l => (l < Cart.next st)%nat) arr ->
    omap (fun l => Cart.heap (snd (Cart.map_quantity productId newQuantity arr st)) !! l)
      (fst (Cart.map_quantity productId newQuantity arr st)) =
    List.map (with_new_quantity productId newQuantity)
      (omap (fun l => Cart.heap st !! l) arr).
Proof.
  induction arr as [|a rest IH]; intros st Hall; [reflexivity|].
  apply Forall_cons_iff in Hall as [Ha Hrest].
  cbn [Cart.map_quantity]. csimpl.
  destruct (Cart.heap st !! a) as [it|] eqn:Hit.
  - destruct (strict_eq (Cart.product_id it) productId) eqn:Hm.
    + cbn [Cart.alloc].
      set (st1 := Cart.mkState _ (S (Cart.next st)) _ _ _).
      assert (Forall (fun l => (l < Cart.next st1)%nat) rest) as Hrest1.
      { eapply Forall_impl; [exact Hrest|]. intros l Hl. simpl in *. lia. }
      specialize (IH st1 Hrest1).
      pose proof (map_quantity_heap productId newQuantity rest st1 (Cart.next st))
        as Hnew.
      destruct (Cart.map_quantity productId newQuantity rest st1)
        as [rest' st2].
      cbn [fst snd] in *. csimpl.
      rewrite Hnew by (simpl; lia). subst st1. cbn [Cart.heap].
      rewrite lookup_insert_eq. rewrite IH. cbn [Cart.heap].
      unfold with_new_quantity at 2. rewrite Hm. f_equal. f_equal.
      apply omap_agree. eapply Forall_impl; [exact Hrest|].
      intros l Hl. cbv beta in *. apply lookup_insert_ne. lia.
    + specialize (IH st Hrest).
      pose proof (map_quantity_heap productId newQuantity rest st a Ha) as Hkeep.
      destruct (Cart.map_quantity productId newQuantity rest st) as [rest' st2].
      cbn [fst snd] in *. csimpl. rewrite Hkeep, Hit, IH.
      unfold with_new_quantity at 2. rewrite Hm. reflexivity.
  - specialize (IH st Hrest).
    pose proof (map_quantity_heap productId newQuantity rest st a Ha) as Hkeep.
    destruct (Cart.map_quantity productId newQuantity rest st) as [rest' st2].
    cbn [fst snd] in *. csimpl. rewrite Hkeep, Hit. exact IH.
Qed.

Lemma omap_filter_heap (h : gmap nat Cart.item) (f : Cart.item -> bool)
    (arr : list nat) :
  omap (fun l => h !! l)
    (List.filter
       (fun l => match h !! l with Some it => f it | None => true end) arr) =
  List.filter f (omap (fun l => h !! l) arr).
Proof.
  induction arr as [|a rest IH]; [reflexivity|].
  cbn [List.filter]. csimpl. destruct (h !! a) as [it|] eqn:Hit.
  - destruct (f it) eqn:Hf; csimpl; rewrite ?Hit; cbn [List.filter];
      rewrite ?Hf, IH; reflexivity.
  - csimpl. rewrite Hit. exact IH.
Qed.

Lemma settle_acknowledged prevCart res done_msg fallback st :
  Net.ok res = true ->
  Net.items_of (Server.payload res) = None ->
  Cart.visible (Cart.settle prevCart (Net.Replied res) done_msg fallback st) =
  Cart.visible st.
Proof.
  intros Hok Hitems. unfold Cart.settle, Cart.sync. rewrite Hok, Hitems.
  reflexivity.
Qed.

(** X15.  The optimistic cart is kept when the server sends no list.  On a
    page whose array addresses were allocated before [next], when the
    request is answered with a status from 200 to 299 and a body without
    items: after [updateQuantity] the page shows the cart of before with
    the quantity of the matching items replaced by the larger of 1 and the
    old quantity plus [delta]; after [removeItem] it shows the cart of
    before without the items of the product. *)
Theorem cart_page_keeps_optimistic (productId : value) (delta : Z)
    (res : Server.response) (st : Cart.state) :
  Cart.allocated st ->
  Net.ok res = true ->
  Net.items_of (Server.payload res) = None ->
  (forall it,
     Cart.find_item productId st = Some it ->
     num_eqb (num_max 1 (num_add (Cart.quantity it) delta)) (Cart.quantity it)
     = false ->
     Cart.visible (Cart.updateQuantity true productId delta (Net.Replied res) st)
     = List.map
         (with_new_quantity productId
            (num_max 1 (num_add (Cart.quantity it) delta)))
         (Cart.visible st)) /\
  Cart.visible (Cart.removeItem true productId (Net.Replied res) st) =
  List.filter (fun it => negb (strict_eq (Cart.product_id it) productId))
    (Cart.visible st).
Proof.
  intros Hwf Hok Hitems. split.
  - intros it Hfind Hchg. unfold Cart.updateQuantity. cbn [negb].
    rewrite Hfind. cbv zeta. rewrite Hchg.
    pose proof (map_quantity_spec productId
                  (num_max 1 (num_add (Cart.quantity it) delta))
                  (Cart.cartItems st) st Hwf)
      as Hspec.
    destruct (Cart.map_quantity _ _ _ st) as [nextCart st1].
    rewrite (settle_acknowledged _ res _ _ _ Hok Hitems).
    exact Hspec.
  - unfold Cart.removeItem. cbn [negb]. cbv zeta.
    rewrite (settle_acknowledged _ res _ _ _ Hok Hitems).
    unfold Cart.visible. cbn [Cart.heap Cart.cartItems Cart.setLoading
                               Cart.setCartItems].
    apply omap_filter_heap.
Qed.

Lemma cart_page_keeps_optimistic_witness :
  Cart.visible
    (Cart.updateQuantity true (JNum 42) (-5) Fixture.acknowledged Fixture.page) =
  [Cart.mkItem (JNum 42) "Mug" 999 1 "m.png"; Fixture.pen].
Proof.
  refine (eq_trans
    (proj1 (cart_page_keeps_optimistic (JNum 42) (-5)
              (Server.json (Server.Message "Quantity updated")) Fixture.page
              _ eq_refl eq_refl) Fixture.mugs eq_refl eq_refl) _).
  - repeat constructor.
  - reflexivity.
Defined.

(** ** The product list *)

(** X16.  For a signed-in user, whatever the POST comes back with, after
    [addToCart] the array written under "cartItems" in [localStorage] is
    the cart the product list shows. *)
Theorem addToCart_local_copy (p : Products.product) (server : Net.reply)
    (st : Products.state) :
  Products.localStorage (Products.addToCart true p server st) =
  Products.visible (Products.addToCart true p server st).
Proof.
  unfold Products.addToCart. cbn [negb].
  destruct (Products.findIndex _ _ _) as [i|].
  - destruct server as [res|message]; [|reflexivity].
    destruct (Server.status res =? 401); [reflexivity|].
    destruct (negb (Net.ok res)); reflexivity.
  - cbn [Products.alloc_item].
    destruct server as [res|message]; [|reflexivity].
    destruct (Server.status res =? 401); [reflexivity|].
    destruct (negb (Net.ok res)); reflexivity.
Qed.

(** X17.  For a product that is not yet in the cart, [addToCart] rolls
    back exactly.  When the addresses of the state array were allocated
    before [next], the product has no item in the cart and the POST fails
    (a response outside 200 to 299 other than 401, or none), the product
    list shows the cart of before the call and [localStorage] holds it. *)
Theorem addToCart_new_product_reverts (p : Products.product)
    (server : Net.reply) (st : Products.state) :
  products_allocated st ->
  Products.findIndex (Products.heap st) (Products.product_id p)
    (Products.cartItems st) = None ->
  Net.rejected server = true ->
  (forall res, server = Net.Replied res -> Server.status res <> 401) ->
  Products.visible (Products.addToCart true p server st) = Products.visible st /\
  Products.localStorage (Products.addToCart true p server st) =
  Products.visible st.
Proof.
  intros Hwf Hnone Hrej Hnot401.
  assert (Products.deref
            (<[Products.next st :=
                 Products.mkItem (Products.product_id p)
                   (Products.product_title p) (Products.product_price p)
                   (Products.product_image p) 1]> (Products.heap st))
            (Products.cartItems st) = Products.visible st) as Hsame.
  { unfold Products.visible, Products.deref. apply omap_agree.
    eapply Forall_impl; [exact Hwf|]. intros l Hl. cbv beta in *.
    apply lookup_insert_ne. lia. }
  unfold Products.addToCart. cbn [negb]. rewrite Hnone.
  cbn [Products.alloc_item].
  destruct server as [res|message].
  - destruct (Server.status res =? 401) eqn:E;
      [apply Z.eqb_eq in E; exfalso; apply (Hnot401 res eq_refl E)|].
    simpl in Hrej. rewrite Hrej. split; exact Hsame.
  - split; exact Hsame.
Qed.

Lemma addToCart_new_product_reverts_witness :
  Products.visible
    (Products.addToCart true Fixture.hat (Net.Replied Sample.update_failed)
       Sample.shelf) =
  [Products.mkItem 1 "Shirt" 10 "s.png" 1].
Proof.
  refine (proj1 (addToCart_new_product_reverts Fixture.hat
                   (Net.Replied Sample.update_failed) Sample.shelf
                   _ eq_refl eq_refl _)).
  - repeat constructor.
  - intros res [= <-]. discriminate.
Defined.

(** ** The product page *)

Section MapAt.

Import ProductPage.

Lemma findIndex_some (f : item -> bool) (arr : list item) (i : nat) :
  findIndex f arr = Some i ->
  exists it, arr !! i = Some it /\ f it = true.
Proof.
  revert i. induction arr as [|x rest IH]; intros i; simpl; [discriminate|].
  destruct (f x) eqn:E.
  - intros [= <-]. exists x. split; [reflexivity|exact E].
  - destruct (findIndex f rest) as [j|]; [|discriminate].
    intros [= <-]. apply (IH j eq_refl).
Qed.

Lemma findIndex_none (f : item -> bool) (arr : list item) :
  findIndex f arr = None -> List.filter (fun it => negb (f it)) arr = arr.
Proof.
  induction arr as [|x rest IH]; simpl; [reflexivity|].
  destruct (f x); [discriminate|].
  destruct (findIndex f rest); [discriminate|].
  intros _. simpl. rewrite (IH eq_refl). reflexivity.
Qed.

Lemma findIndex_snoc (f : item -> bool) (arr : list item) (x : item) :
  findIndex f arr = None -> f x = true ->
  findIndex f (arr ++ [x])%list = Some (List.length arr) /\
  (arr ++ [x])%list !! List.length arr = Some x.
Proof.
  intros Hnone Hx. induction arr as [|y rest IH]; simpl in *.
  - rewrite Hx. split; reflexivity.
  - destruct (f y); [discriminate|].
    destruct (findIndex f rest); [discriminate|].
    destruct (IH eq_refl) as [-> ->]. split; reflexivity.
Qed.

Lemma findIndex_map_at (f : item -> bool) (g : item -> item) (i : nat)
    (arr : list item) :
  (forall x, f (g x) = f x) ->
  findIndex f (map_at i g arr) = findIndex f arr.
Proof.
  intros Hg. revert i. induction arr as [|x rest IH]; intros i; [reflexivity|].
  destruct i as [|i]; simpl.
  - rewrite Hg. reflexivity.
  - rewrite IH. reflexivity.
Qed.

Lemma lookup_map_at (g : item -> item) (i : nat) (arr : list item) (it : item) :
  arr !! i = Some it -> map_at i g arr !! i = Some (g it).
Proof.
  revert i. induction arr as [|x rest IH]; intros i; [discriminate|].
  destruct i as [|i]; simpl.
  - intros [= ->]. reflexivity.
  - apply IH.
Qed.

Lemma map_at_undo (g h : item -> item) (i : nat) (arr : list item) (it : item) :
  arr !! i = Some it -> h (g it) = it ->
  map_at i h (map_at i g arr) = arr.
Proof.
  revert i. induction arr as [|x rest IH]; intros i; [reflexivity|].
  destruct i as [|i]; simpl.
  - intros [= ->] ->. reflexivity.
  - intros Hl Hu. rewrite (IH i Hl Hu). reflexivity.
Qed.

Lemma filter_snoc_found (f : item -> bool) (arr : list item) (x : item) :
  findIndex f arr = None -> f x = true ->
  List.filter (fun it => negb (f it)) (arr ++ [x])%list = arr.
Proof.
  intros Hnone Hx. rewrite List.filter_app. simpl. rewrite Hx. simpl.
  rewrite (findIndex_none f arr Hnone). apply app_nil_r.
Qed.

Lemma with_quantity_same (it : item) : with_quantity (quantity it) it = it.
Proof. destruct it; reflexivity. Qed.

End MapAt.

Lemma same_number_own (p : Z) :
  ProductPage.same_number (JNum (Int p)) p = true.
Proof. apply Z.eqb_refl. Qed.

Lemma other_id_of_different (i : value) (p : Z) :
  ProductPage.same_number i p = false -> ProductPage.other_id i p = true.
Proof.
  unfold ProductPage.other_id, ProductPage.same_number.
  destruct i as [| |n|s]; simpl; try reflexivity.
  intros ->. reflexivity.
Qed.

Lemma to_double_small (z : Z) : Z.abs z <= 2 ^ 53 -> to_double z = Int z.
Proof.
  intros Hz. unfold to_double. apply Z.leb_le in Hz. rewrite Hz. reflexivity.
Qed.

(** What both reverts of the product page give back. *)
Lemma product_page_reverts (p : Products.product) (arr : list ProductPage.item) :
  Forall (fun it => whole_quantity (ProductPage.quantity it)) arr ->
  let existingIndex :=
    ProductPage.findIndex
      (fun it => ProductPage.same_number (ProductPage.id it)
                   (Products.product_id p)) arr in
  let optimisticCart :=
    match existingIndex with
    | Some i =>
        ProductPage.map_at i
          (fun it =>
             ProductPage.with_quantity
               (num_add (ProductPage.quantity_or_1 it) 1) it)
          arr
    | None =>
        (arr ++
         [ProductPage.mkItem (JNum (Int (Products.product_id p)))
            (Products.product_title p) (Int (Products.product_price p))
            (Products.product_image p) 1])%list
    end in
  ProductPage.revert p optimisticCart = arr /\
  ProductPage.revert_unauthorized p existingIndex optimisticCart = arr.
Proof.
  intros Hq existingIndex optimisticCart. subst existingIndex optimisticCart.
  set (f := fun it => ProductPage.same_number (ProductPage.id it)
                        (Products.product_id p)).
  destruct (ProductPage.findIndex f arr) as [i|] eqn:Hidx.
  - destruct (findIndex_some f arr i Hidx) as (it & Hit & Hf).
    assert (whole_quantity (ProductPage.quantity it)) as (z & Hz & Hz1).
    { rewrite Forall_forall in Hq. apply Hq.
      apply list_elem_of_lookup. eauto. }
    assert (ProductPage.quantity_or_1 it = Int z) as Hor.
    { unfold ProductPage.quantity_or_1. rewrite Hz. cbn [truthy].
      destruct (Z.eqb_spec z 0); [lia|reflexivity]. }
    assert (num_add (Int z) 1 = Int (z + 1)) as Hadd
      by (apply to_double_small; lia).
    assert (num_sub (Int (z + 1)) 1 = Int z) as Hsub.
    { unfold num_sub. cbn [num_opp num_add].
      replace (z + 1 + - (1)) with z by lia. apply to_double_small. lia. }
    split.
    + unfold ProductPage.revert. fold f.
      rewrite findIndex_map_at by reflexivity. rewrite Hidx.
      rewrite (lookup_map_at _ i arr it Hit).
      unfold ProductPage.quantity_or_1 at 1. cbn [ProductPage.quantity
        ProductPage.with_quantity]. rewrite Hor, Hadd. cbn [truthy].
      destruct (Z.eqb_spec (z + 1) 0); [lia|]. cbn [negb].
      rewrite num_ltb_int.
      destruct (Z.ltb_spec 1 (z + 1)); [|lia].
      apply (map_at_undo _ _ i arr it Hit).
      unfold ProductPage.with_quantity. cbn [ProductPage.quantity
        ProductPage.id ProductPage.title ProductPage.price ProductPage.image].
      rewrite Hor, Hadd, Hsub, <- Hz.
      clear. destruct it; reflexivity.
    + unfold ProductPage.revert_unauthorized.
      apply (map_at_undo _ _ i arr it Hit).
      unfold ProductPage.with_quantity. cbn [ProductPage.quantity
        ProductPage.id ProductPage.title ProductPage.price ProductPage.image].
      rewrite Hor, Hadd, Hsub.
      assert (num_max 1 (Int z) = Int z) as ->.
      { unfold num_max. cbn [num_compare].
        destruct (1 ?= z) eqn:E; [apply Z.compare_eq in E; congruence
                                 |reflexivity
                                 |apply Z.compare_gt_iff in E; lia]. }
      rewrite <- Hz. clear. destruct it; reflexivity.
  - set (new := ProductPage.mkItem (JNum (Int (Products.product_id p)))
                  (Products.product_title p) (Int (Products.product_price p))
                  (Products.product_image p) 1).
    assert (f new = true) as Hnew by apply same_number_own.
    destruct (findIndex_snoc f arr new Hidx Hnew) as [Hfi Hlk].
    split.
    + unfold ProductPage.revert. fold f. rewrite Hfi, Hlk.
      change (num_ltb 1 (ProductPage.quantity_or_1 new)) with false. cbv iota.
      apply (filter_snoc_found f arr new Hidx Hnew).
    + unfold ProductPage.revert_unauthorized. rewrite List.filter_app. simpl.
      unfold ProductPage.other_id at 2. simpl. rewrite Z.eqb_refl. simpl.
      rewrite app_nil_r.
      clear -Hidx. induction arr as [|x rest IH]; [reflexivity|].
      simpl in Hidx. destruct (f x) eqn:E; [discriminate|].
      destruct (ProductPage.findIndex f rest); [discriminate|].
      simpl. rewrite (other_id_of_different _ _ E), (IH eq_refl). reflexivity.
Qed.

(** X18.  [addToCart] of the product page rolls back exactly.  With a
    token, on a cart whose quantities are whole numbers from 1 to
    [2^53 - 1], when the POST does not succeed (a 401, another response
    outside 200 to 299, or no response) the state [cartItems] afterwards is
    the array of before the call, item for item: the quantity raised is
    lowered again, the item added is removed. *)
Theorem product_page_addToCart_reverts (p : Products.product) (token : string)
    (server : Net.reply) (st : ProductPage.state) :
  token <> "" ->
  Net.rejected server = true ->
  Forall (fun it => whole_quantity (ProductPage.quantity it))
    (ProductPage.cartItems st) ->
  ProductPage.cartItems (ProductPage.addToCart p (Some token) server st) =
  ProductPage.cartItems st.
Proof.
  intros Htok Hrej Hq.
  destruct (product_page_reverts p (ProductPage.cartItems st) Hq) as [Hrev H401].
  unfold ProductPage.addToCart. cbv zeta.
  destruct (String.eqb token "") eqn:E; [apply String.eqb_eq in E; contradiction|].
  cbn [negb].
  cbn [ProductPage.cartItems ProductPage.setSaving ProductPage.setCartItems].
  destruct server as [res|message]; simpl in Hrej.
  - destruct (Server.status res =? 401).
    + cbn [ProductPage.cartItems ProductPage.setSaving ProductPage.setCartItems
           ProductPage.handleUnauthorized ProductPage.notify].
      exact H401.
    + rewrite Hrej.
      cbn [ProductPage.cartItems ProductPage.setSaving ProductPage.setCartItems
           ProductPage.notify].
      exact Hrev.
  - cbn [ProductPage.cartItems ProductPage.setSaving ProductPage.setCartItems
         ProductPage.notify].
    exact Hrev.
Qed.

Lemma product_page_addToCart_reverts_witness :
  ProductPage.cartItems
    (ProductPage.addToCart Sample.shirt (Some "t0k3n") Fixture.failure
       Fixture.product_page) =
  [ProductPage.mkItem (JNum 1) "Shirt" 10 "s.png" 1].
Proof.
  refine (product_page_addToCart_reverts Sample.shirt "t0k3n" Fixture.failure
            Fixture.product_page _ eq_refl _).
  - discriminate.
  - repeat constructor. exists 1. split; [reflexivity|lia].
Defined.

(** Above [2^53 - 1] the revert is not exact: one more than [2^53] is not a
    double, so a cart that held 9007199254740992 shirts comes back with
    9007199254740991. *)
Lemma product_page_large_quantity :
  ProductPage.cartItems
    (ProductPage.addToCart Sample.shirt (Some "t0k3n") Fixture.failure
       (ProductPage.mkState
          [ProductPage.mkItem (JNum 1) "Shirt" 10 "s.png" 9007199254740992]
          false [] None true)) =
  [ProductPage.mkItem (JNum 1) "Shirt" 10 "s.png" 9007199254740991].
Proof. vm_compute. reflexivity. Qed.

(** * Properties of the accounts *)

Lemma existsb_find_none {A : Type} (f : A -> bool) (l : list A) :
  existsb f l = false -> List.find f l = None.
Proof.
  induction l as [|x l IH]; simpl; [reflexivity|].
  destruct (f x); [discriminate|exact IH].
Qed.

Lemma existsb_email_notin (em : string) (us : list Users.user) :
  existsb (fun u => String.eqb (Users.email u) em) us = false ->
  em ∉ List.map Users.email us.
Proof.
  induction us as [|u us IH]; simpl; intros H Hin.
  - apply elem_of_nil in Hin. exact Hin.
  - apply orb_false_iff in H as [Hu H]. apply elem_of_cons in Hin as [->|Hin].
    + rewrite String.eqb_refl in Hu. discriminate.
    + exact (IH H Hin).
Qed.

(** What a registration that succeeds did. *)
Lemma registerUser_ok bcrypt_hash nm em pw t i t' :
  Users.registerUser bcrypt_hash nm em pw t = (Ok i, t') ->
  exists h,
    truthy em = true /\ truthy pw = true /\
    bcrypt_hash (Users.to_string pw) = Ok h /\
    existsb (fun u => String.eqb (Users.email u) (trim (Users.to_string em)))
      (Users.users t) = false /\
    i = Users.users_seq t + 1 /\
    t' = Users.mkTables
           (Users.users t ++
            [Users.mkUser i (trim (Users.to_string nm))
               (trim (Users.to_string em)) h None None None None])%list
           i (Users.contacts t) (Users.contacts_seq t).
Proof.
  unfold Users.registerUser, Users.exec_insert_user.
  destruct (truthy nm); [|discriminate].
  destruct (truthy em); [|discriminate].
  destruct (truthy pw); [|discriminate]. cbn [negb orb]. cbv zeta.
  destruct (_ || _); [discriminate|].
  destruct (bcrypt_hash (Users.to_string pw)) as [h|e]; [|discriminate].
  destruct (existsb _ _) eqn:E.
  - cbn [Users.message_of].
    destruct (Users.includes _ _); discriminate.
  - intros [= <- <-]. exists h. repeat split; reflexivity.
Qed.

Lemma registerUser_failed bcrypt_hash nm em pw t e t' :
  Users.registerUser bcrypt_hash nm em pw t = (Err e, t') -> t' = t.
Proof.
  unfold Users.registerUser, Users.exec_insert_user. cbv zeta.
  destruct (_ || _); [intros [= _ <-]; reflexivity|].
  destruct (_ || _); [intros [= _ <-]; reflexivity|].
  destruct (bcrypt_hash _); [|intros [= _ <-]; reflexivity].
  destruct (existsb _ _); [|discriminate].
  cbn [Users.message_of]. destruct (Users.includes _ _);
    intros [= _ <-]; reflexivity.
Qed.

Lemma account_apply_distinct bcrypt_hash (o : account_op) (t : Users.tables) :
  accounts_distinct t -> accounts_distinct (account_apply bcrypt_hash o t).
Proof.
  intros (Hem & Hid & Hseq & H0).
  destruct o as [nm em pw|userId data|nm em msg]; simpl.
  - destruct (Users.registerUser bcrypt_hash nm em pw t) as [[i|e] t'] eqn:E.
    + apply registerUser_ok in E as (h & _ & _ & _ & Hnew & -> & ->).
      unfold accounts_distinct. cbn [snd Users.users Users.users_seq].
      rewrite !List.map_app. cbn [List.map Users.email Users.id].
      repeat split.
      * apply NoDup_app. repeat split.
        -- exact Hem.
        -- intros x Hx Hx'. apply list_elem_of_singleton in Hx'. subst x.
           exact (existsb_email_notin _ _ Hnew Hx).
        -- apply NoDup_singleton.
      * apply NoDup_app. repeat split.
        -- exact Hid.
        -- intros x Hx Hx'. apply list_elem_of_singleton in Hx'. subst x.
           apply list_elem_of_In, in_map_iff in Hx as (u & Hu & Hin).
           rewrite Forall_forall in Hseq.
           apply list_elem_of_In in Hin. specialize (Hseq u Hin). lia.
        -- apply NoDup_singleton.
      * apply Forall_app. split.
        -- eapply Forall_impl; [exact Hseq|]. intros u Hu. cbv beta in *. lia.
        -- constructor; [simpl; lia|constructor].
      * lia.
    + apply registerUser_failed in E as ->. repeat split; assumption.
  - unfold Users.updateUserProfile.
    destruct (Db.invalid_id _); [repeat split; assumption|].
    unfold accounts_distinct.
    cbn [snd Users.exec_update_profile Users.users Users.users_seq].
    repeat split.
    + rewrite List.map_map. erewrite List.map_ext; [exact Hem|].
      intros u. destruct (Users.has_id _ u); reflexivity.
    + rewrite List.map_map. erewrite List.map_ext; [exact Hid|].
      intros u. destruct (Users.has_id _ u); reflexivity.
    + apply Forall_map. eapply Forall_impl; [exact Hseq|].
      intros u Hu. cbv beta in *. destruct (Users.has_id _ u); exact Hu.
    + exact H0.
  - unfold Users.saveContact.
    destruct nm as [n|], em as [e|], msg as [m|];
      try (repeat split; assumption).
    destruct (_ || _); repeat split; assumption.
Qed.

(** X19.  Starting from empty tables, after any sequence of registrations,
    profile updates and contact messages, no two users have the same email
    and no two users have the same id, and every id lies between 1 and the
    last id the key gave. *)
Theorem accounts_stay_distinct (bcrypt_hash : string -> Db.result string)
    (ops : list account_op) :
  accounts_distinct (account_run bcrypt_hash ops Users.empty_tables).
Proof.
  assert (forall t, accounts_distinct t ->
                    accounts_distinct (account_run bcrypt_hash ops t)) as H.
  { induction ops as [|o ops IH]; intros t Ht; simpl; [exact Ht|].
    apply IH, account_apply_distinct, Ht. }
  apply H. repeat split; simpl; try constructor. lia.
Qed.

(** After a registration that succeeded, the credentials authenticate. *)
Lemma register_authenticate bcrypt_hash bcrypt_compare nm em pw t i t' :
  Users.registerUser bcrypt_hash nm em pw t = (Ok i, t') ->
  (forall h, bcrypt_hash (Users.to_string pw) = Ok h ->
             bcrypt_compare (Users.to_string pw) h = Ok true) ->
  Users.authenticateUser bcrypt_compare em pw t' =
  (Ok (Some (Users.mkAccount i (trim (Users.to_string nm))
               (trim (Users.to_string em)) None None None None)), t').
Proof.
  intros Hreg Hbcrypt.
  apply registerUser_ok in Hreg as (h & Hem & Hpw & Hh & Hnew & Hi & ->).
  unfold Users.authenticateUser. rewrite Hem, Hpw. cbn [negb orb]. cbv zeta.
  cbn [Users.users]. rewrite find_snoc.
  rewrite (existsb_find_none _ _ Hnew). cbn [Users.email].
  rewrite String.eqb_refl. cbn [Users.password].
  rewrite (Hbcrypt h Hh). reflexivity.
Qed.

(** X20.  Register, then authenticate.  When [registerUser] succeeds with
    id [i], and bcrypt accepts a password against its own hash,
    [authenticateUser] with the same email and password returns the
    account of id [i], with the trimmed name and email and without the
    password, and leaves the tables as they are. *)
Theorem registerUser_then_authenticateUser
    (bcrypt_hash : string -> Db.result string)
    (bcrypt_compare : string -> string -> Db.result bool)
    (nm em pw : value) (t t' : Users.tables) (i : Z) :
  Users.registerUser bcrypt_hash nm em pw t = (Ok i, t') ->
  (forall h, bcrypt_hash (Users.to_string pw) = Ok h ->
             bcrypt_compare (Users.to_string pw) h = Ok true) ->
  Users.authenticateUser bcrypt_compare em pw t' =
  (Ok (Some (Users.mkAccount i (trim (Users.to_string nm))
               (trim (Users.to_string em)) None None None None)), t').
Proof. apply register_authenticate. Qed.

Lemma registerUser_then_authenticateUser_witness :
  Users.authenticateUser Fixture.toy_compare (JStr " bob@x.io ") (JStr "Hunter#22")
    (snd (Users.registerUser Fixture.toy_hash (JStr "Bob ") (JStr " bob@x.io ")
            (JStr "Hunter#22") Fixture.members)) =
  (Ok (Some (Users.mkAccount 2 "Bob" "bob@x.io" None None None None)),
   snd (Users.registerUser Fixture.toy_hash (JStr "Bob ") (JStr " bob@x.io ")
          (JStr "Hunter#22") Fixture.members)).
Proof.
  apply (registerUser_then_authenticateUser Fixture.toy_hash Fixture.toy_compare
           (JStr "Bob ") (JStr " bob@x.io ") (JStr "Hunter#22") Fixture.members).
  - reflexivity.
  - intros h [= <-]. reflexivity.
Defined.

Lemma pretty_N_go_not_empty (x : N) (s : string) :
  s <> "" -> pretty_N_go x s <> "".
Proof.
  revert s. induction (N.lt_wf_0 x) as [x _ IH]; intros s Hs.
  destruct (N.eq_dec x 0) as [->|Hx].
  - rewrite pretty_N_go_0. exact Hs.
  - rewrite pretty_N_go_step by lia. apply IH; [|discriminate].
    apply N.div_lt; lia.
Qed.

Lemma pretty_positive_not_empty (x : positive) : pretty x <> "".
Proof.
  unfold pretty, pretty_positive, pretty, pretty_N.
  rewrite pretty_N_go_step by lia.
  apply pretty_N_go_not_empty. discriminate.
Qed.

Lemma pretty_Z_not_empty (z : Z) : pretty z <> "".
Proof.
  unfold pretty, pretty_Z. destruct z as [|x|x]; [discriminate| |discriminate].
  apply pretty_positive_not_empty.
Qed.

Lemma append_not_empty_l (a b : string) : a <> "" -> a ++ b <> "".
Proof. destruct a; [congruence|discriminate]. Qed.

Lemma append_not_empty_r (a b : string) : b <> "" -> a ++ b <> "".
Proof. destruct a; [intros Hb; exact Hb|discriminate]. Qed.

Lemma layout_not_empty (s k n : Z) : layout s k n <> "".
Proof.
  unfold layout. cbv zeta.
  destruct (_ && _); [apply append_not_empty_l, pretty_Z_not_empty|].
  destruct (_ && _); [apply append_not_empty_r; discriminate|].
  destruct (_ && _); [discriminate|].
  destruct (k =? 1); [apply append_not_empty_l, pretty_Z_not_empty|].
  apply append_not_empty_r. discriminate.
Qed.

Lemma positive_to_string_not_empty (x : num) : positive_to_string x <> "".
Proof.
  unfold positive_to_string. destruct (ratio x) as [N D].
  destruct (shortest _ _ _ _ _ _) as [[s k] n]. apply layout_not_empty.
Qed.

(** [String(x)] of a number is not empty. *)
Lemma number_to_string_not_empty (x : num) : number_to_string x <> "".
Proof.
  destruct x as [|z|[k e|[|]]]; try discriminate.
  - destruct z; [discriminate| |]; unfold number_to_string;
      match goal with
      | |- context [if ?b then _ else _] => destruct b
      end; first [discriminate|apply positive_to_string_not_empty].
  - unfold number_to_string.
    match goal with
    | |- context [if ?b then _ else _] => destruct b
    end; first [discriminate|apply positive_to_string_not_empty].
Qed.

(** [String(v)] of a truthy value is not empty. *)
Lemma to_string_truthy (v : value) :
  truthy v = true -> Users.to_string v <> "".
Proof.
  destruct v as [| |n|s]; simpl; try discriminate.
  - intros _. apply number_to_string_not_empty.
  - destruct s; [discriminate|]. intros _. discriminate.
Qed.

Lemma existsb_email_found (em : string) (us : list Users.user) (u : Users.user) :
  In u us -> Users.email u = em ->
  existsb (fun u => String.eqb (Users.email u) em) us = true.
Proof.
  intros Hin <-. apply existsb_exists. exists u. split; [exact Hin|].
  apply String.eqb_refl.
Qed.

Lemma registerUser_taken (bcrypt_hash : string -> Db.result string)
    (nm em pw : value) (t : Users.tables) (u : Users.user) (h : string) :
  truthy nm = true -> truthy em = true -> truthy pw = true ->
  trim (Users.to_string nm) <> "" ->
  trim (Users.to_string em) <> "" ->
  bcrypt_hash (Users.to_string pw) = Ok h ->
  In u (Users.users t) ->
  Users.email u = trim (Users.to_string em) ->
  Users.registerUser bcrypt_hash nm em pw t =
  (Err (StorageError "Email already exists"), t).
Proof.
  intros Hnm Hem Hpw Hn He Hh Hin Hu.
  unfold Users.registerUser, Users.exec_insert_user.
  rewrite Hnm, Hem, Hpw. cbn [negb orb]. cbv zeta.
  assert (String.eqb (trim (Users.to_string nm)) "" = false) as ->
    by (apply String.eqb_neq; exact Hn).
  assert (String.eqb (trim (Users.to_string em)) "" = false) as ->
    by (apply String.eqb_neq; exact He).
  assert (String.eqb (Users.to_string pw) "" = false) as ->
    by (apply String.eqb_neq, to_string_truthy, Hpw).
  cbn [orb]. rewrite Hh, (existsb_email_found _ _ u Hin Hu).
  reflexivity.
Qed.

(** X21.  An email is registered once.  When name, email and password are
    present, not blank, and the hashing succeeds, and some user already has
    the email as [registerUser] stores it (trimmed, compared character by
    character), the call fails with "Email already exists" and the tables
    are as they were. *)
Theorem registerUser_duplicate_email (bcrypt_hash : string -> Db.result string)
    (nm em pw : value) (t : Users.tables) (u : Users.user) (h : string) :
  truthy nm = true -> truthy em = true -> truthy pw = true ->
  trim (Users.to_string nm) <> "" ->
  trim (Users.to_string em) <> "" ->
  bcrypt_hash (Users.to_string pw) = Ok h ->
  In u (Users.users t) ->
  Users.email u = trim (Users.to_string em) ->
  Users.registerUser bcrypt_hash nm em pw t =
  (Err (StorageError "Email already exists"), t).
Proof. apply registerUser_taken. Qed.

Lemma registerUser_duplicate_email_witness :
  Users.registerUser Fixture.toy_hash (JStr "Ann II") (JStr "  ann@x.io")
    (JNum (Int 12345678)) Fixture.members =
  (Err (StorageError "Email already exists"), Fixture.members).
Proof.
  apply (registerUser_duplicate_email Fixture.toy_hash (JStr "Ann II")
           (JStr "  ann@x.io") (JNum (Int 12345678)) Fixture.members
           Fixture.ann ("$2b$" ++ "12345678"));
    first [reflexivity | discriminate | (left; reflexivity)].
Defined.

(** ** Profiles *)

(** X22.  [updateUserProfile] for a positive user id writes the five
    profile fields of that user and nothing else: it reports [true]
    exactly when the user exists; the user then has the trimmed fields,
    each empty when absent from the data (also the name), and the same id,
    email and password; every other user, the contact messages and both
    keys are as they were. *)
Theorem updateUserProfile_writes_profile (userId : value)
    (data : Users.profileData) (t : Users.tables) (i : Z) :
  Db.to_int userId = JNum (Int i) -> 0 < i ->
  let t' := snd (Users.updateUserProfile userId data t) in
  let found j tbl := List.find (fun u => Users.id u =? j) (Users.users tbl) in
  fst (Users.updateUserProfile userId data t) =
  Ok (match found i t with Some _ => true | None => false end) /\
  found i t' =
  option_map
    (fun u =>
       Users.mkUser (Users.id u) (opt_trim (Users.data_name data))
         (Users.email u) (Users.password u)
         (Some (opt_trim (Users.data_username data)))
         (Some (opt_trim (Users.data_bio data)))
         (Some (opt_trim (Users.data_location data)))
         (Some (opt_trim (Users.data_website data))))
    (found i t) /\
  (forall j, j <> i -> found j t' = found j t) /\
  Users.contacts t' = Users.contacts t /\
  Users.users_seq t' = Users.users_seq t /\
  Users.contacts_seq t' = Users.contacts_seq t.
Proof.
  intros Hi Hpos t' found. subst t' found. cbv beta.
  unfold Users.updateUserProfile. rewrite Hi, (positive_id_valid i Hpos).
  cbn [int_of Users.exec_update_profile fst snd Users.users Users.contacts
       Users.users_seq Users.contacts_seq].
  unfold Users.has_id. cbn [pid_eqb].
  repeat split.
  - f_equal. induction (Users.users t) as [|u us IH]; simpl; [reflexivity|].
    destruct (Users.id u =? i); simpl; [|exact IH]. apply Z.ltb_lt. lia.
  - rewrite find_map_commute
      by (intros u; destruct (Users.id u =? i) eqn:E; exact E).
    destruct (List.find _ (Users.users t)) as [u|] eqn:E; [|reflexivity].
    apply find_some in E as [_ E]. simpl. rewrite E. reflexivity.
  - intros j Hj. apply find_map_other.
    + intros u. destruct (Users.id u =? i); reflexivity.
    + intros u Hu. apply Z.eqb_eq in Hu.
      destruct (Users.id u =? i) eqn:E; [apply Z.eqb_eq in E; lia|reflexivity].
Qed.

Lemma updateUserProfile_writes_profile_witness :
  Users.updateUserProfile (JStr "1")
    (Users.mkProfileData None (Some " annie ") None None None) Fixture.members =
  (Ok true,
   Users.mkTables
     [Users.mkUser 1 "" "ann@x.io" "$2b$Secret!1" (Some "annie") (Some "")
        (Some "") (Some "")] 1 [] 0).
Proof.
  pose proof (proj1 (updateUserProfile_writes_profile (JStr "1")
    (Users.mkProfileData None (Some " annie ") None None None) Fixture.members 1
    eq_refl eq_refl)) as H.
  destruct (Users.updateUserProfile _ _ _) as [res t'] eqn:E.
  simpl in H. rewrite H. vm_compute in E. injection E as _ <-. reflexivity.
Defined.

(** ** Blank fields *)

(** X23.  A field that is white space only is refused by [registerUser]
    and stored, empty, by [saveContact].  For a name that is not empty but
    trims to nothing: [registerUser] (with an email and a password) fails
    with "Name, email, and password cannot be empty" and changes nothing;
    [saveContact] (with an email and a message that are not empty)
    succeeds, and the message it stores has the empty name. *)
Theorem blank_name_handling (bcrypt_hash : string -> Db.result string)
    (nm em other : string) (pw : value) (t : Users.tables) :
  blank nm -> em <> "" -> other <> "" -> truthy pw = true ->
  Users.registerUser bcrypt_hash (JStr nm) (JStr em) pw t =
  (Err (InvalidInput "Name, email, and password cannot be empty"), t) /\
  Users.saveContact (Some nm) (Some em) (Some other) t =
  (Ok (Users.contacts_seq t + 1),
   Users.mkTables (Users.users t) (Users.users_seq t)
     (Users.contacts t ++
      [Users.mkContact (Users.contacts_seq t + 1) "" (trim em) (trim other)])%list
     (Users.contacts_seq t + 1)).
Proof.
  intros [Hne Hblank] Hem Hother Hpw.
  assert (forall s, s <> "" -> String.eqb s "" = false) as Hneq
    by (intros s Hs; apply String.eqb_neq; exact Hs).
  split.
  - unfold Users.registerUser. cbn [truthy Users.to_string].
    rewrite !Hneq, Hpw by assumption. cbn [negb orb]. cbv zeta.
    rewrite Hblank. reflexivity.
  - unfold Users.saveContact, Users.exec_insert_contact.
    rewrite !Hneq by assumption. cbn [orb]. rewrite Hblank. reflexivity.
Qed.

Lemma blank_name_handling_witness :
  Users.saveContact (Some "   ") (Some "a@b.c") (Some "hello ")
    Users.empty_tables =
  (Ok 1, Users.mkTables [] 0 [Users.mkContact 1 "" "a@b.c" "hello"] 1).
Proof.
  refine (proj2 (blank_name_handling Fixture.toy_hash "   " "a@b.c" "hello "
                   (JStr "pw") Users.empty_tables _ _ _ eq_refl)).
  - split; [discriminate|reflexivity].
  - discriminate.
  - discriminate.
Defined.

(** * Properties of the account routes *)

(** X24.  The login route does not tell an unknown email from a wrong
    password.  When the body has an email and a password, and either no
    user has the (trimmed) email or bcrypt rejects the password for the
    user who has it, the route answers 401 "Invalid email or password",
    sets no cookie and leaves the tables as they are: the same answer in
    both cases. *)
Theorem login_same_refusal
    (bcrypt_compare : string -> string -> Db.result bool)
    (generateAccessToken generateRefreshToken : Z -> string -> string)
    (b : Auth.credentials) (t : Users.tables) :
  truthy (Auth.body_email b) = true ->
  truthy (Auth.body_password b) = true ->
  let found :=
    List.find
      (fun u => String.eqb (Users.email u)
                  (trim (Users.to_string (Auth.body_email b))))
      (Users.users t) in
  (found = None \/
   exists u, found = Some u /\
             bcrypt_compare (Users.to_string (Auth.body_password b))
               (Users.password u) = Ok false) ->
  Auth.login bcrypt_compare generateAccessToken generateRefreshToken b t =
  (Auth.mkResponse 401 (Auth.Failure "Invalid email or password" None None)
     None, t).
Proof.
  intros Hem Hpw found Hcase. subst found.
  unfold Auth.login, Users.authenticateUser. rewrite Hem, Hpw.
  cbn [negb orb]. cbv zeta.
  destruct Hcase as [->|(u & -> & ->)]; reflexivity.
Qed.

Lemma login_same_refusal_witness :
  Auth.login Fixture.toy_compare (fun _ _ => "a") (fun _ _ => "r")
    (Auth.mkCredentials JUndefined (JStr "ann@x.io") (JStr "guess"))
    Fixture.members =
  Auth.login Fixture.toy_compare (fun _ _ => "a") (fun _ _ => "r")
    (Auth.mkCredentials JUndefined (JStr "nobody@x.io") (JStr "guess"))
    Fixture.members.
Proof.
  refine (eq_trans
    (login_same_refusal Fixture.toy_compare (fun _ _ => "a") (fun _ _ => "r")
       (Auth.mkCredentials JUndefined (JStr "ann@x.io") (JStr "guess"))
       Fixture.members eq_refl eq_refl _)
    (eq_sym
       (login_same_refusal Fixture.toy_compare (fun _ _ => "a") (fun _ _ => "r")
          (Auth.mkCredentials JUndefined (JStr "nobody@x.io") (JStr "guess"))
          Fixture.members eq_refl eq_refl _))).
  - right. exists Fixture.ann. split; reflexivity.
  - left. reflexivity.
Defined.

(** X25.  Register, then log in.  When the register route answers 201
    with the id [i], and bcrypt accepts a password against its own hash,
    the login route with the same body answers 200 with the access token
    signed for [i] and the trimmed email, the user's id, trimmed name and
    trimmed email, and the refresh token for the cookie; the tables are as
    the registration left them. *)
Theorem register_then_login
    (bcrypt_hash : string -> Db.result string)
    (bcrypt_compare : string -> string -> Db.result bool)
    (generateAccessToken generateRefreshToken : Z -> string -> string)
    (b : Auth.credentials) (t t' : Users.tables) (i : Z) (msg : string) :
  Auth.register bcrypt_hash b t =
  (Auth.mkResponse 201 (Auth.Registered msg i) None, t') ->
  (forall h, bcrypt_hash (Users.to_string (Auth.body_password b)) = Ok h ->
             bcrypt_compare (Users.to_string (Auth.body_password b)) h = Ok true) ->
  Auth.login bcrypt_compare generateAccessToken generateRefreshToken b t' =
  (Auth.mkResponse 200
     (Auth.Session
        (generateAccessToken i (trim (Users.to_string (Auth.body_email b))))
        (Users.mkProfile i (trim (Users.to_string (Auth.body_name b)))
           (trim (Users.to_string (Auth.body_email b)))))
     (Some (generateRefreshToken i (trim (Users.to_string (Auth.body_email b))))),
   t').
Proof.
  intros Hreg Hbcrypt. unfold Auth.register in Hreg.
  destruct (_ || _) eqn:Hguard; [discriminate|].
  destruct (Users.registerUser bcrypt_hash (Auth.body_name b)
              (Auth.body_email b) (Auth.body_password b) t)
    as [[i'|e] t''] eqn:E.
  - injection Hreg as _ <- <-.
    pose proof (register_authenticate bcrypt_hash bcrypt_compare _ _ _ _ _ _
                  E Hbcrypt) as Hauth.
    apply registerUser_ok in E as (h & Hem & Hpw & _).
    unfold Auth.login. rewrite Hem, Hpw, Hauth. reflexivity.
  - destruct (Users.includes _ _); discriminate.
Qed.

Lemma register_then_login_witness :
  Auth.status
    (fst (Auth.login Fixture.toy_compare (fun _ e => e) (fun _ _ => "r")
            (Auth.mkCredentials (JStr "Bob") (JStr "bob@x.io") (JStr "Hunter#22"))
            (snd (Auth.register Fixture.toy_hash
                    (Auth.mkCredentials (JStr "Bob") (JStr "bob@x.io")
                       (JStr "Hunter#22")) Fixture.members)))) = 200.
Proof.
  rewrite (register_then_login Fixture.toy_hash Fixture.toy_compare
             (fun _ e => e) (fun _ _ => "r")
             (Auth.mkCredentials (JStr "Bob") (JStr "bob@x.io") (JStr "Hunter#22"))
             Fixture.members
             (snd (Auth.register Fixture.toy_hash
                     (Auth.mkCredentials (JStr "Bob") (JStr "bob@x.io")
                        (JStr "Hunter#22")) Fixture.members))
             2 "User registered successfully").
  - reflexivity.
  - reflexivity.
  - intros h [= <-]. reflexivity.
Defined.

(** X26.  What the register route refuses, and how.  A name that is white
    space only passes the check of the route and is refused by
    [registerUser]: the answer is 500 "Registration failed", not 400.  An
    email that a user already has (as stored: trimmed) is answered 409
    "Email already registered".  In both cases the tables are as they
    were. *)
Theorem register_refusals (bcrypt_hash : string -> Db.result string)
    (b : Auth.credentials) (t : Users.tables) :
  truthy (Auth.body_email b) = true ->
  truthy (Auth.body_password b) = true ->
  (forall nm, Auth.body_name b = JStr nm -> blank nm ->
     Auth.register bcrypt_hash b t =
     (Auth.mkResponse 500
        (Auth.Failure "Registration failed" (Some "DB_ERROR")
           (Some "Name, email, and password cannot be empty")) None, t)) /\
  (forall u h,
     truthy (Auth.body_name b) = true ->
     trim (Users.to_string (Auth.body_name b)) <> "" ->
     trim (Users.to_string (Auth.body_email b)) <> "" ->
     bcrypt_hash (Users.to_string (Auth.body_password b)) = Ok h ->
     In u (Users.users t) ->
     Users.email u = trim (Users.to_string (Auth.body_email b)) ->
     Auth.register bcrypt_hash b t =
     (Auth.mkResponse 409
        (Auth.Failure "Email already registered" (Some "EMAIL_EXISTS") None)
        None, t)).
Proof.
  intros Hem Hpw. split.
  - intros nm Hnm [Hne Hblank]. unfold Auth.register, Users.registerUser.
    rewrite Hnm, Hem, Hpw. cbn [truthy Users.to_string].
    assert (String.eqb nm "" = false) as -> by (apply String.eqb_neq, Hne).
    cbn [negb orb]. cbv zeta. rewrite Hblank. reflexivity.
  - intros u h Hnm Hn He Hh Hin Hu. unfold Auth.register.
    rewrite Hnm, Hem, Hpw. cbn [negb orb].
    rewrite (registerUser_taken bcrypt_hash _ _ _ t u h Hnm Hem Hpw Hn He Hh
               Hin Hu).
    reflexivity.
Qed.

Lemma register_refusals_witness :
  Auth.register Fixture.toy_hash
    (Auth.mkCredentials (JStr "Ann") (JStr "ann@x.io ") (JStr "Other#123"))
    Fixture.members =
  (Auth.mkResponse 409
     (Auth.Failure "Email already registered" (Some "EMAIL_EXISTS") None) None,
   Fixture.members).
Proof.
  refine (proj2 (register_refusals Fixture.toy_hash
    (Auth.mkCredentials (JStr "Ann") (JStr "ann@x.io ") (JStr "Other#123"))
    Fixture.members eq_refl eq_refl) Fixture.ann ("$2b$" ++ "Other#123")
    eq_refl _ _ eq_refl _ eq_refl).
  - discriminate.
  - discriminate.
  - left. reflexivity.
Defined.

(** X27.  Register, then verify.  On tables whose users have distinct ids
    given by the key, when [registerUser] succeeds with id [i], the verify
    route for a token that carries the id [i] answers 200 with the id, the
    trimmed name and the trimmed email of the new user, and the tables are
    as the registration left them. *)
Theorem register_then_verify (bcrypt_hash : string -> Db.result string)
    (nm em pw claim_email : value) (t t' : Users.tables) (i : Z) :
  accounts_distinct t ->
  Users.registerUser bcrypt_hash nm em pw t = (Ok i, t') ->
  Auth.verify_user (mkClaims (JNum (Int i)) claim_email) t' =
  (Auth.mkResponse 200
     (Auth.Verified
        (Users.mkProfile i (trim (Users.to_string nm))
           (trim (Users.to_string em)))) None, t').
Proof.
  intros (_ & _ & Hseq & H0) Hreg.
  apply registerUser_ok in Hreg as (h & _ & _ & _ & _ & -> & ->).
  unfold Auth.verify_user, Users.getUserById. cbn [claim_id to_int].
  rewrite positive_id_valid by lia. cbn [int_of Users.users].
  unfold Users.has_id. cbn [pid_eqb].
  rewrite find_snoc.
  assert (List.find (fun u => Users.id u =? Users.users_seq t + 1)
            (Users.users t) = None) as ->.
  { apply existsb_find_none.
    destruct (existsb _ (Users.users t)) eqn:E; [|reflexivity].
    apply existsb_exists in E as (u & Hin & Hu). apply Z.eqb_eq in Hu.
    rewrite Forall_forall in Hseq. apply list_elem_of_In in Hin.
    specialize (Hseq u Hin). lia. }
  cbn [Users.id]. rewrite Z.eqb_refl. reflexivity.
Qed.

Lemma register_then_verify_witness :
  Auth.verify_user (mkClaims (JNum (Int 2)) (JStr "bob@x.io"))
    (snd (Users.registerUser Fixture.toy_hash (JStr "Bob ") (JStr "bob@x.io")
            (JStr "Hunter#22") Fixture.members)) =
  (Auth.mkResponse 200 (Auth.Verified (Users.mkProfile 2 "Bob" "bob@x.io")) None,
   snd (Users.registerUser Fixture.toy_hash (JStr "Bob ") (JStr "bob@x.io")
          (JStr "Hunter#22") Fixture.members)).
Proof.
  apply (register_then_verify Fixture.toy_hash (JStr "Bob ") (JStr "bob@x.io")
           (JStr "Hunter#22") (JStr "bob@x.io") Fixture.members).
  - repeat split; simpl.
    + apply NoDup_singleton.
    + apply NoDup_singleton.
    + repeat constructor; simpl; lia.
    + lia.
  - reflexivity.
Defined.

(** ** The registration form *)

Lemma append_nil_inv (s1 s2 : string) : s1 ++ s2 = "" -> s1 = "" /\ s2 = "".
Proof. destruct s1; simpl; [tauto|discriminate]. Qed.

Lemma list_ascii_app (s1 s2 : string) :
  list_ascii_of_string (s1 ++ s2) =
  (list_ascii_of_string s1 ++ list_ascii_of_string s2)%list.
Proof. induction s1 as [|c s1 IH]; simpl; [reflexivity|now rewrite IH]. Qed.

Lemma lang_nullable (r : Regex.re) (s : string) :
  Regex.lang r s -> s = "" -> Regex.nullable r = true.
Proof.
  induction 1 as [|f c Hc|r1 r2 s1 s2 _ IH1 _ IH2|r1 r2 s _ IH|r1 r2 s _ IH
                 |r|r s1 s2 _ _ _ _]; intros E; simpl; try reflexivity.
  - discriminate.
  - apply append_nil_inv in E as [E1 E2]. now rewrite IH1, IH2.
  - now rewrite IH.
  - rewrite IH by assumption. apply orb_true_r.
Qed.

Lemma nullable_lang (r : Regex.re) :
  Regex.nullable r = true -> Regex.lang r "".
Proof.
  induction r as [| |f|r1 IH1 r2 IH2|r1 IH1 r2 IH2|r IH]; simpl; intros H;
    try discriminate.
  - constructor.
  - apply andb_prop in H as [H1 H2].
    apply (Regex.lang_seq r1 r2 "" ""); auto.
  - apply orb_prop in H as [H|H].
    + apply Regex.lang_alt_l; auto.
    + apply Regex.lang_alt_r; auto.
  - constructor.
Qed.

Lemma deriv_lang (c : ascii) (r : Regex.re) (s : string) :
  Regex.lang (Regex.deriv c r) s -> Regex.lang r (String c s).
Proof.
  revert s. induction r as [| |f|r1 IH1 r2 IH2|r1 IH1 r2 IH2|r IH];
    simpl; intros s H.
  - inversion H.
  - inversion H.
  - destruct (f c) eqn:Hc; inversion H; subst. now constructor.
  - destruct (Regex.nullable r1) eqn:Hn.
    + inversion H as [| | | ? ? ? H1 | ? ? ? H2 | |]; subst.
      * inversion H1 as [| |? ? s1 s2 Ha Hb| | | |]; subst.
        apply (Regex.lang_seq r1 r2 (String c s1) s2); auto.
      * apply (Regex.lang_seq r1 r2 "" (String c s)); auto.
        now apply nullable_lang.
    + inversion H as [| |? ? s1 s2 Ha Hb| | | |]; subst.
      apply (Regex.lang_seq r1 r2 (String c s1) s2); auto.
  - inversion H; subst.
    + apply Regex.lang_alt_l; auto.
    + apply Regex.lang_alt_r; auto.
  - inversion H as [| |? ? s1 s2 Ha Hb| | | |]; subst.
    apply (Regex.lang_star_cons r (String c s1) s2); auto.
Qed.

Lemma lang_deriv (c : ascii) (r : Regex.re) (s' : string) :
  Regex.lang r s' -> forall s, s' = String c s ->
  Regex.lang (Regex.deriv c r) s.
Proof.
  induction 1 as [|f c0 Hc|r1 r2 s1 s2 H1 IH1 H2 IH2|r1 r2 s0 _ IH
                 |r1 r2 s0 _ IH|r|r s1 s2 H1 IH1 H2 IH2]; intros s E; simpl.
  - discriminate.
  - injection E as -> <-. rewrite Hc. constructor.
  - destruct s1 as [|c1 s1]; simpl in E.
    + rewrite (lang_nullable _ _ H1 eq_refl).
      apply Regex.lang_alt_r. auto.
    + injection E as -> <-.
      destruct (Regex.nullable r1).
      * apply Regex.lang_alt_l. constructor; auto.
      * constructor; auto.
  - apply Regex.lang_alt_l; auto.
  - apply Regex.lang_alt_r; auto.
  - discriminate.
  - destruct s1 as [|c1 s1]; simpl in E.
    + apply IH2 in E. exact E.
    + injection E as -> <-. constructor; auto.
Qed.

Lemma test_lang (r : Regex.re) (s : string) :
  Regex.test r s = true <-> Regex.lang r s.
Proof.
  revert r. induction s as [|c s IH]; intros r; simpl.
  - split; [apply nullable_lang|intros H; now apply (lang_nullable r "")].
  - rewrite IH. split; [apply deriv_lang|].
    intros H. now apply (lang_deriv c r (String c s)).
Qed.

Lemma lang_seq_inv (r1 r2 : Regex.re) (s : string) :
  Regex.lang (Regex.Seq r1 r2) s ->
  exists s1 s2, s = s1 ++ s2 /\ Regex.lang r1 s1 /\ Regex.lang r2 s2.
Proof. inversion 1; subst; eauto. Qed.

Lemma lang_class_inv (f : ascii -> bool) (s : string) :
  Regex.lang (Regex.Class f) s -> exists c, s = String c "" /\ f c = true.
Proof. inversion 1; subst; eauto. Qed.

Lemma lang_star_class (f : ascii -> bool) (s : string) :
  Regex.lang (Regex.Star (Regex.Class f)) s <->
  Forall (fun c => f c = true) (list_ascii_of_string s).
Proof.
  split.
  - intros H. remember (Regex.Star (Regex.Class f)) as r eqn:E.
    induction H as [| | | | | |r s1 s2 H1 _ H2 IH2]; try discriminate.
    + constructor.
    + injection E as ->. apply lang_class_inv in H1 as (c & -> & Hc).
      simpl. constructor; auto.
  - induction s as [|c s IH]; simpl; intros H.
    + constructor.
    + apply Forall_cons in H as [Hc H].
      apply (Regex.lang_star_cons _ (String c "") s); [now constructor|auto].
Qed.

Lemma lang_plus_class (f : ascii -> bool) (s : string) :
  Regex.lang (Regex.Plus (Regex.Class f)) s <->
  s <> "" /\ Forall (fun c => f c = true) (list_ascii_of_string s).
Proof.
  unfold Regex.Plus. split.
  - intros H. apply lang_seq_inv in H as (s1 & s2 & -> & H1 & H2).
    apply lang_class_inv in H1 as (c & -> & Hc).
    apply lang_star_class in H2. simpl. split; [discriminate|].
    constructor; auto.
  - intros [Hne H]. destruct s as [|c s]; [congruence|].
    simpl in H. apply Forall_cons in H as [Hc H].
    apply (Regex.lang_seq _ _ (String c "") s); [now constructor|].
    now apply lang_star_class.
Qed.

Lemma email_pattern_shape (e : string) :
  Regex.test RegisterPage.email_pattern e = true <-> email_shape e.
Proof.
  rewrite test_lang. unfold RegisterPage.email_pattern, email_shape, plain.
  split.
  - intros H.
    apply lang_seq_inv in H as (a & s1 & -> & Ha & H).
    apply lang_seq_inv in H as (x & s2 & -> & Hx & H).
    apply lang_seq_inv in H as (b & s3 & -> & Hb & H).
    apply lang_seq_inv in H as (y & c & -> & Hy & Hc).
    apply lang_class_inv in Hx as (cx & -> & Hx).
    apply lang_class_inv in Hy as (cy & -> & Hy).
    apply Ascii.eqb_eq in Hx, Hy. subst cx cy.
    apply lang_plus_class in Ha, Hb, Hc.
    exists a, b, c. simpl. auto.
  - intros (a & b & c & -> & Ha & Hb & Hc).
    apply lang_plus_class in Ha, Hb, Hc.
    constructor; [assumption|].
    apply (Regex.lang_seq _ _ (String "@" "")); [now constructor|].
    constructor; [assumption|].
    apply (Regex.lang_seq _ _ (String "." "")); [now constructor|].
    assumption.
Qed.

Lemma test_class_has_char (f : ascii -> bool) (s : string) :
  Regex.test_class f s = true <-> has_char f s.
Proof.
  unfold has_char. induction s as [|c s IH]; simpl.
  - split; [discriminate|intros (c & [] & _)].
  - rewrite orb_true_iff, IH. split.
    + intros [H|(c' & Hin & H)]; eauto.
    + intros (c' & [<-|Hin] & H); eauto.
Qed.

Lemma truthy_string (s : string) : truthy (JStr s) = true <-> s <> "".
Proof.
  simpl. destruct (String.eqb_spec s ""); simpl; split; congruence.
Qed.

Lemma validateForm_none (f : RegisterPage.formData) :
  RegisterPage.validateForm f = None <->
  RegisterPage.name f <> "" /\
  email_shape (RegisterPage.email f) /\
  (8 <= String.length (RegisterPage.password f))%nat /\
  has_char RegisterPage.upper (RegisterPage.password f) /\
  has_char RegisterPage.special (RegisterPage.password f) /\
  RegisterPage.confirmPassword f = RegisterPage.password f.
Proof.
  rewrite <- email_pattern_shape, <- !test_class_has_char.
  unfold RegisterPage.validateForm.
  split.
  - destruct (_ || _) eqn:E1; [discriminate|].
    apply orb_false_elim in E1 as [E1 _].
    apply orb_false_elim in E1 as [E1 _].
    apply negb_false_iff, truthy_string in E1.
    destruct (Regex.test RegisterPage.email_pattern _); [|discriminate].
    cbn [negb]. destruct (_ <? 8) eqn:E2; [discriminate|].
    apply Z.ltb_ge in E2.
    destruct (Regex.test_class RegisterPage.upper _); [|discriminate].
    destruct (Regex.test_class RegisterPage.special _); [|discriminate].
    cbn [negb]. destruct (String.eqb_spec (RegisterPage.password f)
                            (RegisterPage.confirmPassword f)); [|discriminate].
    intros _. repeat split; auto. lia.
  - intros (Hn & Hm & Hl & -> & -> & ->).
    assert (RegisterPage.password f <> "") as Hp
      by (intros E; rewrite E in Hl; simpl in Hl; lia).
    assert (RegisterPage.email f <> "") as He
      by (intros E; rewrite E in Hm; discriminate).
    apply truthy_string in Hn, Hp, He. rewrite Hn, Hp, He, Hm.
    cbn [negb orb].
    assert ((Z.of_nat (String.length (RegisterPage.password f)) <? 8) = false)
      as -> by (apply Z.ltb_ge; lia).
    now rewrite String.eqb_refl.
Qed.

(** X28.  What [validateForm] lets through.  The form is accepted exactly
    when the name is not empty, the email is something, an at sign,
    something, a dot and something, where each something is not empty and
    has no white space and no at sign, the password has at least eight
    characters, among them a capital letter from A to Z and one of the
    special characters, and the confirmation equals the password. *)
Theorem validateForm_accepts (f : RegisterPage.formData) :
  RegisterPage.validateForm f = None <->
  RegisterPage.name f <> "" /\
  email_shape (RegisterPage.email f) /\
  (8 <= String.length (RegisterPage.password f))%nat /\
  has_char RegisterPage.upper (RegisterPage.password f) /\
  has_char RegisterPage.special (RegisterPage.password f) /\
  RegisterPage.confirmPassword f = RegisterPage.password f.
Proof. apply validateForm_none. Qed.

Lemma trim_no_space (s : string) :
  Forall (fun c => is_space c = false) (list_ascii_of_string s) ->
  trim s = s.
Proof.
  intros H. unfold trim.
  assert (trim_start s = s) as ->.
  { destruct s as [|c s]; [reflexivity|]. simpl in *.
    apply Forall_cons in H as [-> _]. reflexivity. }
  induction s as [|c s IH]; [reflexivity|]. simpl in *.
  apply Forall_cons in H as [Hc H]. rewrite (IH H), Hc.
  destruct s; reflexivity.
Qed.

Lemma plain_no_space (s : string) :
  plain s -> Forall (fun c => is_space c = false) (list_ascii_of_string s).
Proof.
  intros [_ H]. eapply Forall_impl; [exact H|].
  intros c Hc. simpl in Hc. unfold RegisterPage.not_space_at in Hc.
  apply andb_prop in Hc as [Hc _]. now apply negb_true_iff in Hc.
Qed.

Lemma email_shape_trimmed (e : string) : email_shape e -> trim e = e.
Proof.
  intros (a & b & c & -> & Ha & Hb & Hc). apply trim_no_space.
  apply plain_no_space in Ha, Hb, Hc.
  rewrite list_ascii_app. simpl. rewrite list_ascii_app. simpl.
  apply Forall_app. split; [assumption|].
  constructor; [reflexivity|].
  apply Forall_app. split; [assumption|].
  constructor; [reflexivity|assumption].
Qed.

Lemma email_shape_not_empty (e : string) : email_shape e -> e <> "".
Proof.
  intros (a & b & c & -> & [Ha _] & _). destruct a; [congruence|discriminate].
Qed.

(** What the register route answers to the body of a form the page
    accepted. *)
Lemma register_valid_form (bcrypt_hash : string -> Db.result string)
    (f : RegisterPage.formData) (t : Users.tables) (h : string) :
  RegisterPage.validateForm f = None ->
  bcrypt_hash (RegisterPage.password f) = Ok h ->
  Auth.register bcrypt_hash (RegisterPage.request_body f) t =
  if String.eqb (trim (RegisterPage.name f)) ""
  then
    (Auth.mkResponse 500
       (Auth.Failure "Registration failed" (Some "DB_ERROR")
          (Some "Name, email, and password cannot be empty")) None, t)
  else if existsb (fun u => String.eqb (Users.email u) (RegisterPage.email f))
            (Users.users t)
  then
    (Auth.mkResponse 409
       (Auth.Failure "Email already registered" (Some "EMAIL_EXISTS") None)
       None, t)
  else
    (Auth.mkResponse 201
       (Auth.Registered "User registered successfully" (Users.users_seq t + 1))
       None,
     Users.mkTables
       (Users.users t ++
        [Users.mkUser (Users.users_seq t + 1) (trim (RegisterPage.name f))
           (RegisterPage.email f) h None None None None])%list
       (Users.users_seq t + 1) (Users.contacts t) (Users.contacts_seq t)).
Proof.
  intros Hv Hh. apply validateForm_none in Hv as (Hn & He & Hl & _).
  assert (RegisterPage.password f <> "") as Hp
    by (intros E; rewrite E in Hl; simpl in Hl; lia).
  pose proof (email_shape_not_empty _ He) as He0.
  pose proof (email_shape_trimmed _ He) as Het.
  unfold Auth.register, RegisterPage.request_body.
  cbn [Auth.body_name Auth.body_email Auth.body_password].
  unfold Users.registerUser, Users.exec_insert_user.
  apply truthy_string in Hn as Hn'. apply truthy_string in Hp as Hp'.
  apply truthy_string in He0 as He'.
  rewrite Hn', Hp', He'. cbn [negb orb]. cbn [Users.to_string]. cbv zeta.
  rewrite Het.
  destruct (String.eqb (trim (RegisterPage.name f)) "") eqn:En;
    [reflexivity|].
  destruct (String.eqb_spec (RegisterPage.email f) ""); [congruence|].
  destruct (String.eqb_spec (RegisterPage.password f) ""); [congruence|].
  cbn [orb]. rewrite Hh.
  destruct (existsb _ (Users.users t)); reflexivity.
Qed.

(** X29.  A form the page accepted, sent to the register route.  When
    [validateForm] accepts the form and hashing the password succeeds, the
    route never answers 400 and there are three outcomes.  A name of white
    space only is answered 500, and the page keeps the form and shows
    'Registration failed'.  An email some user already has, compared as it
    was typed, is answered 409, and the page keeps the form and shows
    'Email already registered'.  Otherwise the answer is 201, the new user
    has the next id, the trimmed name, the email exactly as it was typed
    and the hash, and the page clears the form, shows the success toast
    and goes to /login.  In the first two cases the tables are unchanged;
    in all three the page is no longer loading. *)
Theorem valid_form_registration (bcrypt_hash : string -> Db.result string)
    (s : RegisterPage.state) (t : Users.tables) (h : string) :
  RegisterPage.validateForm (RegisterPage.form s) = None ->
  bcrypt_hash (RegisterPage.password (RegisterPage.form s)) = Ok h ->
  let f := RegisterPage.form s in
  let answer := Auth.register bcrypt_hash (RegisterPage.request_body f) t in
  let s' := RegisterPage.handleSubmit (RegisterPage.Replied (fst answer)) s in
  (trim (RegisterPage.name f) = "" ->
   Auth.status (fst answer) = 500 /\ snd answer = t /\
   s' = RegisterPage.mkState f false
          (RegisterPage.toasts s ++
           [RegisterPage.Rejected "Registration failed"])%list
          (RegisterPage.location s)) /\
  (trim (RegisterPage.name f) <> "" ->
   (exists u, In u (Users.users t) /\ Users.email u = RegisterPage.email f) ->
   Auth.status (fst answer) = 409 /\ snd answer = t /\
   s' = RegisterPage.mkState f false
          (RegisterPage.toasts s ++
           [RegisterPage.Rejected "Email already registered"])%list
          (RegisterPage.location s)) /\
  (trim (RegisterPage.name f) <> "" ->
   (forall u, In u (Users.users t) -> Users.email u <> RegisterPage.email f) ->
   fst answer =
   Auth.mkResponse 201
     (Auth.Registered "User registered successfully" (Users.users_seq t + 1))
     None /\
   snd answer =
   Users.mkTables
     (Users.users t ++
      [Users.mkUser (Users.users_seq t + 1) (trim (RegisterPage.name f))
         (RegisterPage.email f) h None None None None])%list
     (Users.users_seq t + 1) (Users.contacts t) (Users.contacts_seq t) /\
   s' = RegisterPage.mkState (RegisterPage.mkForm "" "" "" "") false
          (RegisterPage.toasts s ++ [RegisterPage.Success])%list "/login").
Proof.
  intros Hv Hh. cbv zeta. set (f := RegisterPage.form s) in *.
  rewrite (register_valid_form bcrypt_hash f t h Hv Hh).
  unfold RegisterPage.handleSubmit. fold f. rewrite Hv.
  split; [|split].
  - intros ->. simpl. auto.
  - intros Hn (u & Hin & Hu).
    destruct (String.eqb_spec (trim (RegisterPage.name f)) ""); [congruence|].
    assert (existsb (fun u => String.eqb (Users.email u) (RegisterPage.email f))
              (Users.users t) = true) as ->.
    { apply existsb_exists. exists u. split; [assumption|].
      now apply String.eqb_eq. }
    simpl. auto.
  - intros Hn Hfree.
    destruct (String.eqb_spec (trim (RegisterPage.name f)) ""); [congruence|].
    assert (existsb (fun u => String.eqb (Users.email u) (RegisterPage.email f))
              (Users.users t) = false) as ->.
    { destruct (existsb _ _) eqn:E; [|reflexivity].
      apply existsb_exists in E as (u & Hin & Hu).
      apply String.eqb_eq in Hu. now destruct (Hfree u Hin). }
    simpl. auto.
Qed.

Lemma valid_form_registration_witness :
  RegisterPage.handleSubmit
    (RegisterPage.Replied
       (fst (Auth.register Fixture.toy_hash
               (RegisterPage.request_body Fixture.bob_form) Fixture.members)))
    Fixture.register_page =
  RegisterPage.mkState (RegisterPage.mkForm "" "" "" "") false
    [RegisterPage.Success] "/login".
Proof.
  refine (proj2 (proj2 (proj2 (proj2
            (valid_form_registration Fixture.toy_hash Fixture.register_page
               Fixture.members _ eq_refl eq_refl)) _ _))).
  - discriminate.
  - intros u [<-|[]]. discriminate.
Defined.
